(** * Fleet dashboard: record matching and compliance scoring

    A shallow embedding of the core of [fleet_dashboard.py] (the same
    functions appear unchanged in [fleet_dashboard_auto.py]):
    [clean_excel_data], [find_excel_match], [extract_excel_data],
    [calculate_days_remaining], [get_alert_status] and
    [process_combined_data], together with the parts of pandas, [datetime]
    and the float arithmetic of Python these functions rely on. *)

From Stdlib Require Import ZArith Lia Ascii String PrimFloat SpecFloat FloatOps.
From stdpp Require Import base option list strings gmap.

Open Scope string_scope.
Open Scope Z_scope.

(** ** Python exceptions and results *)

Module Py.

Inductive exn : Set :=
| IndexError
| ValueError
| OverflowError.

Inductive result (A : Type) : Type :=
| Ok (a : A)
| Raise (e : exn).
Arguments Ok {A} a.
Arguments Raise {A} e.

Definition bind {A B} (m : result A) (k : A → result B) : result B :=
  match m with
  | Ok a => k a
  | Raise e => Raise e
  end.

(** [try: m except E: h] for one exception class [E]. *)
Definition try_except {A} (m : result A) (E : exn → bool) (h : result A) : result A :=
  match m with
  | Ok a => Ok a
  | Raise e => if E e then h else Raise e
  end.

(** A bare [except:] catches every exception. *)
Definition try_except_all {A} (m : result A) (h : result A) : result A :=
  try_except m (λ _, true) h.

Definition is_ValueError (e : exn) : bool :=
  match e with ValueError => true | _ => false end.

(** [str.upper()] on ASCII text: the letters a-z move to A-Z, every other
    character is kept.  Column names are taken to be ASCII. *)
Definition upper_ascii (c : ascii) : ascii :=
  let n := nat_of_ascii c in
  if ((97 <=? n)%nat && (n <=? 122)%nat)%bool then ascii_of_nat (n - 32) else c.

Fixpoint upper (s : string) : string :=
  match s with
  | EmptyString => EmptyString
  | String c t => String (upper_ascii c) (upper t)
  end.

(** [s.startswith(p)] *)
Definition startswith (s p : string) : bool := String.prefix p s.

(** [needle in hay] on strings *)
Fixpoint contains (needle hay : string) : bool :=
  if String.prefix needle hay then true
  else match hay with
       | EmptyString => false
       | String _ t => contains needle t
       end.

End Py.

Import Py.

#[global] Instance result_bind : MBind result := λ A B k m, Py.bind m k.
#[global] Instance result_ret : MRet result := @Py.Ok.

(** ** Data frames

    A pandas [DataFrame] is kept row-wise: the column labels, and for every
    row its index label and one cell per column.  A cell is a value with its
    [str()] text, or NaN ([None]).  [read_csv] gives the rows the labels
    0, 1, 2, ... and makes the column labels distinct; filtering rows keeps
    their labels. *)

Definition cell := option string.

Record Row := mkRow { row_label : nat; row_cells : list cell }.

Record DataFrame := mkDF { columns : list string; rows : list Row }.

#[global] Instance Row_eq_dec : EqDecision Row.
Proof. solve_decision. Defined.
#[global] Instance DataFrame_eq_dec : EqDecision DataFrame.
Proof. solve_decision. Defined.

Module Frame.

(** [df.empty]: some axis has length 0. *)
Definition empty (df : DataFrame) : bool :=
  match columns df, rows df with
  | [], _ | _, [] => true
  | _, _ => false
  end.

(** [df.index] *)
Definition index (df : DataFrame) : list nat := row_label <$> rows df.

(** [df.iloc[:, n:]] *)
Definition iloc_cols_from (n : nat) (df : DataFrame) : DataFrame :=
  mkDF (drop n (columns df))
       ((λ r, mkRow (row_label r) (drop n (row_cells r))) <$> rows df).

(** [df.iloc[:, :n]] *)
Definition iloc_cols_to (n : nat) (df : DataFrame) : DataFrame :=
  mkDF (take n (columns df))
       ((λ r, mkRow (row_label r) (take n (row_cells r))) <$> rows df).

(** Position of the column labelled [col]. *)
Definition get_loc (df : DataFrame) (col : string) : option nat :=
  fst <$> list_find (λ c, c = col) (columns df).

(** [df[col]] read at one row, which is also [row[col]] for a row taken
    with [iloc].  A label that is no column reads as NaN here; the callers
    only pass labels drawn from [df.columns]. *)
Definition at_col (df : DataFrame) (col : string) (r : Row) : cell :=
  match get_loc df col with
  | Some i => default None (row_cells r !! i)
  | None => None
  end.

(** [df[mask]] for a mask computed row by row. *)
Definition select (keep : Row → bool) (df : DataFrame) : DataFrame :=
  mkDF (columns df) (List.filter keep (rows df)).

(** [df.iloc[i]] for a non-negative position [i]. *)
Definition iloc (df : DataFrame) (i : nat) : result Row :=
  match rows df !! i with
  | Some r => Ok r
  | None => Raise IndexError
  end.

(** [series.astype(str)] on one cell: NaN becomes the text nan. *)
Definition astype_str (c : cell) : string :=
  match c with
  | Some s => s
  | None => "nan"
  end.

(** [pd.notna] *)
Definition notna (c : cell) : bool :=
  match c with Some _ => true | None => false end.

End Frame.

(** ** clean_excel_data *)

Definition filters_to_remove : list string := ["OLD"; "DKD"; "GNS"; "SOLD"].

(** The mask [df[first_col] != filter_val]; NaN differs from every string. *)
Definition ne_filter (df : DataFrame) (first_col filter_val : string) (r : Row) : bool :=
  match Frame.at_col df first_col r with
  | Some s => negb (String.eqb s filter_val)
  | None => true
  end.

(** The loop [for i, col in enumerate(df.columns)] with its [break]. *)
Fixpoint find_vin_index (i : nat) (cols : list string) : option nat :=
  match cols with
  | [] => None
  | col :: rest =>
      if contains "VIN" (upper col) then Some i else find_vin_index (S i) rest
  end.

Definition clean_excel_data (df : DataFrame) : result DataFrame :=
  if Frame.empty df then Ok df
  else
    (* df.columns[0] of a frame that is not empty *)
    c0 ← match columns df with c :: _ => Ok c | [] => Raise IndexError end;
    let df := if startswith c0 "Unnamed" then Frame.iloc_cols_from 1 df else df in
    first_col ← match columns df with c :: _ => Ok c | [] => Raise IndexError end;
    let df :=
      foldl (λ df filter_val, Frame.select (ne_filter df first_col filter_val) df)
            df filters_to_remove in
    let df :=
      match find_vin_index 0 (columns df) with
      | Some vin_index => Frame.iloc_cols_to (vin_index + 1) df
      | None => df
      end in
    Ok df.

(** ** find_excel_match *)

(** [excel_df[excel_df[col].astype(str) == str(key)]] *)
Definition matches (df : DataFrame) (col key : string) : list Row :=
  List.filter (λ r, String.eqb (Frame.astype_str (Frame.at_col df col r)) key) (rows df).

(** One of the two column loops: the first candidate column that has a
    matching row returns the index label of its first matching row. *)
Fixpoint search_columns (candidate : string → bool) (key : string)
    (df : DataFrame) (cols : list string) : option nat :=
  match cols with
  | [] => None
  | col :: rest =>
      if candidate (upper col) then
        match matches df col key with
        | r :: _ => Some (row_label r)
        | [] => search_columns candidate key df rest
        end
      else search_columns candidate key df rest
  end.

Definition is_id_column (col_upper : string) : bool :=
  contains "TRUCK" col_upper || contains "ID" col_upper.

Definition is_vin_column (col_upper : string) : bool :=
  contains "VIN" col_upper.

Definition find_excel_match (vehicle_name samsara_vin : string) (excel_df : DataFrame)
    : option nat :=
  match search_columns is_id_column vehicle_name excel_df (columns excel_df) with
  | Some i => Some i
  | None =>
      if negb (String.eqb samsara_vin "") then
        search_columns is_vin_column samsara_vin excel_df (columns excel_df)
      else None
  end.

(** ** extract_excel_data *)

(** [str(row[col]) if pd.notna(row[col]) else ''] *)
Definition cell_text (c : cell) : string :=
  if Frame.notna c then Frame.astype_str c else "".

Definition excel_data_init : gmap string string :=
  <["pm_insp_date" := ""]> (<["pm_date" := ""]> (<["annual_date" := ""]>
    (<["status" := ""]> ∅))).

(** The body of the column loop. *)
Definition extract_step (excel_df : DataFrame) (row : Row)
    (excel_data : gmap string string) (col : string) : gmap string string :=
  let col_upper := upper col in
  if contains "STATUS" col_upper then
    <["status" := cell_text (Frame.at_col excel_df col row)]> excel_data
  else if contains "ANNUAL" col_upper then
    <["annual_date" := cell_text (Frame.at_col excel_df col row)]> excel_data
  else if contains "PM" col_upper && contains "DATE" col_upper then
    <["pm_date" := cell_text (Frame.at_col excel_df col row)]> excel_data
  else if contains "PM" col_upper && contains "INSP" col_upper then
    <["pm_insp_date" := cell_text (Frame.at_col excel_df col row)]> excel_data
  else excel_data.

Definition extract_excel_data (row_index : nat) (excel_df : DataFrame)
    : result (gmap string string) :=
  row ← Frame.iloc excel_df row_index;
  Ok (foldl (extract_step excel_df row) excel_data_init (columns excel_df)).

(** ** get_alert_status *)

Definition get_alert_status (days_remaining : option Z) : string :=
  match days_remaining with
  | None => "No Data"
  | Some d =>
      if d <? 0 then "OVERDUE"
      else if d <=? 30 then "CRITICAL"
      else if d <=? 60 then "WARNING"
      else "OK"
  end.

(** ** The datetime module

    Dates are those of the proleptic Gregorian calendar, years 1 to 9999;
    the definitions follow the pure-Python [datetime] implementation. *)

Module Datetime.

Definition MINYEAR : Z := 1.
Definition MAXYEAR : Z := 9999.

Record datetime := mk_datetime {
  year : Z; month : Z; day : Z;
  hour : Z; minute : Z; second : Z; microsecond : Z
}.

Definition is_leap (year : Z) : bool :=
  (year mod 4 =? 0) && (negb (year mod 100 =? 0) || (year mod 400 =? 0)).

Definition days_before_year (year : Z) : Z :=
  let y := year - 1 in y * 365 + y / 4 - y / 100 + y / 400.

Definition DAYS_IN_MONTH : list Z :=
  [-1; 31; 28; 31; 30; 31; 30; 31; 31; 30; 31; 30; 31].

Definition DAYS_BEFORE_MONTH : list Z :=
  [-1; 0; 31; 59; 90; 120; 151; 181; 212; 243; 273; 304; 334].

Definition days_in_month (year month : Z) : Z :=
  if (month =? 2) && is_leap year then 29
  else nth (Z.to_nat month) DAYS_IN_MONTH 0.

Definition days_before_month (year month : Z) : Z :=
  nth (Z.to_nat month) DAYS_BEFORE_MONTH 0
  + (if (2 <? month) && is_leap year then 1 else 0).

Definition ymd2ord (year month day : Z) : Z :=
  days_before_year year + days_before_month year month + day.

(** The range checks of the [date] and [datetime] constructors. *)
Definition date_fields_ok (year month day : Z) : bool :=
  (MINYEAR <=? year) && (year <=? MAXYEAR)
  && (1 <=? month) && (month <=? 12)
  && (1 <=? day) && (day <=? days_in_month year month).

Definition time_fields_ok (dt : datetime) : bool :=
  (0 <=? hour dt) && (hour dt <=? 23)
  && (0 <=? minute dt) && (minute dt <=? 59)
  && (0 <=? second dt) && (second dt <=? 59)
  && (0 <=? microsecond dt) && (microsecond dt <=? 999999).

(** The values the constructor accepts. *)
Definition valid (dt : datetime) : bool :=
  date_fields_ok (year dt) (month dt) (day dt) && time_fields_ok dt.

Definition toordinal (dt : datetime) : Z :=
  ymd2ord (year dt) (month dt) (day dt).

Definition seconds_of_day (dt : datetime) : Z :=
  second dt + minute dt * 60 + hour dt * 3600.

(** [(a - b).days]: the subtraction builds
    [timedelta(days, seconds, microseconds)] from the three differences,
    and the constructor carries microseconds into seconds and seconds into
    days by floor division. *)
Definition sub_days (a b : datetime) : Z :=
  let days := toordinal a - toordinal b in
  let secs := seconds_of_day a - seconds_of_day b in
  let us := microsecond a - microsecond b in
  days + (secs + us / 1000000) / 86400.

End Datetime.

Import Datetime.

(** ** datetime.strptime

    [_strptime] turns the format into a regular expression, one named group
    per directive, matches it at the start of the text, rejects text left
    over, and builds the date from the groups.  Only the directives the
    dashboard's formats use are covered ([%d], [%m], [%Y]); text and formats
    are ASCII, where [\d] is 0-9. *)

Module Strptime.

Inductive directive : Set := dir_d | dir_m | dir_Y.

Inductive piece : Set :=
| Lit (c : ascii)
| Dir (d : directive).

Definition charclass : Type := ascii → bool.

Definition range (lo hi : ascii) : charclass :=
  λ c, ((nat_of_ascii lo <=? nat_of_ascii c)%nat
        && (nat_of_ascii c <=? nat_of_ascii hi)%nat)%bool.

Definition only (a : ascii) : charclass := λ c, Ascii.eqb a c.

Definition digit : charclass := range "0" "9".

(** The alternatives of each directive's group, in the order of [TimeRE]:
    d: 3[0-1] | [1-2]\d | 0[1-9] | [1-9] | blank [1-9];
    m: 1[0-2] | 0[1-9] | [1-9];  Y: \d\d\d\d. *)
Definition alternatives (d : directive) : list (list charclass) :=
  match d with
  | dir_d => [ [only "3"; range "0" "1"]; [range "1" "2"; digit];
               [only "0"; range "1" "9"]; [range "1" "9"];
               [only " "; range "1" "9"] ]
  | dir_m => [ [only "1"; range "0" "2"]; [only "0"; range "1" "9"];
               [range "1" "9"] ]
  | dir_Y => [ [digit; digit; digit; digit] ]
  end.

Definition directive_of (c : ascii) : option directive :=
  if Ascii.eqb c "d" then Some dir_d
  else if Ascii.eqb c "m" then Some dir_m
  else if Ascii.eqb c "Y" then Some dir_Y
  else None.

(** [TimeRE.pattern]: a percent sign and the next character make a
    directive, every other character stands for itself.  [None] is the
    [ValueError] of a bad directive or a stray percent sign. *)
Fixpoint pattern (format : string) : option (list piece) :=
  match format with
  | EmptyString => Some []
  | String "%" (String x rest) =>
      match directive_of x, pattern rest with
      | Some d, Some ps => Some (Dir d :: ps)
      | _, _ => None
      end
  | String "%" EmptyString => None
  | String c rest =>
      match pattern rest with
      | Some ps => Some (Lit c :: ps)
      | None => None
      end
  end.

(** One alternative: a run of character classes read off the text. *)
Fixpoint take_classes (cls : list charclass) (s : string) : option (string * string) :=
  match cls with
  | [] => Some (EmptyString, s)
  | p :: cls' =>
      match s with
      | String c t =>
          if p c then
            match take_classes cls' t with
            | Some (m, r) => Some (String c m, r)
            | None => None
            end
          else None
      | EmptyString => None
      end
  end.

Record groups := mk_groups {
  group_d : option string; group_m : option string; group_Y : option string
}.

Definition set_group (d : directive) (txt : string) (g : groups) : groups :=
  match d with
  | dir_d => mk_groups (Some txt) (group_m g) (group_Y g)
  | dir_m => mk_groups (group_d g) (Some txt) (group_Y g)
  | dir_Y => mk_groups (group_d g) (group_m g) (Some txt)
  end.

(** The first alternative, in order, for which the rest of the expression
    matches too. *)
Definition first_match {A B} (f : A → option B) : list A → option B :=
  fix go l :=
    match l with
    | [] => None
    | a :: l' => match f a with Some b => Some b | None => go l' end
    end.

(** [format_regex.match]: the groups and the text that is left. *)
Fixpoint re_match (re : list piece) (s : string) (g : groups) : option (groups * string) :=
  match re with
  | [] => Some (g, s)
  | Lit c :: re' =>
      match s with
      | String c' t => if Ascii.eqb c c' then re_match re' t g else None
      | EmptyString => None
      end
  | Dir d :: re' =>
      first_match
        (λ alt, match take_classes alt s with
                | Some (txt, rest) => re_match re' rest (set_group d txt g)
                | None => None
                end)
        (alternatives d)
  end.

(** [int(text)] for a group's text: digits, after an optional blank. *)
Fixpoint int_digits (acc : Z) (s : string) : Z :=
  match s with
  | EmptyString => acc
  | String c t =>
      if Ascii.eqb c " " then int_digits acc t
      else int_digits (10 * acc + (Z.of_nat (nat_of_ascii c) - 48)) t
  end.

Definition int (s : string) : Z := int_digits 0 s.

Definition strptime (data_string format : string) : result datetime :=
  match pattern format with
  | None => Raise ValueError
  | Some re =>
      match re_match re data_string (mk_groups None None None) with
      | None => Raise ValueError
      | Some (found, rest) =>
          if negb (String.eqb rest "") then Raise ValueError
          else
            let year := from_option int 1900 (group_Y found) in
            let month := from_option int 1 (group_m found) in
            let day := from_option int 1 (group_d found) in
            if date_fields_ok year month day
            then Ok (mk_datetime year month day 0 0 0 0)
            else Raise ValueError
      end
  end.

End Strptime.

(** ** calculate_days_remaining *)

(** What the function may be handed: [None], NaN or a string. *)
Inductive date_arg : Set :=
| ArgNone
| ArgNaN
| ArgStr (s : string).

Definition date_formats : list string :=
  ["%m/%d/%Y"; "%Y-%m-%d"; "%d.%m.%Y"; "%m-%d-%Y"].

(** The loop over the formats.  [strptime] is [datetime.strptime] and [now]
    is what [datetime.now()] returns. *)
Fixpoint try_formats (strptime : string → string → result datetime)
    (now : datetime) (text : string) (fmts : list string) : result (option Z) :=
  match fmts with
  | [] => Ok None
  | fmt :: rest =>
      try_except
        (target_date ← strptime text fmt;
         let today := now in
         Ok (Some (sub_days target_date today)))
        is_ValueError
        (try_formats strptime now text rest)
  end.

(** The function with the parser left open. *)
Definition calculate_days_remaining_with (strptime : string → string → result datetime)
    (now : datetime) (date_value : date_arg) : result (option Z) :=
  match date_value with
  | ArgNone => Ok None
  | ArgNaN => Ok None
  | ArgStr s =>
      if String.eqb s "" then Ok None
      else try_except_all (try_formats strptime now s date_formats) (Ok None)
  end.

Definition calculate_days_remaining : datetime → date_arg → result (option Z) :=
  calculate_days_remaining_with Strptime.strptime.

(** ** Python numbers

    [int / float], [round(x, 0)] and [int(x)] on binary64 floats, computed
    with the kernel's floats and their decoding into sign, mantissa and
    exponent. *)

Module PyFloat.

(** [float(n)]: the nearest double, ties to even; an [int] beyond the
    range of doubles raises [OverflowError]. *)
Definition of_int (n : Z) : result float :=
  match binary_normalize prec emax n 0 false with
  | S754_infinity _ => Raise OverflowError
  | sf => Ok (SF2Prim sf)
  end.

(** The integer nearest to [m * 2 ^ e], ties to even. *)
Definition nearest_even (m e : Z) : Z :=
  if 0 <=? e then m * 2 ^ e
  else
    let d := 2 ^ (- e) in
    let q := m / d in
    let r := m mod d in
    if 2 * r <? d then q
    else if d <? 2 * r then q + 1
    else if Z.even q then q else q + 1.

(** [round(x, 0)]: a float again; NaN and the infinities are returned as
    they are, and the sign of a zero result is that of [x]. *)
Definition round0 (x : float) : float :=
  match Prim2SF x with
  | S754_finite s m e =>
      let q := nearest_even (Z.pos m) e in
      SF2Prim (binary_normalize prec emax (if s then - q else q) 0 s)
  | _ => x
  end.

(** [int(x)]: truncation towards zero. *)
Definition to_int (x : float) : result Z :=
  match Prim2SF x with
  | S754_zero _ => Ok 0
  | S754_finite s m e =>
      let a := if 0 <=? e then Z.pos m * 2 ^ e else Z.pos m / 2 ^ (- e) in
      Ok (if s then - a else a)
  | S754_infinity _ => Raise OverflowError
  | S754_nan => Raise ValueError
  end.

(** The literal 1609.34, that is the double nearest to it. *)
Definition METERS_PER_MILE : float := 0x1.9255c28f5c28fp+10%float.

End PyFloat.

(** A value that is an [int] or a [float]. *)
Inductive number : Set :=
| Int (n : Z)
| Float (x : float).

(** [int(v)] *)
Definition py_int (v : number) : result Z :=
  match v with
  | Int n => Ok n
  | Float x => PyFloat.to_int x
  end.

(** ** process_combined_data *)

(** A metric of the statistics feed: a dict with the keys [value] (whole
    meters) and [time], either of which may be missing. *)
Record Reading := mk_reading {
  reading_value : option Z;
  reading_time : option string
}.

(** A vehicle record of the feed; [None] is a key that is missing. *)
Record Vehicle := mk_vehicle {
  vehicle_id : option string;
  vehicle_name : option string;
  externalIds : option (gmap string string);
  obdOdometerMeters : option Reading;
  gpsDistanceMeters : option Reading
}.

Record CombinedInfo := mk_combined {
  Vehicle_ID : string;
  Vehicle_Name : string;
  VIN : string;
  Serial : string;
  OBD_Odometer_Miles : Z;
  GPS_Distance_Miles : Z;
  OBD_Last_Update : string;
  GPS_Last_Update : string;
  Status : string;
  Annual_Date : string;
  Annual_Days_Remaining : option Z;
  PM_Date : string;
  PM_Days_Remaining : option Z;
  PM_Insp_Date : string;
  PM_Insp_Days_Remaining : option Z;
  Annual_Alert : string;
  PM_Alert : string;
  PM_Insp_Alert : string
}.

(** The empty dict [{}] that stands in for a missing metric. *)
Definition no_reading : Reading := mk_reading None None.

(** Truth value of a metric dict: it has some key. *)
Definition reading_truthy (data : Reading) : bool :=
  match reading_value data, reading_time data with
  | None, None => false
  | _, _ => true
  end.

(** [round(data.get('value', 0) / 1609.34, 0) if data.get('value') else 0] *)
Definition meters_to_miles (data : Reading) : result number :=
  match reading_value data with
  | Some v =>
      if negb (v =? 0) then
        x ← PyFloat.of_int v;
        Ok (Float (PyFloat.round0 (x / PyFloat.METERS_PER_MILE)%float))
      else Ok (Int 0)
  | None => Ok (Int 0)
  end.

(** [data.get('time', '') if data else ''] *)
Definition last_update (data : Reading) : string :=
  if reading_truthy data then default "" (reading_time data) else "".

(** [excel_data.get(key)] as an argument of [calculate_days_remaining]. *)
Definition date_arg_of (o : option string) : date_arg :=
  match o with
  | Some s => ArgStr s
  | None => ArgNone
  end.

(** The loop over the vehicles.  [clock k] is the reading of the clock that
    the [k]-th call of [calculate_days_remaining] gets; [calls] counts the
    calls made so far. *)
Fixpoint combine_loop (clock : nat → datetime) (excel_df : DataFrame)
    (samsara_data : list Vehicle) (calls : nat) (combined_data : list CombinedInfo)
    : result (list CombinedInfo) :=
  match samsara_data with
  | [] => Ok combined_data
  | vehicle :: rest =>
      let vehicle_id := default "" (vehicle_id vehicle) in
      let vehicle_name := default "" (vehicle_name vehicle) in
      let samsara_vin := default "" (default ∅ (externalIds vehicle) !! "samsara.vin") in
      let serial := default "" (default ∅ (externalIds vehicle) !! "samsara.serial") in
      let obd_data := default no_reading (obdOdometerMeters vehicle) in
      obd_miles ← meters_to_miles obd_data;
      let obd_time := last_update obd_data in
      let gps_data := default no_reading (gpsDistanceMeters vehicle) in
      gps_miles ← meters_to_miles gps_data;
      let gps_time := last_update gps_data in
      match find_excel_match vehicle_name samsara_vin excel_df with
      | Some excel_match =>
          excel_data ← extract_excel_data excel_match excel_df;
          annual_days ←
            calculate_days_remaining (clock calls) (date_arg_of (excel_data !! "annual_date"));
          pm_days ←
            calculate_days_remaining (clock (S calls)) (date_arg_of (excel_data !! "pm_date"));
          pm_insp_days ←
            calculate_days_remaining (clock (S (S calls)))
              (date_arg_of (excel_data !! "pm_insp_date"));
          obd_int ← py_int obd_miles;
          gps_int ← py_int gps_miles;
          let combined_info := {|
            Vehicle_ID := vehicle_id;
            Vehicle_Name := vehicle_name;
            VIN := samsara_vin;
            Serial := serial;
            OBD_Odometer_Miles := obd_int;
            GPS_Distance_Miles := gps_int;
            OBD_Last_Update := obd_time;
            GPS_Last_Update := gps_time;
            Status := default "" (excel_data !! "status");
            Annual_Date := default "" (excel_data !! "annual_date");
            Annual_Days_Remaining := annual_days;
            PM_Date := default "" (excel_data !! "pm_date");
            PM_Days_Remaining := pm_days;
            PM_Insp_Date := default "" (excel_data !! "pm_insp_date");
            PM_Insp_Days_Remaining := pm_insp_days;
            Annual_Alert := get_alert_status annual_days;
            PM_Alert := get_alert_status pm_days;
            PM_Insp_Alert := get_alert_status pm_insp_days
          |} in
          combine_loop clock excel_df rest (3 + calls) (combined_data ++ [combined_info])
      | None => combine_loop clock excel_df rest calls combined_data
      end
  end.

(** The result is the list of records the final data frame is built from;
    [pd.DataFrame()] is the empty list. *)
Definition process_combined_data (clock : nat → datetime)
    (samsara_data : list Vehicle) (excel_df : DataFrame) : result (list CombinedInfo) :=
  match samsara_data with
  | [] => Ok []
  | _ :: _ =>
      if Frame.empty excel_df then Ok []
      else combine_loop clock excel_df samsara_data 0 []
  end.


(** * Vocabulary of the statements *)

(** ** Cleaning *)


(** A row passes all four masks. *)
Definition keep_row (df : DataFrame) (first_col : string) (r : Row) : bool :=
  forallb (λ filter_val, ne_filter df first_col filter_val r) filters_to_remove.

(** The cell is one of the four literals, compared as whole strings. *)
Definition excluded (c : cell) : bool :=
  match c with
  | Some s => bool_decide (s ∈ filters_to_remove)
  | None => false
  end.

(** The frame after the optional drop of a leading unnamed column. *)
Definition shifted (df : DataFrame) : DataFrame :=
  match columns df with
  | c0 :: _ => if startswith c0 "Unnamed" then Frame.iloc_cols_from 1 df else df
  | [] => df
  end.

(** The value a raw row has in the column that is first after that drop. *)
Definition first_value (df : DataFrame) (r : Row) : cell :=
  match columns df with
  | [] => None
  | c0 :: _ =>
      default None (row_cells r !! (if startswith c0 "Unnamed" then 1 else 0)%nat)
  end.

(** The cut after the first VIN column. *)
Definition vin_trim (df : DataFrame) : DataFrame :=
  match find_vin_index 0 (columns df) with
  | Some vin_index => Frame.iloc_cols_to (vin_index + 1) df
  | None => df
  end.

(** The first column label starts with the placeholder prefix. *)
Definition leading_unnamed (df : DataFrame) : bool :=
  match columns df with
  | c0 :: _ => startswith c0 "Unnamed"
  | [] => false
  end.

(** ** Matching *)

(** [c] is the leftmost column of [cols] that the phase takes as a
    candidate. *)
Definition leftmost_candidate (candidate : string → bool) (cols : list string)
    (c : string) : Prop :=
  ∃ pre post : list string,
    cols = (pre ++ c :: post)%list
    ∧ candidate (upper c) = true
    ∧ Forall (λ x, candidate (upper x) = false) pre.

(** What a column loop returns, said without the loop: the label of the
    first matching row of the first candidate column that has one. *)
Definition first_hit (candidate : string → bool) (key : string) (df : DataFrame)
    (cols : list string) (label : nat) : Prop :=
  ∃ (pre : list string) c post r rs,
    cols = (pre ++ c :: post)%list
    ∧ candidate (upper c) = true
    ∧ matches df c key = r :: rs
    ∧ label = row_label r
    ∧ Forall (λ x, candidate (upper x) = true → matches df x key = []) pre.

(** A cleaned frame with two identifier columns. *)
Definition two_id_table : DataFrame :=
  mkDF ["TRUCK"; "ASSET_ID"; "VIN"]
       [ mkRow 0 [Some "T-1"; Some "A-9"; Some "1FT123"] ].

(** ** Field extraction *)

(** The four roles with their tests on the upper-cased column label, in the
    order in which the spec lists them. *)
Definition role_tests : list (string * (string → bool)) :=
  [ ("status", λ u, contains "STATUS" u);
    ("annual_date", λ u, contains "ANNUAL" u);
    ("pm_date", λ u, contains "PM" u && contains "DATE" u);
    ("pm_insp_date", λ u, contains "PM" u && contains "INSP" u) ].

Definition roles : list string := fst <$> role_tests.

(** The role of a column: that of the first test its label passes. *)
Definition first_role (col : string) : option string :=
  (λ t, fst (snd t)) <$> list_find (λ t, snd t (upper col) = true) role_tests.

(** The columns that qualify for a role, left to right. *)
Definition qualifying (role : string) (cols : list string) : list string :=
  filter (λ c, first_role c = Some role) cols.

(** A frame in which two columns qualify as PM date and one column passes
    two tests. *)
Definition pm_table : DataFrame :=
  mkDF ["TRUCK"; "PM DATE"; "STATUS PM DATE"; "LAST PM DATE"; "PM INSP"]
       [ mkRow 0 [Some "T-1"; Some "01/02/2025"; Some "Active"; Some "03/04/2025"; None] ].

(** ** Dates *)

(** The character of a decimal digit. *)
Definition digit_char (d : Z) : ascii := ascii_of_nat (48 + Z.to_nat d).

Definition pad2 (n : Z) : string :=
  String (digit_char (n / 10)) (String (digit_char (n mod 10)) EmptyString).

Definition pad4 (n : Z) : string :=
  String (digit_char (n / 1000)) (String (digit_char (n / 100 mod 10)) (pad2 (n mod 100))).

Definition render (y m d : Z) (p : Strptime.piece) : string :=
  match p with
  | Strptime.Lit c => String c EmptyString
  | Strptime.Dir Strptime.dir_d => pad2 d
  | Strptime.Dir Strptime.dir_m => pad2 m
  | Strptime.Dir Strptime.dir_Y => pad4 y
  end.

(** The date [y]-[m]-[d] written in one of the formats: day and month with
    two digits and the year with four, as [%Y] reads it back. *)
Definition strftime (y m d : Z) (format : string) : string :=
  match Strptime.pattern format with
  | Some ps => foldr (λ p acc, render y m d p ++ acc) EmptyString ps
  | None => EmptyString
  end.

(** The reading of the clock is exactly midnight. *)
Definition at_midnight (now : datetime) : bool :=
  (seconds_of_day now =? 0) && (microsecond now =? 0).

(** The date the dashboard reads from a text: that of the first format, in
    order, that parses. *)
Definition parse_date (text : string) : option datetime :=
  Strptime.first_match
    (λ fmt, match Strptime.strptime text fmt with Ok dt => Some dt | Raise _ => None end)
    date_formats.

(** The separators of the four formats. *)
Definition is_separator (c : ascii) : Prop :=
  c = "/"%char ∨ c = "-"%char ∨ c = "."%char.


(** ** Reconciliation *)

(** The mileage of a reading as the spec words it: the meters divided by
    1609.34, rounded, as an integer, when the value is there, and 0 when it
    is not. *)
Definition spec_miles (value : option Z) : result Z :=
  match value with
  | Some meters =>
      x ← PyFloat.of_int meters;
      PyFloat.to_int (PyFloat.round0 (x / PyFloat.METERS_PER_MILE)%float)
  | None => Ok 0
  end.

(** The name and the VIN under which a vehicle is looked up. *)
Definition lookup_name (v : Vehicle) : string := default "" (vehicle_name v).

Definition lookup_vin (v : Vehicle) : string :=
  default "" (default ∅ (externalIds v) !! "samsara.vin").

(** The vehicle finds a row of the frame. *)
Definition matched (excel_df : DataFrame) (v : Vehicle) : bool :=
  bool_decide (is_Some (find_excel_match (lookup_name v) (lookup_vin v) excel_df)).

(** An output record carries the identity and the two mileages of [v]. *)
Definition record_of (v : Vehicle) (info : CombinedInfo) : Prop :=
  Vehicle_ID info = default "" (vehicle_id v)
  ∧ Vehicle_Name info = lookup_name v
  ∧ VIN info = lookup_vin v
  ∧ Ok (OBD_Odometer_Miles info)
      = spec_miles (reading_value (default no_reading (obdOdometerMeters v)))
  ∧ Ok (GPS_Distance_Miles info)
      = spec_miles (reading_value (default no_reading (gpsDistanceMeters v))).

(** A spreadsheet whose first row is a retired unit, and the vehicle of its
    second row. *)
Definition sheet_with_old_row : DataFrame :=
  mkDF ["TRUCK_ID"; "STATUS"; "ANNUAL_DATE"; "VIN"]
       [ mkRow 0 [Some "OLD"; None; None; None];
         mkRow 1 [Some "T-1"; Some "Active"; Some "01/01/2020"; Some "1FT123"] ].

Definition sheet_without_old_row : DataFrame :=
  mkDF ["TRUCK_ID"; "STATUS"; "ANNUAL_DATE"; "VIN"]
       [ mkRow 1 [Some "T-1"; Some "Active"; Some "01/01/2020"; Some "1FT123"] ].

Definition vehicle_T1 : Vehicle :=
  mk_vehicle (Some "281474") (Some "T-1") None
             (Some (mk_reading (Some 160934) (Some "2025-01-15T12:00:00Z"))) None.

(** ** Sample data *)

(** A spreadsheet export with two blank header cells, which [read_csv]
    labels Unnamed: 0 and Unnamed: 1. *)
Definition sheet_two_unnamed : DataFrame :=
  mkDF ["Unnamed: 0"; "Unnamed: 1"; "TRUCK_ID"; "VIN"]
       [ mkRow 0 [None; Some "x"; Some "T-1"; Some "1FT123"] ].

(** The same sheet after one and after two cleanings. *)
Definition sheet_one_unnamed : DataFrame :=
  mkDF ["Unnamed: 1"; "TRUCK_ID"; "VIN"]
       [ mkRow 0 [Some "x"; Some "T-1"; Some "1FT123"] ].

Definition sheet_no_unnamed : DataFrame :=
  mkDF ["TRUCK_ID"; "VIN"]
       [ mkRow 0 [Some "T-1"; Some "1FT123"] ].

(** The one-row table of the end-to-end scenario of the spec. *)
Definition sheet_T1 : DataFrame :=
  mkDF ["TRUCK_ID"; "STATUS"; "ANNUAL_DATE"]
       [ mkRow 0 [Some "T-1"; Some "Active"; Some "01/01/2020"] ].

(** Noon of 15 January 2025, and a clock that stands still there. *)
Definition noon : datetime := mk_datetime 2025 1 15 12 0 0 0.

Definition clock_at_noon : nat → datetime := λ _, noon.

(** ** More on dates *)

(** The text starts with a day or month of one or two characters and then
    the separator [c]. *)
Definition separator_shape (c : ascii) (text : string) : Prop :=
  ∃ x y rest,
    text = String x (String y rest)
    ∧ (y = c ∨ (Strptime.digit y = true ∧ ∃ rest', rest = String c rest')).

(** The text starts with four characters of which the second and the third
    are digits. *)
Definition year_shape (text : string) : Prop :=
  ∃ x y z w rest,
    text = String x (String y (String z (String w rest)))
    ∧ Strptime.digit y = true ∧ Strptime.digit z = true.

(** What each format asks of the start of a text. *)
Definition format_shape (format text : string) : Prop :=
  if String.eqb format "%m/%d/%Y" then separator_shape "/" text
  else if String.eqb format "%Y-%m-%d" then year_shape text
  else if String.eqb format "%d.%m.%Y" then separator_shape "." text
  else if String.eqb format "%m-%d-%Y" then separator_shape "-" text
  else False.

(** A date written in a format with given texts for the year, the month and
    the day, followed by [suffix]. *)
Definition written (ytext mtext dtext : string) (format suffix : string) : string :=
  match Strptime.pattern format with
  | Some ps =>
      foldr (λ p acc,
               match p with
               | Strptime.Lit c => String c acc
               | Strptime.Dir Strptime.dir_d => dtext ++ acc
               | Strptime.Dir Strptime.dir_m => mtext ++ acc
               | Strptime.Dir Strptime.dir_Y => ytext ++ acc
               end) suffix ps
  | None => suffix
  end.

(** A number below 100 written without a leading zero. *)
Definition unpadded (n : Z) : string :=
  if n <? 10 then String (digit_char n) EmptyString else pad2 n.

(** A text of one character, or of two of which the second is a digit. *)
Definition short_text (t : string) : Prop :=
  (∃ x, t = String x EmptyString)
  ∨ (∃ x y, t = String x (String y EmptyString) ∧ Strptime.digit y = true).

(** A text that the month group reads, before any separator, as [m]. *)
Definition reads_month (t : string) (m : Z) : Prop :=
  short_text t ∧ Strptime.int t = m
  ∧ ∀ c re s g, is_separator c →
      Strptime.re_match (Strptime.Dir Strptime.dir_m :: Strptime.Lit c :: re)
                        (t ++ String c s) g
      = Strptime.re_match re s (Strptime.set_group Strptime.dir_m t g).

(** A text that the day group reads, before a separator and before
    [suffix] at the end of the format, as [d]. *)
Definition reads_day (t : string) (d : Z) (suffix : string) : Prop :=
  short_text t ∧ Strptime.int t = d
  ∧ (∀ c re s g, is_separator c →
       Strptime.re_match (Strptime.Dir Strptime.dir_d :: Strptime.Lit c :: re)
                         (t ++ String c s) g
       = Strptime.re_match re s (Strptime.set_group Strptime.dir_d t g))
  ∧ (∀ g, Strptime.re_match [Strptime.Dir Strptime.dir_d] (t ++ suffix) g
          = Some (Strptime.set_group Strptime.dir_d t g, suffix)).

(** How urgent a tier is. *)
Definition severity (tier : string) : Z :=
  if String.eqb tier "OVERDUE" then 3
  else if String.eqb tier "CRITICAL" then 2
  else if String.eqb tier "WARNING" then 1
  else 0.

(** ** More on the pipeline *)

(** Some cell of column [c] reads as [key]. *)
Definition column_holds (df : DataFrame) (c key : string) : Prop :=
  ∃ r, r ∈ rows df ∧ Frame.astype_str (Frame.at_col df c r) = key.

(** What [extract_excel_data] reads for a role in a row: the text of the
    cell in the last column that qualifies, or the empty text. *)
Definition field_of (df : DataFrame) (row : Row) (role : string) : string :=
  match last (qualifying role (columns df)) with
  | Some c => cell_text (Frame.at_col df c row)
  | None => ""
  end.

(** The record was filled from the row at the position that
    [find_excel_match] returned for its vehicle: its texts are the fields of
    that row, each number of days is what [calculate_days_remaining] makes of
    the text at one reading of the clock, and each alert classifies that
    number. *)
Definition filled_from (clock : nat → datetime) (df : DataFrame)
    (info : CombinedInfo) : Prop :=
  ∃ (label : nat) (row : Row) (k : nat),
    find_excel_match (Vehicle_Name info) (VIN info) df = Some label
    ∧ rows df !! label = Some row
    ∧ Status info = field_of df row "status"
    ∧ Annual_Date info = field_of df row "annual_date"
    ∧ PM_Date info = field_of df row "pm_date"
    ∧ PM_Insp_Date info = field_of df row "pm_insp_date"
    ∧ calculate_days_remaining (clock k) (ArgStr (Annual_Date info))
      = Ok (Annual_Days_Remaining info)
    ∧ calculate_days_remaining (clock (S k)) (ArgStr (PM_Date info))
      = Ok (PM_Days_Remaining info)
    ∧ calculate_days_remaining (clock (S (S k))) (ArgStr (PM_Insp_Date info))
      = Ok (PM_Insp_Days_Remaining info)
    ∧ Annual_Alert info = get_alert_status (Annual_Days_Remaining info)
    ∧ PM_Alert info = get_alert_status (PM_Days_Remaining info)
    ∧ PM_Insp_Alert info = get_alert_status (PM_Insp_Days_Remaining info).

(** * The dashboards

    What [fleet_dashboard_auto.py] and [fleet_dashboard.py] compute from the
    records of [process_combined_data].  A data frame of such records is the
    list of its rows. *)

(** [value in values] and [series.isin(values)] at one row *)
Definition isin (value : string) (values : list string) : bool :=
  existsb (String.eqb value) values.

(** [series.max()]: NaN, here [None], for a series with no entry. *)
Definition series_max (l : list Z) : option Z :=
  match l with
  | [] => None
  | x :: rest => Some (foldl Z.max x rest)
  end.

(** [pd.Series(l).value_counts()] as the map from each value that occurs to
    the number of its occurrences; the order of the entries is left out. *)
Definition value_counts (l : list string) : gmap string nat :=
  foldr (λ x counts, <[x := S (default 0%nat (counts !! x))]> counts) ∅ l.

(** [series.unique()]: the values in the order of their first appearance. *)
Fixpoint unique_from (seen l : list string) : list string :=
  match l with
  | [] => []
  | x :: rest =>
      if isin x seen then unique_from seen rest
      else x :: unique_from (x :: seen) rest
  end.

Definition unique (l : list string) : list string := unique_from [] l.

(** [float(n)] for a count *)
Definition float_of_count (n : nat) : float :=
  SF2Prim (binary_normalize prec emax (Z.of_nat n) 0 false).

(** ** create_metrics_summary *)

Record Metrics := mk_metrics {
  total_vehicles : nat;
  annual_ok : nat;
  annual_overdue : nat;
  annual_critical : nat;
  pm_ok : nat;
  pm_overdue : nat;
  pm_critical : nat;
  avg_mileage : float;
  max_mileage : option Z;
  high_mileage_count : nat;
  fleet_health : number
}.

(** [len(df[df[col] == value])] *)
Definition count_eq (col : CombinedInfo → string) (value : string)
    (df : list CombinedInfo) : nat :=
  length (List.filter (λ r, String.eqb (col r) value) df).

(** The local [fully_compliant]. *)
Definition fully_compliant (df : list CombinedInfo) : nat :=
  length (List.filter
    (λ r, String.eqb (Annual_Alert r) "OK" && String.eqb (PM_Alert r) "OK") df).

(** [mean] is [Series.mean] of pandas on a column of integers.  The two
    counts of the health score are below 2^53, where [a / b] of Python is
    the quotient of the two doubles. *)
Definition create_metrics_summary (mean : list Z → float) (df : list CombinedInfo)
    : Metrics :=
  let total_vehicles := length df in
  let fully_compliant := fully_compliant df in
  {| total_vehicles := total_vehicles;
     annual_ok := count_eq Annual_Alert "OK" df;
     annual_overdue := count_eq Annual_Alert "OVERDUE" df;
     annual_critical := count_eq Annual_Alert "CRITICAL" df;
     pm_ok := count_eq PM_Alert "OK" df;
     pm_overdue := count_eq PM_Alert "OVERDUE" df;
     pm_critical := count_eq PM_Alert "CRITICAL" df;
     avg_mileage := mean (OBD_Odometer_Miles <$> df);
     max_mileage := series_max (OBD_Odometer_Miles <$> df);
     high_mileage_count :=
       length (List.filter (λ r, 400000 <? OBD_Odometer_Miles r) df);
     fleet_health :=
       if (0 <? total_vehicles)%nat then
         Float (float_of_count fully_compliant / float_of_count total_vehicles * 100)%float
       else Int 0 |}.

(** ** create_simple_overview_chart *)

(** The body of the loop over the rows: the label a row adds to
    [compliance_counts]. *)
Definition compliance_label (row : CombinedInfo) : string :=
  if String.eqb (Annual_Alert row) "OK" && String.eqb (PM_Alert row) "OK" then
    "Fully Compliant"
  else if isin (Annual_Alert row) ["OVERDUE"; "CRITICAL"]
          || isin (PM_Alert row) ["OVERDUE"; "CRITICAL"] then
    "Needs Attention"
  else "Warning Status".

Definition compliance_counts (df : list CombinedInfo) : list string :=
  compliance_label <$> df.

Definition compliance_series (df : list CombinedInfo) : gmap string nat :=
  value_counts (compliance_counts df).

Definition alert_categories : list string := ["OK"; "WARNING"; "CRITICAL"; "OVERDUE"].

(** The heights of the bars, one for each of [alert_categories]. *)
Definition mileage_by_alert (mean : list Z → float) (df : list CombinedInfo)
    : list number :=
  (λ alert,
     let alert_data := List.filter (λ r, String.eqb (Annual_Alert r) alert) df in
     match alert_data with
     | _ :: _ => Float (mean (OBD_Odometer_Miles <$> alert_data))
     | [] => Int 0
     end) <$> alert_categories.

(** The data of the two traces of the figure. *)
Definition create_simple_overview_chart (mean : list Z → float) (df : list CombinedInfo)
    : gmap string nat * list number :=
  (compliance_series df, mileage_by_alert mean df).

(** ** Vocabulary of the statements about the dashboards *)

(** The number of days is known and satisfies [p]. *)
Definition due_in (days : option Z) (p : Z → Prop) : Prop :=
  match days with
  | Some d => p d
  | None => False
  end.

(** Two records agree on what the summaries read. *)
Definition same_summary_fields (a b : CombinedInfo) : Prop :=
  Annual_Alert a = Annual_Alert b
  ∧ PM_Alert a = PM_Alert b
  ∧ OBD_Odometer_Miles a = OBD_Odometer_Miles b.

(** * Fetching, the two pages and the launcher

    The code around the core talks to the network, to Streamlit and to the
    operating system.  A script is a function of the session state of
    Streamlit it starts in; it gives how it ended, the session state it
    left and what it requested, showed and printed.  What it reads from
    outside is an argument. *)

Module Script.

(** An exception that derives from [Exception]: one of the built-in ones of
    the core, or another one, known by the name of its class. *)
Inductive error : Set :=
| Builtin (e : exn)
| Library (class : string).

(** What ends a call early.  [KeyboardInterrupt] and the exception behind
    [st.rerun()] derive from [BaseException] only, so [except Exception]
    lets them pass. *)
Inductive stop : Set :=
| Exception (e : error)
| KeyboardInterrupt
| BaseException (class : string).

Inductive outcome (A : Type) : Type :=
| Returned (a : A)
| Threw (s : stop).
Arguments Returned {A} a.
Arguments Threw {A} s.

(** The two sources of data. *)
Inductive source : Set := Samsara | Sheet.

(** An HTTP response: its status code and its body. *)
Record Response (B : Type) := mk_response { status_code : Z; body : B }.
Arguments mk_response {B} status_code body.
Arguments status_code {B} r.
Arguments body {B} r.

(** The texts the scripts show or print, each with the values it is
    formatted with. *)
Inductive message : Set :=
(* get_samsara_stats, get_excel_data *)
| Samsara_API_error (status_code : Z)
| Error_fetching_Samsara_data (e : error)
| Excel_loading_error (status_code : Z)
| Excel_error (e : error)
(* fleet_dashboard_auto.main *)
| Token_not_configured
| Add_token_to_env_file
| Token_set_for_this_session
| API_configuration_ready
| Fleet_data_loaded_and_ready
| Loading_fleet_data
| Successfully_loaded (n : nat)
| No_matching_vehicles
| Please_check_ids
| Failed_to_load_data
| Samsara_connection_failed
| Excel_loading_failed
(* fleet_dashboard.main *)
| Found_vehicles (n : nat)
| Annual_overdue_count (n : nat)
| PM_overdue_count (n : nat)
| Annual_within_30_days (n : nat)
| PM_within_30_days (n : nat)
| Data_saved
| No_matches_found
| Could_not_load_data
(* run_auto_dashboard.main *)
| Starting_dashboard
| Dashboard_file_not_found
| Env_file_not_found
| Create_env_file
| Token_line
| Blank_line
| You_can_still_run
| Stopped_by_user
| Launch_error (e : error).

Inductive level : Set := Error | Warning | Info | Success.

Inductive place : Set := Body | Sidebar.

(** The four numbers of the statistics row of [fleet_dashboard.main]. *)
Inductive metric : Set := Total_vehicles | Annual_OK | PM_OK | Average_mileage.

Inductive event : Type :=
(* requests.get(url, ...), with the bearer token of its headers *)
| requests_get (url : source) (bearer : option string)
(* st.error, st.warning, st.info, st.success and those of st.sidebar *)
| st_message (at_ : place) (l : level) (m : message)
(* st.dataframe(df) and st.dataframe(df[columns]) *)
| st_dataframe (columns : option (list string)) (rows : list CombinedInfo)
(* st.metric(label, value) *)
| st_metric (label : metric) (value : number)
(* df.to_csv('fleet_dashboard_data.csv', index=False) *)
| to_csv (rows : list CombinedInfo)
(* the overview, the chart and the two tabs drawn from the cached frame *)
| render (combined_df : list CombinedInfo) (metrics : Metrics)
(* print(...) *)
| print (m : message)
(* subprocess.run(args, check=True) *)
| subprocess_run (args : list string).

(** The four keys of [st.session_state]. *)
Record Session := mk_session {
  fleet_data_loaded : bool;
  combined_df : option (list CombinedInfo);
  metrics : option Metrics;
  last_update : option datetime
}.

(** What a script leaves behind: how it ended, the session state, which is
    [None] while the keys are not set, and what it requested, showed and
    printed, in this order. *)
Record Run (A : Type) := mk_run {
  outcome_of : outcome A;
  session_of : option Session;
  events_of : list event
}.
Arguments mk_run {A} outcome_of session_of events_of.
Arguments outcome_of {A} r.
Arguments session_of {A} r.
Arguments events_of {A} r.

Definition script (A : Type) : Type := option Session → Run A.

Definition ret {A} (a : A) : script A := λ st, mk_run (Returned a) st [].

(** The run [r] with the events [evs] before its own. *)
Definition preceded_by {A} (evs : list event) (r : Run A) : Run A :=
  match r with
  | mk_run o st evs' => mk_run o st (evs ++ evs')
  end.

(** [after r k]: the script [k] continues the run [r]. *)
Definition after {A B} (r : Run A) (k : A → script B) : Run B :=
  match r with
  | mk_run (Returned a) st evs => preceded_by evs (k a st)
  | mk_run (Threw s) st evs => mk_run (Threw s) st evs
  end.

Definition bind {A B} (m : script A) (k : A → script B) : script B :=
  λ st, after (m st) k.

Definition raise {A} (s : stop) : script A := λ st, mk_run (Threw s) st [].

Definition emit (e : event) : script unit := λ st, mk_run (Returned tt) st [e].

(** A call of a library with the given outcome. *)
Definition call {A} (o : outcome A) : script A := λ st, mk_run o st [].

(** A call of the core. *)
Definition lift {A} (r : result A) : script A :=
  match r with
  | Ok a => ret a
  | Raise e => raise (Exception (Builtin e))
  end.

(** [try: m] with its [except] clauses: [handler] gives the clause that
    takes the exception, if there is one. *)
Definition try_except {A} (m : script A) (handler : stop → option (script A))
    : script A :=
  λ st,
    match m st with
    | mk_run (Returned a) st' evs => mk_run (Returned a) st' evs
    | mk_run (Threw s) st' evs =>
        match handler s with
        | Some h => preceded_by evs (h st')
        | None => mk_run (Threw s) st' evs
        end
    end.

(** [except Exception as e: h] *)
Definition except_Exception {A} (h : error → script A) (s : stop) : option (script A) :=
  match s with
  | Exception e => Some (h e)
  | _ => None
  end.

Definition st_error (m : message) : script unit := emit (st_message Body Error m).
Definition st_warning (m : message) : script unit := emit (st_message Body Warning m).
Definition st_info (m : message) : script unit := emit (st_message Body Info m).
Definition st_success (m : message) : script unit := emit (st_message Body Success m).

(** [if 'fleet_data_loaded' not in st.session_state:] with its four
    assignments. *)
Definition init_session : script unit :=
  λ st, match st with
        | Some _ => mk_run (Returned tt) st []
        | None => mk_run (Returned tt) (Some (mk_session false None None None)) []
        end.

(** Reading [st.session_state]; an attribute that is not set raises
    [AttributeError]. *)
Definition session : script Session :=
  λ st, match st with
        | Some s => mk_run (Returned s) st []
        | None => mk_run (Threw (Exception (Library "AttributeError"))) st []
        end.

Definition set_session (s : Session) : script unit :=
  λ _, mk_run (Returned tt) (Some s) [].

End Script.

#[global] Instance script_ret : MRet Script.script := @Script.ret.
#[global] Instance script_bind : MBind Script.script := λ A B k m, Script.bind m k.

(** What a run reads from outside.  [samsara_get token] and [sheet_get] are
    the outcomes of the two calls of [requests.get]; the body of the first
    is what [response.json()] does, the dict known by its entry ['data'],
    and the body of the second is [response.text].  [clock] gives the
    readings of [datetime.now()] inside [calculate_days_remaining], [now]
    the one taken when the data are cached. *)
Record World := mk_world {
  samsara_get : string → Script.outcome
                  (Script.Response (Script.outcome (option (list Vehicle))));
  sheet_get : Script.outcome (Script.Response string);
  read_csv : string → Script.outcome DataFrame;
  clock : nat → datetime;
  now : datetime;
  write_csv : list CombinedInfo → Script.outcome unit
}.

(** Truth value of a list. *)
Definition truthy {A} (l : list A) : bool :=
  match l with [] => false | _ :: _ => true end.

(** ** get_samsara_stats *)

Definition get_samsara_stats (w : World) (SAMSARA_API_TOKEN : string)
    : Script.script (list Vehicle) :=
  Script.try_except
    (Script.emit (Script.requests_get Script.Samsara (Some SAMSARA_API_TOKEN));;
     response ← Script.call (samsara_get w SAMSARA_API_TOKEN);
     if Script.status_code response =? 200 then
       data ← Script.call (Script.body response);
       mret (default [] data)
     else
       Script.st_error (Script.Samsara_API_error (Script.status_code response));;
       mret [])
    (Script.except_Exception (λ e,
       Script.st_error (Script.Error_fetching_Samsara_data e);;
       mret [])).

(** ** get_excel_data *)

Definition get_excel_data (w : World) : Script.script DataFrame :=
  Script.try_except
    (Script.emit (Script.requests_get Script.Sheet None);;
     response ← Script.call (sheet_get w);
     if Script.status_code response =? 200 then
       df ← Script.call (read_csv w (Script.body response));
       Script.lift (clean_excel_data df)
     else
       Script.st_error (Script.Excel_loading_error (Script.status_code response));;
       mret (mkDF [] []))
    (Script.except_Exception (λ e,
       Script.st_error (Script.Excel_error e);;
       mret (mkDF [] []))).

(** ** fleet_dashboard_auto.main *)

Module Auto.

(** The first tab. *)
Definition critical_vehicles (combined_df : list CombinedInfo) : list CombinedInfo :=
  List.filter
    (λ r, isin (Annual_Alert r) ["OVERDUE"; "CRITICAL"]
          || isin (PM_Alert r) ["OVERDUE"; "CRITICAL"])
    combined_df.

Definition overdue (critical_vehicles : list CombinedInfo) : list CombinedInfo :=
  List.filter
    (λ r, String.eqb (Annual_Alert r) "OVERDUE" || String.eqb (PM_Alert r) "OVERDUE")
    critical_vehicles.

Definition critical (critical_vehicles : list CombinedInfo) : list CombinedInfo :=
  List.filter
    (λ r, String.eqb (Annual_Alert r) "CRITICAL" || String.eqb (PM_Alert r) "CRITICAL")
    critical_vehicles.

(** The rows of the high mileage table, before they are sorted. *)
Definition high_mileage (combined_df : list CombinedInfo) : list CombinedInfo :=
  List.filter (λ r, 400000 <? OBD_Odometer_Miles r) combined_df.

(** The second tab: the choices of a select box, and the rows shown for the
    two choices made while the search box is empty. *)
Definition filter_options (col : CombinedInfo → string) (combined_df : list CombinedInfo)
    : list string :=
  "All" :: unique (col <$> combined_df).

Definition filtered_df (annual_filter pm_filter : string) (combined_df : list CombinedInfo)
    : list CombinedInfo :=
  let filtered_df := combined_df in
  let filtered_df :=
    if negb (String.eqb annual_filter "All") then
      List.filter (λ r, String.eqb (Annual_Alert r) annual_filter) filtered_df
    else filtered_df in
  let filtered_df :=
    if negb (String.eqb pm_filter "All") then
      List.filter (λ r, String.eqb (PM_Alert r) pm_filter) filtered_df
    else filtered_df in
  filtered_df.

(** What the widgets hand to one run of the script.  [interval_elapsed] is
    the comparison [time_since_update > refresh_interval], a reading of the
    clock. *)
Record Widgets := mk_widgets {
  manual_token : string;
  auto_refresh : bool;
  interval_elapsed : bool;
  refresh_clicked : bool
}.

(** The sidebar: the token the requests of this run carry. *)
Definition configure (SAMSARA_API_TOKEN : string) (ui : Widgets) : Script.script string :=
  if String.eqb SAMSARA_API_TOKEN "" then
    Script.emit (Script.st_message Script.Sidebar Script.Error Script.Token_not_configured);;
    Script.emit (Script.st_message Script.Sidebar Script.Info Script.Add_token_to_env_file);;
    if negb (String.eqb (manual_token ui) "") then
      Script.emit
        (Script.st_message Script.Sidebar Script.Success Script.Token_set_for_this_session);;
      mret (manual_token ui)
    else mret SAMSARA_API_TOKEN
  else
    Script.emit (Script.st_message Script.Sidebar Script.Success Script.API_configuration_ready);;
    mret SAMSARA_API_TOKEN.

(** The block under [if not st.session_state.fleet_data_loaded]; it gives
    [false] where the script returns from [main]. *)
Definition load_data (mean : list Z → float) (w : World) (token : string)
    : Script.script bool :=
  samsara_data ← get_samsara_stats w token;
  excel_df ← get_excel_data w;
  if truthy samsara_data && negb (Frame.empty excel_df) then
    combined_df ← Script.lift (process_combined_data (clock w) samsara_data excel_df);
    if truthy combined_df then
      Script.set_session
        (Script.mk_session true (Some combined_df)
           (Some (create_metrics_summary mean combined_df)) (Some (now w)));;
      Script.st_success (Script.Successfully_loaded (length combined_df));;
      mret true
    else
      Script.st_warning Script.No_matching_vehicles;;
      Script.st_info Script.Please_check_ids;;
      mret false
  else
    Script.st_error Script.Failed_to_load_data;;
    (if negb (truthy samsara_data) then Script.st_error Script.Samsara_connection_failed
     else mret tt);;
    (if Frame.empty excel_df then Script.st_error Script.Excel_loading_failed
     else mret tt);;
    mret false.

(** The block under [if st.session_state.fleet_data_loaded and
    st.session_state.combined_df is not None]. *)
Definition show_data : Script.script unit :=
  s ← Script.session;
  match Script.fleet_data_loaded s, Script.combined_df s with
  | true, Some combined_df =>
      match Script.metrics s with
      | Some metrics => Script.emit (Script.render combined_df metrics)
      | None => Script.raise (Script.Exception (Script.Library "TypeError"))
      end
  | _, _ => mret tt
  end.

(** One run of the script.  The calls that only lay out the page, the
    countdown of the sidebar and the export button are left out. *)
Definition main (mean : list Z → float) (SAMSARA_API_TOKEN : string) (w : World)
    (ui : Widgets) : Script.script unit :=
  token ← configure SAMSARA_API_TOKEN ui;
  Script.init_session;;
  s ← Script.session;
  (if auto_refresh ui && bool_decide (is_Some (Script.last_update s)) then
     if interval_elapsed ui then
       Script.set_session
         (Script.mk_session false (Script.combined_df s) (Script.metrics s)
            (Script.last_update s))
     else mret tt
   else mret tt);;
  s ← Script.session;
  (if Script.fleet_data_loaded s then Script.st_success Script.Fleet_data_loaded_and_ready
   else Script.st_info Script.Loading_fleet_data);;
  (if refresh_clicked ui then
     Script.set_session (Script.mk_session false None None (Script.last_update s));;
     Script.raise (Script.BaseException "RerunException")
   else mret tt);;
  s ← Script.session;
  go_on ← (if negb (Script.fleet_data_loaded s) then load_data mean w token
           else mret true);
  if go_on : bool then show_data else mret tt.

End Auto.

(** ** fleet_dashboard.main *)

Module Basic.

(** The four alert tables. *)
Definition overdue_annual (combined_df : list CombinedInfo) : list CombinedInfo :=
  List.filter (λ r, String.eqb (Annual_Alert r) "OVERDUE") combined_df.

Definition overdue_pm (combined_df : list CombinedInfo) : list CombinedInfo :=
  List.filter (λ r, String.eqb (PM_Alert r) "OVERDUE") combined_df.

Definition critical_annual (combined_df : list CombinedInfo) : list CombinedInfo :=
  List.filter (λ r, String.eqb (Annual_Alert r) "CRITICAL") combined_df.

Definition critical_pm (combined_df : list CombinedInfo) : list CombinedInfo :=
  List.filter (λ r, String.eqb (PM_Alert r) "CRITICAL") combined_df.

(** [if not table.empty:] a message with the number of rows, then the
    table with three of its columns. *)
Definition alert_table (l : Script.level) (m : nat → Script.message)
    (columns : list string) (table : list CombinedInfo) : Script.script unit :=
  if truthy table then
    Script.emit (Script.st_message Script.Body l (m (length table)));;
    Script.emit (Script.st_dataframe (Some columns) table)
  else mret tt.

(** What is shown for a frame that is not empty. *)
Definition show_fleet (mean : list Z → float) (w : World)
    (combined_df : list CombinedInfo) : Script.script unit :=
  Script.st_success (Script.Found_vehicles (length combined_df));;
  Script.emit (Script.st_dataframe None combined_df);;
  alert_table Script.Error Script.Annual_overdue_count
    ["Vehicle_Name"; "Annual_Date"; "Annual_Days_Remaining"]
    (overdue_annual combined_df);;
  alert_table Script.Error Script.PM_overdue_count
    ["Vehicle_Name"; "PM_Date"; "PM_Days_Remaining"]
    (overdue_pm combined_df);;
  alert_table Script.Warning Script.Annual_within_30_days
    ["Vehicle_Name"; "Annual_Date"; "Annual_Days_Remaining"]
    (critical_annual combined_df);;
  alert_table Script.Warning Script.PM_within_30_days
    ["Vehicle_Name"; "PM_Date"; "PM_Days_Remaining"]
    (critical_pm combined_df);;
  Script.emit (Script.st_metric Script.Total_vehicles (Int (Z.of_nat (length combined_df))));;
  Script.emit (Script.st_metric Script.Annual_OK
    (Int (Z.of_nat (count_eq Annual_Alert "OK" combined_df))));;
  Script.emit (Script.st_metric Script.PM_OK
    (Int (Z.of_nat (count_eq PM_Alert "OK" combined_df))));;
  Script.emit (Script.st_metric Script.Average_mileage
    (Float (mean (OBD_Odometer_Miles <$> combined_df))));;
  Script.emit (Script.to_csv combined_df);;
  Script.call (write_csv w combined_df);;
  Script.st_info Script.Data_saved.

(** One run of the script; [button] is what [st.button] returns.  The
    calls that only lay out the page are left out. *)
Definition main (mean : list Z → float) (SAMSARA_API_TOKEN : string) (w : World)
    (button : bool) : Script.script unit :=
  if String.eqb SAMSARA_API_TOKEN "" then Script.st_error Script.Token_not_configured
  else if button then
    samsara_data ← get_samsara_stats w SAMSARA_API_TOKEN;
    excel_df ← get_excel_data w;
    if truthy samsara_data && negb (Frame.empty excel_df) then
      combined_df ← Script.lift (process_combined_data (clock w) samsara_data excel_df);
      if truthy combined_df then show_fleet mean w combined_df
      else Script.st_warning Script.No_matches_found
    else Script.st_error Script.Could_not_load_data
  else mret tt.

End Basic.

(** ** run_auto_dashboard.main *)

Module Launcher.

(** [exists] is [os.path.exists], [run] the outcome of [subprocess.run] with
    [check=True] and [sys_executable] the path of the interpreter. *)
Definition main (sys_executable : string) (exists_ : string → bool)
    (run : list string → Script.outcome unit) : Script.script unit :=
  Script.emit (Script.print Script.Starting_dashboard);;
  if negb (exists_ "fleet_dashboard_auto.py") then
    Script.emit (Script.print Script.Dashboard_file_not_found)
  else
    (if negb (exists_ ".env") then
       Script.emit (Script.print Script.Env_file_not_found);;
       Script.emit (Script.print Script.Create_env_file);;
       Script.emit (Script.print Script.Token_line);;
       Script.emit (Script.print Script.Blank_line);;
       Script.emit (Script.print Script.You_can_still_run);;
       Script.emit (Script.print Script.Blank_line)
     else mret tt);;
    let args := [sys_executable; "-m"; "streamlit"; "run"; "fleet_dashboard_auto.py";
                 "--server.port"; "8501"; "--server.address"; "localhost";
                 "--browser.gatherUsageStats"; "false"] in
    Script.try_except
      (Script.emit (Script.subprocess_run args);;
       Script.call (run args))
      (λ s, match s with
            | Script.KeyboardInterrupt =>
                Some (Script.emit (Script.print Script.Stopped_by_user))
            | Script.Exception e =>
                Some (Script.emit (Script.print (Script.Launch_error e)))
            | Script.BaseException _ => None
            end).

End Launcher.

(** ** Vocabulary of the statements about the scripts *)

(** An event of one of the two fetching functions: a request, or an error
    shown in the body of the page. *)
Definition fetch_event (e : Script.event) : Prop :=
  match e with
  | Script.requests_get _ _ => True
  | Script.st_message Script.Body Script.Error _ => True
  | _ => False
  end.






(** ** More sample data *)


(** Two records that agree on the annual alert, the PM alert and the
    mileage, and differ in the PM inspection. *)
Definition record_inspected : CombinedInfo :=
  {| Vehicle_ID := "281474"; Vehicle_Name := "T-1"; VIN := ""; Serial := "";
     OBD_Odometer_Miles := 100; GPS_Distance_Miles := 0;
     OBD_Last_Update := ""; GPS_Last_Update := "";
     Status := "Active";
     Annual_Date := "06/01/2025"; Annual_Days_Remaining := Some 136;
     PM_Date := "02/01/2025"; PM_Days_Remaining := Some 16;
     PM_Insp_Date := "06/01/2025"; PM_Insp_Days_Remaining := Some 136;
     Annual_Alert := "OK"; PM_Alert := "CRITICAL"; PM_Insp_Alert := "OK" |}.

Definition record_not_inspected : CombinedInfo :=
  {| Vehicle_ID := "281475"; Vehicle_Name := "T-2"; VIN := ""; Serial := "";
     OBD_Odometer_Miles := 100; GPS_Distance_Miles := 0;
     OBD_Last_Update := ""; GPS_Last_Update := "";
     Status := "Active";
     Annual_Date := "06/01/2025"; Annual_Days_Remaining := Some 136;
     PM_Date := "02/01/2025"; PM_Days_Remaining := Some 16;
     PM_Insp_Date := "01/01/2020"; PM_Insp_Days_Remaining := Some (-1842);
     Annual_Alert := "OK"; PM_Alert := "CRITICAL"; PM_Insp_Alert := "OVERDUE" |}.

(** A mean for the samples: the quotient of the sum and the count, as
    floats. *)
Definition mean_of_sum (l : list Z) : float :=
  PrimFloat.div (SF2Prim (binary_normalize prec emax (foldr Z.add 0 l) 0 false))
                (float_of_count (length l)).




(** * Properties *)

(** ** clean_excel_data *)

Lemma filter_all_true {A} (p : A → bool) (l : list A) :
  (∀ x, x ∈ l → p x = true) → List.filter p l = l.
Proof.
  induction l as [|x l IH]; intros H; [reflexivity|].
  cbn. rewrite (H x) by left. f_equal. apply IH. intros y Hy. apply H. by right.
Qed.

Lemma filter_twice {A} (p q : A → bool) (l : list A) :
  List.filter q (List.filter p l) = List.filter (λ x, p x && q x) l.
Proof.
  induction l as [|x l IH]; [reflexivity|].
  cbn. destruct (p x); cbn; [destruct (q x)|]; by rewrite IH.
Qed.

Lemma filter_fmap {A B} (f : A → B) (p : B → bool) (l : list A) :
  List.filter p (f <$> l) = f <$> List.filter (λ x, p (f x)) l.
Proof.
  induction l as [|x l IH]; [reflexivity|].
  cbn. destruct (p (f x)); cbn; by rewrite IH.
Qed.

Lemma filter_ext_in {A} (p q : A → bool) (l : list A) :
  (∀ x, x ∈ l → p x = q x) → List.filter p l = List.filter q l.
Proof.
  induction l as [|x l IH]; intros H; [reflexivity|].
  cbn. rewrite (H x) by left. rewrite IH; [done|]. intros y Hy. apply H. by right.
Qed.

(** The four passes of the filter loop amount to one pass with all four
    masks; the masks only read the column labels, which no pass changes. *)
Lemma filter_loop (first_col : string) (vals : list string) (df : DataFrame) :
  foldl (λ df filter_val, Frame.select (ne_filter df first_col filter_val) df) df vals
  = mkDF (columns df)
         (List.filter (λ r, forallb (λ v, ne_filter df first_col v r) vals) (rows df)).
Proof.
  revert df. induction vals as [|v vals IH]; intros df.
  - cbn. rewrite filter_all_true by done. by destruct df.
  - cbn [foldl]. rewrite IH. cbn [Frame.select columns rows forallb].
    f_equal. rewrite filter_twice. done.
Qed.

(** [clean_excel_data] on a frame that is not empty. *)
Lemma clean_nonempty (df : DataFrame) :
  Frame.empty df = false →
  clean_excel_data df =
    match columns (shifted df) with
    | [] => Raise IndexError
    | first_col :: _ =>
        Ok (vin_trim (Frame.select (keep_row (shifted df) first_col) (shifted df)))
    end.
Proof.
  intros Hne. unfold clean_excel_data, shifted. rewrite Hne.
  destruct (columns df) as [|c0 cs] eqn:Hc.
  { unfold Frame.empty in Hne. by rewrite Hc in Hne. }
  cbn [mbind result_bind Py.bind].
  set (df1 := if startswith c0 "Unnamed" then _ else _).
  destruct (columns df1) as [|first_col cs1] eqn:Hc1; [done|].
  cbn [mbind result_bind Py.bind]. rewrite filter_loop. unfold vin_trim, Frame.select, keep_row.
  done.
Qed.

Lemma clean_empty (df : DataFrame) :
  Frame.empty df = true → clean_excel_data df = Ok df.
Proof. intros H. unfold clean_excel_data. by rewrite H. Qed.

Lemma get_loc_head (df : DataFrame) (c : string) (cs : list string) :
  columns df = c :: cs → Frame.get_loc df c = Some 0%nat.
Proof.
  intros H. unfold Frame.get_loc. rewrite H. cbn. by rewrite decide_True.
Qed.

Lemma at_col_head (df : DataFrame) (c : string) (cs : list string) (r : Row) :
  columns df = c :: cs → Frame.at_col df c r = default None (row_cells r !! 0%nat).
Proof. intros H. unfold Frame.at_col. by rewrite (get_loc_head _ _ _ H). Qed.

Lemma keep_row_excluded (df : DataFrame) (c : string) (r : Row) :
  keep_row df c r = negb (excluded (Frame.at_col df c r)).
Proof.
  unfold keep_row, excluded, ne_filter, filters_to_remove. cbn [forallb].
  destruct (Frame.at_col df c r) as [s|]; [|done].
  rewrite !andb_true_r.
  destruct (String.eqb_spec s "OLD") as [->|H1]; [done|].
  destruct (String.eqb_spec s "DKD") as [->|H2]; [done|].
  destruct (String.eqb_spec s "GNS") as [->|H3]; [done|].
  destruct (String.eqb_spec s "SOLD") as [->|H4]; [done|].
  cbn. symmetry. rewrite negb_true_iff, bool_decide_eq_false.
  rewrite !elem_of_cons, elem_of_nil. tauto.
Qed.



Lemma index_vin_trim (df : DataFrame) : Frame.index (vin_trim df) = Frame.index df.
Proof.
  unfold vin_trim. destruct (find_vin_index 0 (columns df)); [|done].
  unfold Frame.index, Frame.iloc_cols_to. cbn [rows].
  rewrite <- list_fmap_compose. done.
Qed.

Lemma index_select_fmap (f : Row → Row) (p : Row → bool) (cols : list string) (l : list Row) :
  (∀ r, row_label (f r) = row_label r) →
  Frame.index (Frame.select p (mkDF cols (f <$> l)))
  = row_label <$> List.filter (λ r, p (f r)) l.
Proof.
  intros Hf. unfold Frame.index, Frame.select. cbn [rows].
  rewrite filter_fmap, <- list_fmap_compose.
  apply list_fmap_ext. intros _ r _. apply Hf.
Qed.

Lemma index_select_from (n : nat) (p : Row → bool) (df : DataFrame) :
  Frame.index (Frame.select p (Frame.iloc_cols_from n df))
  = row_label <$>
      List.filter (λ r, p (mkRow (row_label r) (drop n (row_cells r)))) (rows df).
Proof. unfold Frame.iloc_cols_from. by rewrite index_select_fmap. Qed.

(** C7: a row is dropped by [clean_excel_data] exactly when its value in the
    first column (the first after a leading unnamed column is removed) is,
    as a whole string and in this case, one of OLD, DKD, GNS, SOLD: the index
    of the result is the index of the input filtered by that test, so with
    distinct row labels a row is absent if and only if its value is
    excluded; lower-case or longer values are not excluded. *)
Theorem clean_drops_exactly_excluded_rows (df df' : DataFrame) :
  clean_excel_data df = Ok df' →
  Frame.index df'
    = row_label <$> List.filter (λ r, negb (excluded (first_value df r))) (rows df)
  ∧ (NoDup (Frame.index df) →
     ∀ r, r ∈ rows df →
       (row_label r ∉ Frame.index df' ↔ first_value df r ∈ Some <$> filters_to_remove))
  ∧ excluded (Some "old") = false
  ∧ excluded (Some "Sold") = false
  ∧ excluded (Some "SOLD OUT") = false
  ∧ excluded (Some "UNSOLD") = false
  ∧ excluded None = false.
Proof.
  intros Hclean.
  assert (Hindex : Frame.index df'
    = row_label <$> List.filter (λ r, negb (excluded (first_value df r))) (rows df)).
  { destruct (Frame.empty df) eqn:Hempty.
    - rewrite clean_empty in Hclean by done. injection Hclean as <-.
      unfold Frame.index. f_equal. symmetry. apply filter_all_true.
      intros r Hr. unfold first_value, Frame.empty in *.
      destruct (columns df); [done|]. destruct (rows df); [|done]. by apply elem_of_nil in Hr.
    - rewrite clean_nonempty in Hclean by done.
      unfold shifted, first_value in *. unfold Frame.empty in Hempty.
      destruct df as [[|c0 cs] rs]; [done|]. cbn [columns rows] in *.
      destruct (startswith c0 "Unnamed").
      + cbn [Frame.iloc_cols_from columns rows drop] in Hclean.
        destruct cs as [|c1 cs]; [done|]. injection Hclean as <-.
        rewrite index_vin_trim, index_select_from. cbn [rows].
        f_equal. apply filter_ext_in. intros r _.
        rewrite keep_row_excluded. erewrite at_col_head by reflexivity.
        cbn [row_cells]. by rewrite lookup_drop.
      + injection Hclean as <-.
        rewrite index_vin_trim. unfold Frame.index, Frame.select. cbn [rows]. f_equal.
        apply filter_ext_in. intros r _.
        rewrite keep_row_excluded. by erewrite at_col_head by reflexivity. }
  split; [exact Hindex|]. split; [|by repeat split].
  intros Hnodup r Hr. rewrite Hindex.
  assert (Hex : first_value df r ∈ Some <$> filters_to_remove
                ↔ excluded (first_value df r) = true).
  { unfold excluded. destruct (first_value df r) as [s|].
    - rewrite bool_decide_eq_true. rewrite list_elem_of_fmap. split.
      + by intros (y & [= ->] & Hy).
      + intros Hs. by exists s.
    - split; [|done]. rewrite list_elem_of_fmap. by intros (y & ? & _). }
  rewrite Hex. split.
  - intros Hnot. destruct (excluded (first_value df r)) eqn:He; [done|].
    exfalso. apply Hnot. apply list_elem_of_fmap. exists r. split; [done|].
    apply list_elem_of_In, filter_In. split; [by apply list_elem_of_In|]. by rewrite He.
  - intros He Hin. apply list_elem_of_fmap in Hin as (r2 & Hlbl & Hr2).
    apply list_elem_of_In, filter_In in Hr2 as [Hr2 Hk]. apply list_elem_of_In in Hr2.
    assert (r2 = r) as ->.
    { unfold Frame.index in Hnodup.
      apply list_elem_of_lookup in Hr as [i Hi], Hr2 as [j Hj].
      assert (i = j) as ->.
      { eapply NoDup_lookup; [exact Hnodup| |]; rewrite list_lookup_fmap.
        - by rewrite Hi.
        - rewrite Hj. cbn. by rewrite Hlbl. }
      congruence. }
    by rewrite He in Hk.
Qed.

Lemma find_vin_index_take (i : nat) (cols : list string) (k : nat) :
  find_vin_index i cols = Some k →
  (i ≤ k)%nat ∧ find_vin_index i (take (k - i + 1) cols) = Some k.
Proof.
  revert i. induction cols as [|c cols IH]; intros i; [done|].
  cbn [find_vin_index]. destruct (contains "VIN" (upper c)) eqn:Hc.
  - intros [= <-]. split; [lia|]. replace (i - i + 1)%nat with 1%nat by lia.
    cbn. by rewrite Hc.
  - intros H. apply IH in H as [Hle H]. split; [lia|].
    replace (k - i + 1)%nat with (S (k - S i + 1)) by lia.
    cbn [take find_vin_index]. by rewrite Hc.
Qed.

Lemma vin_trim_idempotent (df : DataFrame) : vin_trim (vin_trim df) = vin_trim df.
Proof.
  unfold vin_trim at 2 3.
  destruct (find_vin_index 0 (columns df)) as [k|] eqn:Hk.
  - unfold vin_trim. cbn [Frame.iloc_cols_to columns].
    apply find_vin_index_take in Hk as [_ Hk].
    rewrite Nat.sub_0_r in Hk. rewrite Hk.
    unfold Frame.iloc_cols_to. cbn [columns rows]. f_equal.
    + by rewrite take_take, Nat.min_id.
    + rewrite <- list_fmap_compose. apply list_fmap_ext. intros _ r _. cbn.
      by rewrite take_take, Nat.min_id.
  - unfold vin_trim. by rewrite Hk.
Qed.

Lemma vin_trim_columns_length (df : DataFrame) :
  (length (columns (vin_trim df)) ≤ length (columns df))%nat.
Proof.
  unfold vin_trim. destruct (find_vin_index 0 (columns df)); [|done].
  cbn. rewrite length_take. lia.
Qed.

(** The cut keeps the first column and, in every row, its cell. *)
Lemma vin_trim_head (df : DataFrame) (c : string) (cs : list string) :
  columns df = c :: cs →
  (∃ cs', columns (vin_trim df) = c :: cs')
  ∧ Forall2 (λ r r', row_cells r' !! 0%nat = row_cells r !! 0%nat)
            (rows df) (rows (vin_trim df)).
Proof.
  intros Hc. unfold vin_trim. destruct (find_vin_index 0 (columns df)) as [k|].
  - cbn [Frame.iloc_cols_to columns rows]. rewrite Hc.
    replace (k + 1)%nat with (S k) by lia. split; [by eexists|].
    apply Forall2_fmap_r, Forall_Forall2_diag, Forall_forall. intros r _. cbn.
    by rewrite lookup_take_lt by lia.
  - split; [by eexists|]. by apply Forall_Forall2_diag, Forall_forall.
Qed.

Lemma select_all (p : Row → bool) (df : DataFrame) :
  Forall (λ r, p r = true) (rows df) → Frame.select p df = df.
Proof.
  intros H. unfold Frame.select. rewrite filter_all_true.
  - by destruct df.
  - intros r Hr. by eapply Forall_forall in H.
Qed.

(** After one cleaning every row passes the masks of a second one, as long
    as the second one looks at the same first column. *)
Lemma cleaned_rows_pass (df df' : DataFrame) (c : string) (cs : list string) :
  Frame.empty df = false →
  clean_excel_data df = Ok df' →
  columns df' = c :: cs →
  Forall (λ r, keep_row df' c r = true) (rows df') ∧ vin_trim df' = df'.
Proof.
  intros Hne Hclean Hc. rewrite clean_nonempty in Hclean by done.
  destruct (columns (shifted df)) as [|fc rest] eqn:Hsh; [done|].
  injection Hclean as <-. split; [|apply vin_trim_idempotent].
  set (df2 := Frame.select (keep_row (shifted df) fc) (shifted df)) in *.
  assert (Hc2 : columns df2 = fc :: rest) by done.
  destruct (vin_trim_head df2 fc rest Hc2) as [[cs' Hc'] Hrows].
  rewrite Hc in Hc'. injection Hc' as -> ->.
  assert (Hpass : Forall (λ r, keep_row df2 fc r = true) (rows df2)).
  { apply Forall_forall. intros r Hr. unfold df2 in Hr. cbn [Frame.select rows] in Hr.
    apply list_elem_of_In, filter_In in Hr as [_ Hr]. exact Hr. }
  revert Hpass Hrows. generalize (rows df2) (rows (vin_trim df2)).
  intros l l' Hpass Hrows. induction Hrows as [|r r' l l' Hr _ IH]; [constructor|].
  apply Forall_cons in Hpass as [Hp Hpass]. constructor; [|by apply IH].
  rewrite keep_row_excluded in Hp |- *.
  rewrite (at_col_head _ _ _ _ Hc2) in Hp. rewrite (at_col_head _ _ _ _ Hc).
  rewrite <- Hp. do 3 f_equal. exact Hr.
Qed.

(** C6 (amended): cleaning an already cleaned frame changes nothing exactly
    when that frame is empty or its first column is not another unnamed
    placeholder; a second placeholder column would be dropped by the second
    pass. *)
Theorem clean_twice (df df' : DataFrame) :
  clean_excel_data df = Ok df' →
  (clean_excel_data df' = Ok df'
   ↔ Frame.empty df' = true ∨ leading_unnamed df' = false).
Proof.
  intros Hclean. split.
  - intros Hagain. destruct (Frame.empty df') eqn:Hne'; [by left|right].
    destruct (leading_unnamed df') eqn:Hun; [exfalso|done].
    rewrite clean_nonempty in Hagain by done.
    unfold shifted, leading_unnamed in *.
    destruct (columns df') as [|c0 cs] eqn:Hc; [done|]. rewrite Hun in Hagain.
    cbn [Frame.iloc_cols_from columns] in Hagain. rewrite Hc in Hagain.
    cbn [drop] in Hagain.
    destruct cs as [|c1 cs]; [done|]. injection Hagain as Heq.
    apply (f_equal (λ d, length (columns d))) in Heq.
    pose proof (vin_trim_columns_length
      (Frame.select (keep_row (Frame.iloc_cols_from 1 df') c1) (Frame.iloc_cols_from 1 df'))) as Hle.
    rewrite Heq in Hle. cbn [Frame.select Frame.iloc_cols_from columns] in Hle.
    rewrite Hc in Hle. cbn in Hle. lia.
  - intros [Hemp|Hun]; [by apply clean_empty|].
    destruct (Frame.empty df') eqn:Hne'; [by apply clean_empty|].
    destruct (Frame.empty df) eqn:Hne.
    { rewrite clean_empty in Hclean by done. injection Hclean as <-. congruence. }
    rewrite clean_nonempty by done. unfold shifted, leading_unnamed in *.
    destruct (columns df') as [|c cs] eqn:Hc; [unfold Frame.empty in Hne'; by rewrite Hc in Hne'|].
    rewrite Hun, Hc.
    destruct (cleaned_rows_pass df df' c cs Hne Hclean Hc) as [Hpass Htrim].
    rewrite select_all by done. by rewrite Htrim.
Qed.

(** ** find_excel_match *)

Lemma search_columns_None (candidate : string → bool) (key : string)
    (df : DataFrame) (cols : list string) :
  search_columns candidate key df cols = None
  ↔ Forall (λ c, candidate (upper c) = true → matches df c key = []) cols.
Proof.
  induction cols as [|c cols IH]; cbn [search_columns].
  - split; [constructor|done].
  - rewrite Forall_cons. destruct (candidate (upper c)) eqn:Hc.
    + destruct (matches df c key) as [|r rs] eqn:Hm.
      * rewrite IH. tauto.
      * split; [done|]. intros [H _]. by specialize (H eq_refl).
    + rewrite IH. split; [|tauto]. intros H. split; [done|exact H].
Qed.

Lemma search_columns_Some (candidate : string → bool) (key : string)
    (df : DataFrame) (cols : list string) (label : nat) :
  search_columns candidate key df cols = Some label
  ↔ first_hit candidate key df cols label.
Proof.
  unfold first_hit. revert label. induction cols as [|c cols IH]; intros label; cbn [search_columns].
  - split; [done|]. intros (pre & c & post & r & rs & H & _). by destruct pre.
  - assert (Hskip : matches df c key = [] ∨ candidate (upper c) = false →
      (search_columns candidate key df cols = Some label
       ↔ ∃ (pre : list string) c0 post r rs, c :: cols = (pre ++ c0 :: post)%list
           ∧ candidate (upper c0) = true ∧ matches df c0 key = r :: rs
           ∧ label = row_label r
           ∧ Forall (λ x, candidate (upper x) = true → matches df x key = []) pre)).
    { intros Hc. rewrite IH. split.
      - intros (pre & c0 & post & r & rs & -> & H1 & H2 & H3 & H4).
        exists (c :: pre), c0, post, r, rs. repeat split; try done.
        constructor; [|done]. intros Hcand. destruct Hc as [?|Hc]; [done|congruence].
      - intros (pre & c0 & post & r & rs & Heq & H1 & H2 & H3 & H4).
        destruct pre as [|x pre]; cbn in Heq; injection Heq as -> ->.
        + destruct Hc as [Hc|Hc]; congruence.
        + apply Forall_cons in H4 as [_ H4]. by exists pre, c0, post, r, rs. }
    destruct (candidate (upper c)) eqn:Hc; [|apply Hskip; by right].
    destruct (matches df c key) as [|r rs] eqn:Hm; [apply Hskip; by left|].
    split.
    + intros [= <-]. exists [], c, cols, r, rs. repeat split; try done.
    + intros (pre & c0 & post & r0 & rs0 & Heq & H1 & H2 & H3 & H4).
      destruct pre as [|x pre]; cbn in Heq; injection Heq as -> ->.
      * rewrite Hm in H2. by injection H2 as <- <-; subst.
      * apply Forall_cons in H4 as [H4 _]. specialize (H4 Hc). congruence.
Qed.

(** In a frame that came out of [clean_excel_data] and has rows, a VIN
    column can only be the last column. *)
Lemma find_vin_index_first (i : nat) (cols : list string) (k : nat) :
  find_vin_index i cols = Some k →
  ∀ j c, (j < k - i)%nat → cols !! j = Some c → contains "VIN" (upper c) = false.
Proof.
  revert i. induction cols as [|x cols IH]; intros i; [done|].
  cbn [find_vin_index]. destruct (contains "VIN" (upper x)) eqn:Hx.
  - intros [= <-] j c Hj. lia.
  - intros H j c Hj Hc. destruct j as [|j]; cbn in Hc.
    + by injection Hc as <-.
    + pose proof (find_vin_index_take _ _ _ H) as [Hle _].
      eapply (IH _ H j); [lia|done].
Qed.

Lemma find_vin_index_None (i : nat) (cols : list string) :
  find_vin_index i cols = None →
  Forall (λ c, contains "VIN" (upper c) = false) cols.
Proof.
  revert i. induction cols as [|x cols IH]; intros i; [constructor|].
  cbn [find_vin_index]. destruct (contains "VIN" (upper x)) eqn:Hx; [done|].
  intros H. constructor; [done|]. by eapply IH.
Qed.

Lemma cleaned_vin_last (df df' : DataFrame) (pre post : list string) (c : string) :
  clean_excel_data df = Ok df' →
  Frame.empty df' = false →
  columns df' = (pre ++ c :: post)%list →
  is_vin_column (upper c) = true →
  post = [].
Proof.
  intros Hclean Hne' Hcols Hvin.
  destruct (Frame.empty df) eqn:Hne.
  { rewrite clean_empty in Hclean by done. injection Hclean as <-. congruence. }
  rewrite clean_nonempty in Hclean by done.
  destruct (columns (shifted df)) as [|fc rest] eqn:Hsh; [done|].
  injection Hclean as <-.
  set (df2 := Frame.select (keep_row (shifted df) fc) (shifted df)) in *.
  unfold vin_trim in Hcols.
  destruct (find_vin_index 0 (columns df2)) as [k|] eqn:Hk.
  - cbn [Frame.iloc_cols_to columns] in Hcols.
    assert (Hlen : (length pre + 1 + length post ≤ k + 1)%nat).
    { apply (f_equal length) in Hcols. rewrite length_take, length_app in Hcols.
      cbn in Hcols. lia. }
    destruct (decide (length pre < k)%nat) as [Hlt|Hge].
    + assert (Hc : columns df2 !! length pre = Some c).
      { rewrite <- (lookup_take_lt _ (k + 1)) by lia. rewrite Hcols.
        by rewrite list_lookup_middle. }
      assert (Hlt' : (length pre < k - 0)%nat) by lia.
      pose proof (find_vin_index_first _ _ _ Hk _ _ Hlt' Hc).
      unfold is_vin_column in Hvin. congruence.
    + destruct post; [done|]. cbn in Hlen. lia.
  - apply find_vin_index_None in Hk. rewrite Hcols in Hk.
    apply Forall_app in Hk as [_ Hk]. apply Forall_cons in Hk as [Hk _].
    unfold is_vin_column in Hvin. congruence.
Qed.

Lemma matches_no_rows (df : DataFrame) (c key : string) :
  rows df = [] → matches df c key = [].
Proof. intros H. unfold matches. by rewrite H. Qed.

(** C1 (amended): each phase of [find_excel_match] walks the candidate
    columns in table order until one holds a matching cell.  A phase returns
    a label exactly when it is the label of the first matching row of the
    leftmost candidate column that has a match, and returns nothing exactly
    when no candidate column has a match; the second phase runs only when the
    first found nothing and the VIN is not empty.  In a frame produced by
    [clean_excel_data] the leftmost VIN column is the only one, so there the
    second phase returns nothing as soon as that column has no match. *)
Theorem find_excel_match_consults_candidates_in_order
    (df df' : DataFrame) (vehicle_name samsara_vin : string) :
  clean_excel_data df = Ok df' →
  (∀ candidate key label,
     search_columns candidate key df' (columns df') = Some label
     ↔ first_hit candidate key df' (columns df') label)
  ∧ (∀ candidate key,
       search_columns candidate key df' (columns df') = None
       ↔ Forall (λ c, candidate (upper c) = true → matches df' c key = []) (columns df'))
  ∧ find_excel_match vehicle_name samsara_vin df' =
      match search_columns is_id_column vehicle_name df' (columns df') with
      | Some label => Some label
      | None =>
          if String.eqb samsara_vin "" then None
          else search_columns is_vin_column samsara_vin df' (columns df')
      end
  ∧ (∀ c, leftmost_candidate is_vin_column (columns df') c →
          matches df' c samsara_vin = [] →
          search_columns is_vin_column samsara_vin df' (columns df') = None).
Proof.
  intros Hclean. split; [|split; [|split]].
  - intros. apply search_columns_Some.
  - intros. apply search_columns_None.
  - unfold find_excel_match.
    destruct (search_columns is_id_column _ _ _); [done|].
    by destruct (String.eqb samsara_vin "").
  - intros c (pre & post & Hcols & Hvin & Hpre) Hno.
    apply search_columns_None.
    destruct (Frame.empty df') eqn:Hne'.
    + apply Forall_forall. intros x _ _. apply matches_no_rows.
      unfold Frame.empty in Hne'. rewrite Hcols in Hne'.
      destruct pre; cbn in Hne'; by destruct (rows df').
    + rewrite (cleaned_vin_last df df' pre post c Hclean Hne' Hcols Hvin) in Hcols.
      rewrite Hcols. apply Forall_app. split.
      * eapply Forall_impl; [exact Hpre|]. cbn. intros x Hx. congruence.
      * by repeat constructor.
Qed.

(** C1, as stated, fails: in this cleaned frame the leftmost identifier
    column, TRUCK, has no cell A-9, and the first phase still returns row 0,
    found in the later column ASSET_ID. *)
Lemma find_excel_match_uses_later_id_column :
  clean_excel_data two_id_table = Ok two_id_table
  ∧ leftmost_candidate is_id_column (columns two_id_table) "TRUCK"
  ∧ matches two_id_table "TRUCK" "A-9" = []
  ∧ search_columns is_id_column "A-9" two_id_table (columns two_id_table) = Some 0%nat
  ∧ find_excel_match "A-9" "" two_id_table = Some 0%nat.
Proof.
  repeat split; try (vm_compute; reflexivity).
  exists [], ["ASSET_ID"; "VIN"]. repeat split; try (vm_compute; reflexivity). constructor.
Qed.

(** ** extract_excel_data *)

Lemma extract_step_first_role (df : DataFrame) (row : Row)
    (m : gmap string string) (col : string) :
  extract_step df row m col =
    match first_role col with
    | Some role => <[role := cell_text (Frame.at_col df col row)]> m
    | None => m
    end.
Proof.
  unfold extract_step, first_role, role_tests. cbn [list_find fmap option_fmap option_map snd fst].
  destruct (contains "STATUS" (upper col)); cbn; [done|].
  destruct (contains "ANNUAL" (upper col)); cbn; [done|].
  destruct (contains "PM" (upper col) && contains "DATE" (upper col)); cbn; [done|].
  destruct (contains "PM" (upper col) && contains "INSP" (upper col)); cbn; done.
Qed.

Lemma extract_fold_lookup (df : DataFrame) (row : Row) (role : string)
    (cols : list string) (m : gmap string string) :
  foldl (extract_step df row) m cols !! role =
    match last (qualifying role cols) with
    | Some c => Some (cell_text (Frame.at_col df c row))
    | None => m !! role
    end.
Proof.
  revert m. induction cols as [|c cols IH]; intros m; [done|].
  cbn [foldl]. rewrite IH. unfold qualifying. rewrite filter_cons.
  rewrite extract_step_first_role. case_decide as Hc.
  - rewrite Hc. rewrite last_cons. destruct (last _); [done|]. by rewrite lookup_insert_eq.
  - destruct (last _); [done|]. destruct (first_role c) as [k|]; [|done].
    rewrite lookup_insert_ne; [done|]. congruence.
Qed.

(** C4: for a row that [iloc] finds, every column feeds at most one role,
    the one of the first test its label passes, and each role ends with the
    text of the cell in the last column, left to right, that qualifies for
    it, or with the empty string when no column does. *)
Theorem extract_assigns_first_role_last_column
    (excel_df : DataFrame) (row_index : nat) (row : Row) :
  Frame.iloc excel_df row_index = Ok row →
  ∃ excel_data,
    extract_excel_data row_index excel_df = Ok excel_data
    ∧ (∀ m col,
         extract_step excel_df row m col =
           match first_role col with
           | Some role => <[role := cell_text (Frame.at_col excel_df col row)]> m
           | None => m
           end)
    ∧ (∀ role, role ∈ roles →
         excel_data !! role =
           Some match last (qualifying role (columns excel_df)) with
                | Some c => cell_text (Frame.at_col excel_df c row)
                | None => ""
                end)
    ∧ (∀ key, key ∉ roles → excel_data !! key = None).
Proof.
  intros Hrow. eexists. split; [|split; [|split]].
  - unfold extract_excel_data. rewrite Hrow. reflexivity.
  - intros. apply extract_step_first_role.
  - intros role Hrole. rewrite extract_fold_lookup.
    destruct (last _); [done|].
    unfold roles, role_tests in Hrole. cbn in Hrole.
    rewrite !elem_of_cons, elem_of_nil in Hrole.
    destruct Hrole as [->|[->|[->|[->|[]]]]]; reflexivity.
  - intros key Hkey. rewrite extract_fold_lookup.
    destruct (last (qualifying key (columns excel_df))) as [c|] eqn:Hlast.
    + exfalso. apply Hkey. apply last_Some_elem_of in Hlast.
      unfold qualifying in Hlast. apply list_elem_of_filter in Hlast as [Hc _].
      unfold first_role in Hc. destruct (list_find _ _) as [[i t]|] eqn:Hf; [|done].
      injection Hc as <-. apply list_find_Some in Hf as (Hi & _).
      apply list_elem_of_fmap. exists t. split; [done|]. by eapply list_elem_of_lookup_2.
    + unfold roles, role_tests in Hkey. cbn in Hkey.
      rewrite !not_elem_of_cons in Hkey. destruct Hkey as (?&?&?&?&_).
      unfold excel_data_init. by rewrite !lookup_insert_ne, lookup_empty.
Qed.

(** ** calculate_days_remaining *)

Lemma try_formats_returns (strptime : string → string → result datetime)
    (now : datetime) (text : string) (fmts : list string) :
  (∀ fmt, fmt ∈ fmts → ∃ e, strptime text fmt = Raise e) →
  try_except_all (try_formats strptime now text fmts) (Ok None) = Ok None.
Proof.
  induction fmts as [|fmt fmts IH]; intros Hall; [done|].
  cbn [try_formats]. destruct (Hall fmt) as [e He]; [by left|]. rewrite He.
  cbn [mbind result_bind Py.bind try_except].
  destruct (is_ValueError e); [|done].
  apply IH. intros f Hf. apply Hall. by right.
Qed.

Lemma try_except_all_ok {A} (m h : result A) :
  (∃ a, h = Ok a) → ∃ a, try_except_all m h = Ok a.
Proof. intros [a ->]. destruct m as [b|e]; by eexists. Qed.

Lemma calculate_days_remaining_returns
    (strptime : string → string → result datetime) (now : datetime) (date_value : date_arg) :
  ∃ days, calculate_days_remaining_with strptime now date_value = Ok days.
Proof.
  unfold calculate_days_remaining_with.
  destruct date_value as [| |s]; [by eexists..|].
  destruct (String.eqb s ""); [by eexists|].
  apply try_except_all_ok. by eexists.
Qed.

(** C8: [calculate_days_remaining] returns for every argument and every
    reading of the clock, whatever the parser does: it never raises.  It
    returns the absent value for [None], NaN and the empty string, and for a
    text on which each of the four formats raises (a [ValueError] or
    anything else); [get_alert_status] turns that absent value into
    No Data. *)
Theorem calculate_days_remaining_never_raises
    (strptime : string → string → result datetime) (now : datetime) (date_value : date_arg) :
  (∃ days, calculate_days_remaining_with strptime now date_value = Ok days)
  ∧ (∃ days, calculate_days_remaining now date_value = Ok days)
  ∧ calculate_days_remaining_with strptime now ArgNone = Ok None
  ∧ calculate_days_remaining_with strptime now ArgNaN = Ok None
  ∧ calculate_days_remaining_with strptime now (ArgStr "") = Ok None
  ∧ (∀ text,
       (∀ fmt, fmt ∈ date_formats → ∃ e, strptime text fmt = Raise e) →
       calculate_days_remaining_with strptime now (ArgStr text) = Ok None)
  ∧ get_alert_status None = "No Data".
Proof.
  split; [apply calculate_days_remaining_returns|].
  split; [apply calculate_days_remaining_returns|].
  repeat split.
  intros text Hall. unfold calculate_days_remaining_with.
  destruct (String.eqb text ""); [done|]. by apply try_formats_returns.
Qed.

(** *** Reading back a formatted date *)

Section ReadingBack.

Import Strptime.

Lemma nat_of_digit_char (k : Z) :
  0 <= k <= 9 → nat_of_ascii (digit_char k) = (48 + Z.to_nat k)%nat.
Proof. intros Hk. unfold digit_char. apply nat_ascii_embedding. lia. Qed.

Lemma digit_digit_char (k : Z) : 0 <= k <= 9 → digit (digit_char k) = true.
Proof.
  intros Hk. unfold digit, range. rewrite nat_of_digit_char by done.
  change (nat_of_ascii "0") with 48%nat. change (nat_of_ascii "9") with 57%nat.
  apply andb_true_intro. split; apply Nat.leb_le; lia.
Qed.

Lemma digit_char_not_blank (k : Z) : 0 <= k <= 9 → Ascii.eqb (digit_char k) " " = false.
Proof.
  intros Hk. apply Ascii.eqb_neq. intros H.
  apply (f_equal nat_of_ascii) in H. rewrite nat_of_digit_char in H by done.
  change (nat_of_ascii " ") with 32%nat in H. lia.
Qed.

Lemma int_digits_digit_char (acc k : Z) (s : string) :
  0 <= k <= 9 →
  int_digits acc (String (digit_char k) s) = int_digits (10 * acc + k) s.
Proof.
  intros Hk. cbn [int_digits]. rewrite digit_char_not_blank by done.
  rewrite nat_of_digit_char by done. f_equal. lia.
Qed.

Lemma int_pad2 (n : Z) : 0 <= n <= 99 → int (pad2 n) = n.
Proof.
  intros Hn. unfold int, pad2.
  rewrite !int_digits_digit_char by (Z.div_mod_to_equations; lia).
  cbn [int_digits]. Z.div_mod_to_equations; lia.
Qed.

Lemma int_pad4 (n : Z) : 0 <= n <= 9999 → int (pad4 n) = n.
Proof.
  intros Hn. unfold int, pad4, pad2.
  rewrite !int_digits_digit_char by (Z.div_mod_to_equations; lia).
  cbn [int_digits]. Z.div_mod_to_equations; lia.
Qed.

Lemma pad2_app (n : Z) (s : string) :
  pad2 n ++ s = String (digit_char (n / 10)) (String (digit_char (n mod 10)) s).
Proof. reflexivity. Qed.

Lemma pad4_app (n : Z) (s : string) :
  pad4 n ++ s
  = String (digit_char (n / 1000)) (String (digit_char (n / 100 mod 10))
      (String (digit_char (n mod 100 / 10)) (String (digit_char (n mod 100 mod 10)) s))).
Proof. reflexivity. Qed.

Lemma take_classes_year (y : Z) (s : string) :
  0 <= y <= 9999 →
  take_classes [digit; digit; digit; digit] (pad4 y ++ s) = Some (pad4 y, s).
Proof.
  intros Hy. rewrite pad4_app. cbn [take_classes].
  rewrite !digit_digit_char by (Z.div_mod_to_equations; lia). done.
Qed.

(** The year group reads four digits and goes on. *)
Lemma re_match_year (y : Z) (re : list piece) (s : string) (g : groups) :
  0 <= y <= 9999 →
  re_match (Dir dir_Y :: re) (pad4 y ++ s) g = re_match re s (set_group dir_Y (pad4 y) g).
Proof.
  intros Hy. cbn [re_match alternatives first_match].
  rewrite take_classes_year by done. by destruct (re_match re s _).
Qed.

(** A literal character of the format reads itself. *)
Lemma re_match_lit (c : ascii) (re : list piece) (s : string) (g : groups) :
  re_match (Lit c :: re) (String c s) g = re_match re s g.
Proof. cbn [re_match]. by rewrite Ascii.eqb_refl. Qed.

(** Case analysis on an integer in a short range. *)
Lemma Z_range_ind (lo hi : Z) (P : Z → Prop) :
  Forall P (seqZ lo (hi - lo + 1)) → ∀ z, lo <= z <= hi → P z.
Proof.
  intros H z Hz. eapply Forall_forall in H; [exact H|]. apply elem_of_seqZ. lia.
Qed.

Ltac eval_digits :=
  rewrite ?pad2_app; unfold pad2;
  repeat match goal with
         | |- context [digit_char ?k] =>
             let v := eval vm_compute in (digit_char k) in change (digit_char k) with v
         end.

Ltac eval_tests :=
  repeat (cbn;
          match goal with
          | |- context [range ?a ?b ?c] =>
              let v := eval vm_compute in (range a b c) in change (range a b c) with v
          | |- context [digit ?c] =>
              let v := eval vm_compute in (digit c) in change (digit c) with v
          end).

Ltac finish_match :=
  eval_digits; eval_tests; cbn;
  repeat match goal with
         | |- context [re_match ?re ?s ?g] => destruct (re_match re s g)
         end;
  reflexivity.

(** The month group followed by a separator. *)
Lemma re_match_month (m : Z) (c : ascii) (re : list piece) (s : string) (g : groups) :
  1 <= m <= 12 → is_separator c →
  re_match (Dir dir_m :: Lit c :: re) (pad2 m ++ String c s) g
  = re_match re s (set_group dir_m (pad2 m) g).
Proof.
  intros Hm Hc. revert m Hm. apply Z_range_ind.
  destruct Hc as [-> | [-> | ->]]; vm_compute seqZ; repeat constructor.
  all: finish_match.
Qed.

(** The day group followed by a separator. *)
Lemma re_match_day (d : Z) (c : ascii) (re : list piece) (s : string) (g : groups) :
  1 <= d <= 31 → is_separator c →
  re_match (Dir dir_d :: Lit c :: re) (pad2 d ++ String c s) g
  = re_match re s (set_group dir_d (pad2 d) g).
Proof.
  intros Hd Hc. revert d Hd. apply Z_range_ind.
  destruct Hc as [-> | [-> | ->]]; vm_compute seqZ; repeat constructor.
  all: finish_match.
Qed.

(** The day group at the end of the text. *)
Lemma re_match_day_end (d : Z) (g : groups) :
  1 <= d <= 31 →
  re_match [Dir dir_d] (pad2 d) g = Some (set_group dir_d (pad2 d) g, EmptyString).
Proof.
  revert d. apply Z_range_ind. vm_compute seqZ. repeat constructor.
  all: finish_match.
Qed.

Lemma sep_not_digit_char (c : ascii) (k : Z) :
  is_separator c → 0 <= k <= 9 → Ascii.eqb c (digit_char k) = false.
Proof.
  intros Hc Hk. apply Ascii.eqb_neq. intros H.
  apply (f_equal nat_of_ascii) in H. rewrite nat_of_digit_char in H by done.
  destruct Hc as [-> | [-> | ->]]; vm_compute in H; lia.
Qed.

(** A day or month group takes one or two characters; when neither the
    second nor the third character of the text is the separator that
    follows the group, the expression does not match. *)
Lemma re_match_separator_fails (dir : directive) (c x y z : ascii)
    (re : list piece) (s : string) (g : groups) :
  dir ≠ dir_Y →
  Ascii.eqb c y = false → Ascii.eqb c z = false →
  re_match (Dir dir :: Lit c :: re) (String x (String y (String z s))) g = None.
Proof.
  intros Hdir Hy Hz. destruct dir; [| |done].
  all: cbn -[only range digit Ascii.eqb].
  all: repeat (first [ rewrite Hy | rewrite Hz
                     | match goal with
                       | |- context [if ?b then _ else _] => destruct b
                       end ];
               cbn -[only range digit Ascii.eqb]).
  all: reflexivity.
Qed.

(** The year group needs four digits. *)
Lemma re_match_year_fails (x y z : ascii) (re : list piece) (s : string) (g : groups) :
  digit z = false →
  re_match (Dir dir_Y :: re) (String x (String y (String z s))) g = None.
Proof.
  intros Hz. cbn -[digit]. rewrite Hz. by destruct (digit x), (digit y).
Qed.

Lemma days_in_month_le_31 (y m : Z) : 1 <= m <= 12 → 1 <= days_in_month y m <= 31.
Proof.
  intros Hm. unfold days_in_month. destruct (_ && _); [lia|].
  revert m Hm. apply Z_range_ind. vm_compute. repeat constructor; discriminate.
Qed.

Lemma date_fields_ok_ranges (y m d : Z) :
  date_fields_ok y m d = true → 1 <= y <= 9999 ∧ 1 <= m <= 12 ∧ 1 <= d <= 31.
Proof.
  unfold date_fields_ok, MINYEAR, MAXYEAR. rewrite !andb_true_iff, !Z.leb_le.
  intros [[[[[? ?] ?] ?] ?] ?]. pose proof (days_in_month_le_31 y m). lia.
Qed.

Lemma strftime_texts (y m d : Z) :
  strftime y m d "%m/%d/%Y" = pad2 m ++ String "/" (pad2 d ++ String "/" (pad4 y ++ ""))
  ∧ strftime y m d "%Y-%m-%d" = pad4 y ++ String "-" (pad2 m ++ String "-" (pad2 d ++ ""))
  ∧ strftime y m d "%d.%m.%Y" = pad2 d ++ String "." (pad2 m ++ String "." (pad4 y ++ ""))
  ∧ strftime y m d "%m-%d-%Y" = pad2 m ++ String "-" (pad2 d ++ String "-" (pad4 y ++ "")).
Proof. repeat split; reflexivity. Qed.

Lemma pad2_nil (n : Z) : pad2 n ++ "" = pad2 n.
Proof. reflexivity. Qed.

Lemma sep_slash : is_separator "/". Proof. by left. Qed.
Lemma sep_dash : is_separator "-". Proof. right. by left. Qed.
Lemma sep_dot : is_separator ".". Proof. right. by right. Qed.

Lemma strptime_of_groups (text format : string) (re : list piece) (y m d : Z) :
  pattern format = Some re →
  re_match re text (mk_groups None None None)
    = Some (mk_groups (Some (pad2 d)) (Some (pad2 m)) (Some (pad4 y)), EmptyString) →
  date_fields_ok y m d = true →
  strptime text format = Ok (mk_datetime y m d 0 0 0 0).
Proof.
  intros Hp Hm Hok. unfold strptime. rewrite Hp, Hm.
  cbn [String.eqb negb from_option group_Y group_m group_d].
  destruct (date_fields_ok_ranges _ _ _ Hok) as (Hy & Hmo & Hd).
  rewrite int_pad4, !int_pad2 by lia. by rewrite Hok.
Qed.

(** Each format reads back the date written in it. *)
Lemma strptime_strftime (y m d : Z) (format : string) :
  date_fields_ok y m d = true →
  format ∈ date_formats →
  strptime (strftime y m d format) format = Ok (mk_datetime y m d 0 0 0 0).
Proof.
  intros Hok Hf. destruct (date_fields_ok_ranges _ _ _ Hok) as (Hy & Hm & Hd).
  destruct (strftime_texts y m d) as (T1 & T2 & T3 & T4).
  unfold date_formats in Hf. rewrite !elem_of_cons, elem_of_nil in Hf.
  destruct Hf as [-> | [-> | [-> | [-> | []]]]].
  - eapply (strptime_of_groups _ _ [Dir dir_m; Lit "/"; Dir dir_d; Lit "/"; Dir dir_Y]);
      [reflexivity| |done]. rewrite T1.
    rewrite re_match_month; [|lia|apply sep_slash].
    rewrite re_match_day; [|lia|apply sep_slash].
    rewrite re_match_year by lia. reflexivity.
  - eapply (strptime_of_groups _ _ [Dir dir_Y; Lit "-"; Dir dir_m; Lit "-"; Dir dir_d]);
      [reflexivity| |done]. rewrite T2.
    rewrite re_match_year by lia. rewrite re_match_lit.
    rewrite re_match_month; [|lia|apply sep_dash].
    rewrite pad2_nil. apply re_match_day_end. lia.
  - eapply (strptime_of_groups _ _ [Dir dir_d; Lit "."; Dir dir_m; Lit "."; Dir dir_Y]);
      [reflexivity| |done]. rewrite T3.
    rewrite re_match_day; [|lia|apply sep_dot].
    rewrite re_match_month; [|lia|apply sep_dot].
    rewrite re_match_year by lia. reflexivity.
  - eapply (strptime_of_groups _ _ [Dir dir_m; Lit "-"; Dir dir_d; Lit "-"; Dir dir_Y]);
      [reflexivity| |done]. rewrite T4.
    rewrite re_match_month; [|lia|apply sep_dash].
    rewrite re_match_day; [|lia|apply sep_dash].
    rewrite re_match_year by lia. reflexivity.
Qed.

Lemma strptime_no_match (text format : string) (re : list piece) :
  pattern format = Some re →
  re_match re text (mk_groups None None None) = None →
  strptime text format = Raise ValueError.
Proof. intros Hp Hm. unfold strptime. by rewrite Hp, Hm. Qed.

(** A format that comes earlier in the list rejects a date written in a
    later one. *)
Lemma strptime_earlier_format (y m d : Z) :
  date_fields_ok y m d = true →
  strptime (strftime y m d "%Y-%m-%d") "%m/%d/%Y" = Raise ValueError
  ∧ strptime (strftime y m d "%d.%m.%Y") "%m/%d/%Y" = Raise ValueError
  ∧ strptime (strftime y m d "%d.%m.%Y") "%Y-%m-%d" = Raise ValueError
  ∧ strptime (strftime y m d "%m-%d-%Y") "%m/%d/%Y" = Raise ValueError
  ∧ strptime (strftime y m d "%m-%d-%Y") "%Y-%m-%d" = Raise ValueError
  ∧ strptime (strftime y m d "%m-%d-%Y") "%d.%m.%Y" = Raise ValueError.
Proof.
  intros Hok. destruct (date_fields_ok_ranges _ _ _ Hok) as (Hy & Hm & Hd).
  destruct (strftime_texts y m d) as (T1 & T2 & T3 & T4).
  rewrite T2, T3, T4, pad4_app, !pad2_app.
  repeat split; (eapply strptime_no_match; [reflexivity|]).
  - apply re_match_separator_fails; [done|..];
      apply sep_not_digit_char; auto using sep_slash; Z.div_mod_to_equations; lia.
  - apply re_match_separator_fails; [done| |done].
    apply sep_not_digit_char; auto using sep_slash; Z.div_mod_to_equations; lia.
  - by apply re_match_year_fails.
  - apply re_match_separator_fails; [done| |done].
    apply sep_not_digit_char; auto using sep_slash; Z.div_mod_to_equations; lia.
  - by apply re_match_year_fails.
  - apply re_match_separator_fails; [done| |done].
    apply sep_not_digit_char; auto using sep_dot; Z.div_mod_to_equations; lia.
Qed.

(** The dashboard reads a formatted date back as that date, whichever of
    the four formats wrote it. *)
Lemma parse_date_strftime (y m d : Z) (format : string) :
  date_fields_ok y m d = true →
  format ∈ date_formats →
  parse_date (strftime y m d format) = Some (mk_datetime y m d 0 0 0 0).
Proof.
  intros Hok Hf.
  destruct (strptime_earlier_format y m d Hok) as (E21 & E31 & E32 & E41 & E42 & E43).
  pose proof (strptime_strftime y m d) as Hself.
  unfold parse_date, date_formats in *. rewrite !elem_of_cons, elem_of_nil in Hf.
  destruct Hf as [-> | [-> | [-> | [-> | []]]]]; cbn [first_match].
  - rewrite Hself by set_solver. done.
  - rewrite E21, Hself by set_solver. done.
  - rewrite E31, E32, Hself by set_solver. done.
  - rewrite E41, E42, E43, Hself by set_solver. done.
Qed.

(** [strptime] raises nothing but [ValueError], and what it returns is a
    date at midnight. *)
Lemma strptime_cases (text format : string) :
  strptime text format = Raise ValueError
  ∨ ∃ y m d, strptime text format = Ok (mk_datetime y m d 0 0 0 0).
Proof.
  unfold strptime. destruct (pattern format); [|by left].
  destruct (re_match _ _ _) as [[found rest]|]; [|by left].
  destruct (negb _); [by left|].
  destruct (date_fields_ok _ _ _); [right; by do 3 eexists|by left].
Qed.

Lemma try_formats_parse (now : datetime) (text : string) (fmts : list string) :
  try_formats strptime now text fmts
  = Ok ((λ dt, sub_days dt now) <$>
          first_match
            (λ fmt, match strptime text fmt with Ok dt => Some dt | Raise _ => None end)
            fmts).
Proof.
  induction fmts as [|fmt fmts IH]; [done|].
  cbn [try_formats first_match].
  destruct (strptime_cases text fmt) as [-> | (y & m & d & ->)]; [|done].
  cbn [mbind result_bind Py.bind try_except is_ValueError]. exact IH.
Qed.

(** What [calculate_days_remaining] returns on a text, said with the date
    the text is read as. *)
Lemma calculate_days_remaining_parse (now : datetime) (text : string) :
  calculate_days_remaining now (ArgStr text)
  = Ok ((λ dt, sub_days dt now) <$> parse_date text).
Proof.
  unfold calculate_days_remaining, calculate_days_remaining_with.
  destruct (String.eqb_spec text "") as [-> | _]; [done|].
  by rewrite try_formats_parse.
Qed.

Lemma time_fields_ok_ranges (dt : datetime) :
  time_fields_ok dt = true →
  0 <= seconds_of_day dt <= 86399 ∧ 0 <= microsecond dt <= 999999.
Proof.
  unfold time_fields_ok, seconds_of_day. rewrite !andb_true_iff, !Z.leb_le. lia.
Qed.

(** Days from a clock reading to midnight of a date: the difference of the
    ordinals, less one unless the reading is itself at midnight. *)
Lemma sub_days_from_midnight (now : datetime) (y m d : Z) :
  time_fields_ok now = true →
  sub_days (mk_datetime y m d 0 0 0 0) now
  = ymd2ord y m d - toordinal now - (if at_midnight now then 0 else 1).
Proof.
  intros Hnow. apply time_fields_ok_ranges in Hnow as [Hs Hu].
  unfold sub_days, at_midnight. cbn [microsecond].
  change (toordinal (mk_datetime y m d 0 0 0 0)) with (ymd2ord y m d).
  change (seconds_of_day (mk_datetime y m d 0 0 0 0)) with 0.
  destruct (Z.eqb_spec (seconds_of_day now) 0) as [Hs0|Hs0];
    destruct (Z.eqb_spec (microsecond now) 0) as [Hu0|Hu0]; cbn [andb];
    Z.div_mod_to_equations; lia.
Qed.

(** C2: writing the date that lies [N] days after today's date in any of the
    four formats and reading it back gives [N] up to the instant of
    evaluation: [N] when the clock reads exactly midnight and [N - 1] at any
    later instant of the day, since the parsed date stands for its midnight
    and the difference is rounded down to whole days. *)
Theorem calculate_days_remaining_round_trip
    (now : datetime) (y m d N : Z) (format : string) :
  time_fields_ok now = true →
  date_fields_ok y m d = true →
  ymd2ord y m d = toordinal now + N →
  format ∈ date_formats →
  ∃ days,
    calculate_days_remaining now (ArgStr (strftime y m d format)) = Ok (Some days)
    ∧ days = (if at_midnight now then N else N - 1)
    ∧ N - 1 <= days <= N.
Proof.
  intros Hnow Hok HN Hf.
  exists (if at_midnight now then N else N - 1). split; [|split; [done|]].
  - rewrite calculate_days_remaining_parse, parse_date_strftime by done.
    cbn [fmap option_fmap option_map]. rewrite sub_days_from_midnight by done.
    do 2 f_equal. destruct (at_midnight now); lia.
  - destruct (at_midnight now); lia.
Qed.

(** C10: when the clock reads any instant after midnight, a text that the
    dashboard reads as today's date, in particular today's date written in
    any of the four formats, gives -1 and not 0, because the parsed date
    stands for midnight and the clock reading is later; -1 is classified
    OVERDUE, not CRITICAL. *)
Theorem due_today_is_overdue (now : datetime) :
  valid now = true →
  at_midnight now = false →
  (∀ text y m d,
     parse_date text = Some (mk_datetime y m d 0 0 0 0) →
     ymd2ord y m d = toordinal now →
     calculate_days_remaining now (ArgStr text) = Ok (Some (-1)))
  ∧ (∀ format, format ∈ date_formats →
       calculate_days_remaining now
         (ArgStr (strftime (year now) (month now) (day now) format)) = Ok (Some (-1)))
  ∧ get_alert_status (Some (-1)) = "OVERDUE"
  ∧ get_alert_status (Some (-1)) ≠ "CRITICAL"
  ∧ get_alert_status (Some 0) = "CRITICAL".
Proof.
  intros Hvalid Hlate. unfold valid in Hvalid. apply andb_true_iff in Hvalid as [Hdate Htime].
  assert (Hgen : ∀ text y m d,
     parse_date text = Some (mk_datetime y m d 0 0 0 0) →
     ymd2ord y m d = toordinal now →
     calculate_days_remaining now (ArgStr text) = Ok (Some (-1))).
  { intros text y m d Hparse Hord.
    rewrite calculate_days_remaining_parse, Hparse. cbn [fmap option_fmap option_map].
    rewrite sub_days_from_midnight by done. rewrite Hlate, Hord. do 2 f_equal. lia. }
  split; [exact Hgen|]. split; [|by repeat split].
  intros format Hf. eapply Hgen; [by apply parse_date_strftime|done].
Qed.

End ReadingBack.


(** ** process_combined_data *)

Lemma meters_to_miles_spec (data : Reading) :
  meters_to_miles data ≫= py_int = spec_miles (reading_value data).
Proof.
  unfold meters_to_miles, spec_miles. destruct (reading_value data) as [v|]; [|done].
  destruct (Z.eqb_spec v 0) as [-> | Hv]; [vm_compute; reflexivity|].
  cbn [negb]. destruct (PyFloat.of_int v); reflexivity.
Qed.

Lemma bind_Ok {A B} (m : result A) (k : A → result B) (b : B) :
  m ≫= k = Ok b → ∃ a, m = Ok a ∧ k a = Ok b.
Proof. destruct m as [a|e]; [by exists a|done]. Qed.

(** The loop appends, for every matched vehicle in turn, a record of that
    vehicle. *)
Lemma combine_loop_spec (clock : nat → datetime) (excel_df : DataFrame)
    (samsara_data : list Vehicle) (calls : nat) (acc out : list CombinedInfo) :
  combine_loop clock excel_df samsara_data calls acc = Ok out →
  ∃ new, out = (acc ++ new)%list
         ∧ Forall2 record_of (List.filter (matched excel_df) samsara_data) new.
Proof.
  revert calls acc. induction samsara_data as [|v vs IH]; intros calls acc Hloop.
  - injection Hloop as <-. exists []. by rewrite app_nil_r.
  - cbn [combine_loop] in Hloop.
    apply bind_Ok in Hloop as (obd_miles & Hobd & Hloop).
    apply bind_Ok in Hloop as (gps_miles & Hgps & Hloop).
    cbn [List.filter]. unfold matched at 1. fold (lookup_name v) (lookup_vin v) in Hloop.
    destruct (find_excel_match (lookup_name v) (lookup_vin v) excel_df) as [i|] eqn:Hm.
    + apply bind_Ok in Hloop as (excel_data & _ & Hloop).
      apply bind_Ok in Hloop as (annual_days & _ & Hloop).
      apply bind_Ok in Hloop as (pm_days & _ & Hloop).
      apply bind_Ok in Hloop as (pm_insp_days & _ & Hloop).
      apply bind_Ok in Hloop as (obd_int & Hoi & Hloop).
      apply bind_Ok in Hloop as (gps_int & Hgi & Hloop).
      apply IH in Hloop as (new & -> & Hnew).
      rewrite bool_decide_true by by eexists.
      eexists (_ :: new). split; [by rewrite <- app_assoc|].
      constructor; [|done]. unfold record_of. cbn.
      rewrite <- !meters_to_miles_spec, Hobd, Hgps. cbn. by rewrite Hoi, Hgi.
    + rewrite bool_decide_false by (by intros [? ?]). by eapply IH.
Qed.

Lemma find_excel_match_in_index (vehicle_name samsara_vin : string)
    (excel_df : DataFrame) (label : nat) :
  find_excel_match vehicle_name samsara_vin excel_df = Some label →
  label ∈ Frame.index excel_df.
Proof.
  assert (Hsearch : ∀ candidate key,
    search_columns candidate key excel_df (columns excel_df) = Some label →
    label ∈ Frame.index excel_df).
  { intros candidate key H. apply search_columns_Some in H.
    destruct H as (pre & c & post & r & rs & _ & _ & Hm & -> & _).
    apply list_elem_of_fmap. exists r. split; [done|].
    assert (Hr : In r (matches excel_df c key)) by (rewrite Hm; by left).
    unfold matches in Hr. apply filter_In in Hr as [Hr _]. by apply list_elem_of_In. }
  unfold find_excel_match.
  destruct (search_columns is_id_column _ _ _) as [l|] eqn:H1.
  - intros [= <-]. by eapply Hsearch.
  - destruct (negb _); [|done]. apply Hsearch.
Qed.

Lemma matched_empty (excel_df : DataFrame) (v : Vehicle) :
  Frame.empty excel_df = true → matched excel_df v = false.
Proof.
  intros Hempty.
  assert (Hnone : ∀ candidate key,
    search_columns candidate key excel_df (columns excel_df) = None).
  { intros candidate key. apply search_columns_None, Forall_forall. intros c Hc _.
    apply matches_no_rows. unfold Frame.empty in Hempty.
    destruct (columns excel_df); [by apply elem_of_nil in Hc|].
    by destruct (rows excel_df). }
  unfold matched, find_excel_match. rewrite !Hnone.
  apply bool_decide_eq_false. destruct (negb _); by intros [? ?].
Qed.

Lemma filter_all_false {A} (p : A → bool) (l : list A) :
  (∀ x, x ∈ l → p x = false) → List.filter p l = [].
Proof.
  induction l as [|x l IH]; intros H; [reflexivity|].
  cbn. rewrite (H x) by left. apply IH. intros y Hy. apply H. by right.
Qed.

(** The records of a returning call are those of the matched vehicles, in
    the order of the input. *)
Lemma process_combined_data_records (clock : nat → datetime)
    (samsara_data : list Vehicle) (excel_df : DataFrame) (out : list CombinedInfo) :
  process_combined_data clock samsara_data excel_df = Ok out →
  Forall2 record_of (List.filter (matched excel_df) samsara_data) out.
Proof.
  intros Hout. unfold process_combined_data in Hout.
  destruct samsara_data as [|v vs]; [by injection Hout as <-|].
  destruct (Frame.empty excel_df) eqn:Hempty.
  - injection Hout as <-. rewrite filter_all_false; [constructor|].
    intros x _. by apply matched_empty.
  - apply combine_loop_spec in Hout as (new & -> & Hnew). exact Hnew.
Qed.

(** C9: in every record that [process_combined_data] returns, the odometer
    and the GPS mileage are those of the record's vehicle: the meters divided
    by 1609.34, rounded and made an integer, when the reading has a value,
    and 0 when the reading or its value is missing.  The guard of the code
    also sends a value of 0 meters to 0, which is what the formula gives.
    160934 meters are exactly 100 miles. *)
Theorem mileage_fields_are_rounded_miles (clock : nat → datetime)
    (samsara_data : list Vehicle) (excel_df : DataFrame) (out : list CombinedInfo) :
  process_combined_data clock samsara_data excel_df = Ok out →
  Forall2 record_of (List.filter (matched excel_df) samsara_data) out
  ∧ (∀ data, meters_to_miles data ≫= py_int = spec_miles (reading_value data))
  ∧ spec_miles (Some 160934) = Ok 100
  ∧ spec_miles None = Ok 0.
Proof.
  intros Hout. split; [by eapply process_combined_data_records|].
  split; [apply meters_to_miles_spec|].
  split; [vm_compute; reflexivity|reflexivity].
Qed.

(** C5 at a table that lost a row: cleaning drops the OLD row and leaves
    the row of T-1 with its label 1; the vehicle T-1 finds that row, and
    [process_combined_data] raises [IndexError], because the label is then
    used as a position in a frame of one row. *)
Theorem process_combined_data_raises_after_row_drop :
  clean_excel_data sheet_with_old_row = Ok sheet_without_old_row
  ∧ find_excel_match "T-1" "" sheet_without_old_row = Some 1%nat
  ∧ matched sheet_without_old_row vehicle_T1 = true
  ∧ extract_excel_data 1 sheet_without_old_row = Raise IndexError
  ∧ ∀ clock, process_combined_data clock [vehicle_T1] sheet_without_old_row
             = Raise IndexError.
Proof.
  repeat split; vm_compute; reflexivity.
Qed.

(** Where [process_combined_data] does return, its records are those of the
    matched vehicles, in the order of the input; with no vehicle or an empty
    frame it returns no record. *)
Lemma process_combined_data_order (clock : nat → datetime)
    (samsara_data : list Vehicle) (excel_df : DataFrame) :
  (∀ out, process_combined_data clock samsara_data excel_df = Ok out →
     Vehicle_Name <$> out = lookup_name <$> List.filter (matched excel_df) samsara_data)
  ∧ process_combined_data clock [] excel_df = Ok []
  ∧ (Frame.empty excel_df = true →
     process_combined_data clock samsara_data excel_df = Ok []).
Proof.
  split; [|split].
  - intros out Hout.
    pose proof (process_combined_data_records clock samsara_data excel_df out Hout) as H.
    clear Hout. induction H as [|v info vs infos Hrec _ IH]; [done|].
    cbn. f_equal; [|exact IH]. by destruct Hrec as (_ & -> & _).
  - done.
  - intros Hempty. unfold process_combined_data. rewrite Hempty. by destruct samsara_data.
Qed.

(** With row labels that are the row positions, as [read_csv] gives them
    before any row is dropped, and mileages within the range of floats,
    [process_combined_data] returns. *)
Lemma combine_loop_returns (clock : nat → datetime) (excel_df : DataFrame)
    (samsara_data : list Vehicle) (calls : nat) (acc : list CombinedInfo) :
  Frame.index excel_df = seq 0 (length (rows excel_df)) →
  Forall (λ v,
    (∃ n, spec_miles (reading_value (default no_reading (obdOdometerMeters v))) = Ok n)
    ∧ (∃ n, spec_miles (reading_value (default no_reading (gpsDistanceMeters v))) = Ok n))
    samsara_data →
  ∃ out, combine_loop clock excel_df samsara_data calls acc = Ok out.
Proof.
  intros Hindex. revert calls acc.
  induction samsara_data as [|v vs IH]; intros calls acc Hmiles; [by eexists|].
  apply Forall_cons in Hmiles as [[[n1 H1] [n2 H2]] Hmiles].
  rewrite <- meters_to_miles_spec in H1, H2.
  apply bind_Ok in H1 as (m1 & Hm1 & Hi1). apply bind_Ok in H2 as (m2 & Hm2 & Hi2).
  cbn [combine_loop]. rewrite Hm1, Hm2. cbn [mbind result_bind Py.bind].
  destruct (find_excel_match _ _ _) as [i|] eqn:Hfind; [|by apply IH].
  apply find_excel_match_in_index in Hfind. rewrite Hindex in Hfind.
  apply elem_of_seq in Hfind as [_ Hlt]. cbn in Hlt.
  apply lookup_lt_is_Some_2 in Hlt as [r Hr].
  unfold extract_excel_data, Frame.iloc, calculate_days_remaining.
  rewrite Hr. cbn [mbind result_bind Py.bind].
  destruct (calculate_days_remaining_returns Strptime.strptime (clock calls)
    (date_arg_of (foldl (extract_step excel_df r) excel_data_init (columns excel_df)
                    !! "annual_date"))) as [a ->].
  destruct (calculate_days_remaining_returns Strptime.strptime (clock (S calls))
    (date_arg_of (foldl (extract_step excel_df r) excel_data_init (columns excel_df)
                    !! "pm_date"))) as [b ->].
  destruct (calculate_days_remaining_returns Strptime.strptime (clock (S (S calls)))
    (date_arg_of (foldl (extract_step excel_df r) excel_data_init (columns excel_df)
                    !! "pm_insp_date"))) as [c ->].
  cbn [mbind result_bind Py.bind]. rewrite Hi1, Hi2. cbn [Py.bind]. by apply IH.
Qed.

(** ** Instances *)

Lemma find_excel_match_consults_candidates_in_order_witness :
  clean_excel_data two_id_table = Ok two_id_table
  ∧ search_columns is_vin_column "1FT999" two_id_table (columns two_id_table) = None.
Proof.
  split; [vm_compute; reflexivity|].
  destruct (find_excel_match_consults_candidates_in_order
              two_id_table two_id_table "A-9" "1FT999") as (_ & _ & _ & H);
    [vm_compute; reflexivity|].
  apply (H "VIN"); [|vm_compute; reflexivity].
  exists ["TRUCK"; "ASSET_ID"], []. split; [reflexivity|].
  split; [vm_compute; reflexivity|]. repeat constructor.
Defined.

Lemma calculate_days_remaining_round_trip_witness :
  time_fields_ok noon = true
  ∧ date_fields_ok 2025 2 14 = true
  ∧ ymd2ord 2025 2 14 = toordinal noon + 30
  ∧ "%d.%m.%Y" ∈ date_formats
  ∧ ∃ days,
      calculate_days_remaining noon (ArgStr (strftime 2025 2 14 "%d.%m.%Y")) = Ok (Some days)
      ∧ days = (if at_midnight noon then 30 else 30 - 1)
      ∧ 30 - 1 <= days <= 30.
Proof.
  assert (H1 : time_fields_ok noon = true) by reflexivity.
  assert (H2 : date_fields_ok 2025 2 14 = true) by reflexivity.
  assert (H3 : ymd2ord 2025 2 14 = toordinal noon + 30) by reflexivity.
  assert (H4 : "%d.%m.%Y" ∈ date_formats) by compute_done.
  repeat split; try assumption.
  exact (calculate_days_remaining_round_trip noon 2025 2 14 30 "%d.%m.%Y" H1 H2 H3 H4).
Defined.

Lemma extract_assigns_first_role_last_column_witness :
  Frame.iloc pm_table 0 = Ok (mkRow 0 [Some "T-1"; Some "01/02/2025"; Some "Active"; Some "03/04/2025"; None])
  ∧ ∃ excel_data,
      extract_excel_data 0 pm_table = Ok excel_data
      ∧ excel_data !! "pm_date" = Some "03/04/2025"
      ∧ excel_data !! "status" = Some "Active"
      ∧ excel_data !! "annual_date" = Some ""
      ∧ excel_data !! "pm_insp_date" = Some "".
Proof.
  split; [reflexivity|].
  destruct (extract_assigns_first_role_last_column pm_table 0 _ eq_refl)
    as (excel_data & Hex & _ & Hroles & _).
  exists excel_data. split; [exact Hex|].
  repeat split; (rewrite Hroles; [vm_compute; reflexivity|compute_done]).
Defined.

Lemma clean_twice_witness :
  clean_excel_data sheet_with_old_row = Ok sheet_without_old_row
  ∧ (clean_excel_data sheet_without_old_row = Ok sheet_without_old_row
     ↔ Frame.empty sheet_without_old_row = true
       ∨ leading_unnamed sheet_without_old_row = false).
Proof.
  split; [vm_compute; reflexivity|].
  apply (clean_twice sheet_with_old_row). vm_compute; reflexivity.
Defined.

(** C6, as stated, fails: a sheet with two unnamed leading columns loses
    one of them at each cleaning, so the second cleaning changes the result
    of the first. *)
Lemma clean_not_idempotent :
  clean_excel_data sheet_two_unnamed = Ok sheet_one_unnamed
  ∧ clean_excel_data sheet_one_unnamed = Ok sheet_no_unnamed
  ∧ sheet_no_unnamed ≠ sheet_one_unnamed.
Proof. repeat split; try (vm_compute; reflexivity). discriminate. Qed.

Lemma clean_drops_exactly_excluded_rows_witness :
  clean_excel_data sheet_with_old_row = Ok sheet_without_old_row
  ∧ Frame.index sheet_without_old_row = [1%nat]
  ∧ first_value sheet_with_old_row (mkRow 0 [Some "OLD"; None; None; None])
      ∈ Some <$> filters_to_remove.
Proof.
  assert (H : clean_excel_data sheet_with_old_row = Ok sheet_without_old_row)
    by (vm_compute; reflexivity).
  destruct (clean_drops_exactly_excluded_rows _ _ H) as (Hindex & Hiff & _).
  split; [exact H|]. split; [rewrite Hindex; vm_compute; reflexivity|].
  apply (Hiff ltac:(compute_done)
               (mkRow 0 [Some "OLD"; None; None; None])
               ltac:(compute_done)).
  rewrite Hindex. compute_done.
Defined.

Lemma mileage_fields_are_rounded_miles_witness :
  ∃ info,
    process_combined_data clock_at_noon [vehicle_T1] sheet_T1 = Ok [info]
    ∧ Forall2 record_of (List.filter (matched sheet_T1) [vehicle_T1]) [info]
    ∧ OBD_Odometer_Miles info = 100
    ∧ GPS_Distance_Miles info = 0
    ∧ Annual_Alert info = "OVERDUE".
Proof.
  destruct (process_combined_data clock_at_noon [vehicle_T1] sheet_T1) as [out|e] eqn:Hout;
    [|vm_compute in Hout; discriminate].
  pose proof (mileage_fields_are_rounded_miles _ _ _ _ Hout) as (Hrec & _).
  vm_compute in Hout. injection Hout as <-.
  eexists. split; [reflexivity|]. split; [exact Hrec|]. repeat split.
Defined.

Lemma due_today_is_overdue_witness :
  valid noon = true
  ∧ at_midnight noon = false
  ∧ calculate_days_remaining noon (ArgStr "01/15/2025") = Ok (Some (-1))
  ∧ calculate_days_remaining noon (ArgStr (strftime 2025 1 15 "%Y-%m-%d")) = Ok (Some (-1)).
Proof.
  destruct (due_today_is_overdue noon) as (Hany & Hfmt & _); [reflexivity..|].
  split; [reflexivity|]. split; [reflexivity|]. split.
  - apply (Hany "01/15/2025" 2025 1 15); vm_compute; reflexivity.
  - apply (Hfmt "%Y-%m-%d"). compute_done.
Defined.

(** ** More on calculate_days_remaining *)

Section Formats.

Import Strptime.

Lemma first_match_Some {A B} (f : A → option B) (l : list A) (b : B) :
  first_match f l = Some b → ∃ a, a ∈ l ∧ f a = Some b.
Proof.
  induction l as [|a l IH]; [done|]. cbn [first_match].
  destruct (f a) as [b'|] eqn:Hf.
  - intros [= <-]. exists a. split; [by left|done].
  - intros H. destruct (IH H) as (a' & Ha' & Hfa'). exists a'. split; [by right|done].
Qed.

Lemma range_digit (lo hi c : ascii) :
  digit lo = true → digit hi = true → range lo hi c = true → digit c = true.
Proof.
  unfold digit, range. rewrite !andb_true_iff, !Nat.leb_le.
  change (nat_of_ascii "0") with 48%nat. change (nat_of_ascii "9") with 57%nat. lia.
Qed.

(** The alternatives of a day or month group have one or two character
    classes, and the second class of a two-character alternative only
    holds digits. *)
Lemma alternatives_short (dir : directive) (alt : list charclass) :
  dir ≠ dir_Y → alt ∈ alternatives dir →
  (∃ p, alt = [p]) ∨ (∃ p q, alt = [p; q] ∧ ∀ c, q c = true → digit c = true).
Proof.
  intros Hdir Halt. destruct dir; [| |done]; cbn [alternatives] in Halt;
    rewrite !elem_of_cons, elem_of_nil in Halt.
  - destruct Halt as [-> | [-> | [-> | [-> | [-> | []]]]]];
      first [ left; by eexists
            | right; do 2 eexists; split; [reflexivity|];
              intros c; first [ done | by apply range_digit ] ].
  - destruct Halt as [-> | [-> | [-> | []]]];
      first [ left; by eexists
            | right; do 2 eexists; split; [reflexivity|];
              intros c; first [ done | by apply range_digit ] ].
Qed.

(** A text on which a day or month group followed by a separator matches
    has that separator as its second character, or as its third after a
    digit. *)
Lemma re_match_separator_shape (dir : directive) (c : ascii) (re : list piece)
    (text : string) (g : groups) (r : groups * string) :
  dir ≠ dir_Y →
  re_match (Dir dir :: Lit c :: re) text g = Some r →
  separator_shape c text.
Proof.
  intros Hdir Hm. cbn [re_match] in Hm.
  apply first_match_Some in Hm as (alt & Halt & Hm).
  destruct (take_classes alt text) as [[txt rest]|] eqn:Htake; [|done].
  assert (Hrest : ∃ rest', rest = String c rest').
  { destruct rest as [|c' rest']; [done|].
    destruct (Ascii.eqb_spec c c') as [<- | _]; [by eexists|done]. }
  destruct Hrest as [rest' ->].
  destruct (alternatives_short dir alt Hdir Halt) as [[p ->] | (p & q & -> & Hq)].
  - cbn [take_classes] in Htake. destruct text as [|x t]; [done|].
    destruct (p x); [|done]. injection Htake as _ ->.
    exists x, c, rest'. split; [done|by left].
  - cbn [take_classes] in Htake. destruct text as [|x [|y t]]; [done| |].
    + by destruct (p x).
    + destruct (p x); [|done]. destruct (q y) eqn:Hy; [|done].
      injection Htake as _ ->. exists x, y, (String c rest'). split; [done|].
      right. split; [by apply Hq|by eexists].
Qed.

Lemma re_match_year_shape (re : list piece) (text : string) (g : groups)
    (r : groups * string) :
  re_match (Dir dir_Y :: re) text g = Some r → year_shape text.
Proof.
  intros Hm. cbn [re_match alternatives first_match] in Hm.
  destruct (take_classes _ text) as [[txt rest]|] eqn:Htake; [|done].
  cbn [take_classes] in Htake.
  destruct text as [|x [|y [|z [|w t]]]]; try done.
  - by destruct (digit x).
  - by destruct (digit x), (digit y).
  - by destruct (digit x), (digit y), (digit z).
  - destruct (digit x); [|done]. destruct (digit y) eqn:Hy; [|done].
    destruct (digit z) eqn:Hz; [|done]. by exists x, y, z, w, t.
Qed.

(** A format only parses a text of its shape. *)
Lemma strptime_shape (text format : string) (dt : datetime) :
  format ∈ date_formats →
  strptime text format = Ok dt →
  format_shape format text.
Proof.
  intros Hf Hok. unfold date_formats in Hf. rewrite !elem_of_cons, elem_of_nil in Hf.
  unfold strptime in Hok.
  destruct Hf as [-> | [-> | [-> | [-> | []]]]];
    (destruct (pattern _) as [re|] eqn:Hp; [|done]);
    vm_compute in Hp; injection Hp as <-;
    (destruct (re_match _ text _) as [r|] eqn:Hm; [|done]).
  - by eapply re_match_separator_shape in Hm.
  - by eapply re_match_year_shape in Hm.
  - by eapply re_match_separator_shape in Hm.
  - by eapply re_match_separator_shape in Hm.
Qed.

Lemma separator_shapes_differ (c1 c2 : ascii) (text : string) :
  c1 ≠ c2 → digit c1 = false → digit c2 = false →
  separator_shape c1 text → separator_shape c2 text → False.
Proof.
  intros Hne H1 H2 (x & y & rest & -> & Hs1) (x' & y' & rest' & Heq & Hs2).
  injection Heq as <- <- <-.
  destruct Hs1 as [-> | [Hy [r1 ->]]], Hs2 as [Hy2 | [Hy2 [r2 Hr2]]]; try congruence.
Qed.

Lemma year_separator_shapes_differ (c : ascii) (text : string) :
  digit c = false → year_shape text → separator_shape c text → False.
Proof.
  intros Hc (x & y & z & w & rest & -> & Hy & Hz) (x' & y' & rest' & Heq & Hs).
  injection Heq as <- <- <-.
  destruct Hs as [-> | [_ [r [= -> _]]]]; congruence.
Qed.

(** Two of the four formats never ask the same shape. *)
Lemma format_shapes_differ (f1 f2 text : string) :
  f1 ∈ date_formats → f2 ∈ date_formats → f1 ≠ f2 →
  format_shape f1 text → format_shape f2 text → False.
Proof.
  intros Hf1 Hf2 Hne. unfold date_formats in *.
  rewrite !elem_of_cons, elem_of_nil in Hf1, Hf2.
  destruct Hf1 as [-> | [-> | [-> | [-> | []]]]];
    destruct Hf2 as [-> | [-> | [-> | [-> | []]]]]; try done;
    cbn [format_shape String.eqb Ascii.eqb Bool.eqb]; intros S1 S2;
    first [ by eapply (separator_shapes_differ _ _ text); [| | |exact S1|exact S2]
          | by eapply (year_separator_shapes_differ _ text); [|exact S1|exact S2]
          | by eapply (year_separator_shapes_differ _ text); [|exact S2|exact S1] ].
Qed.

(** X1: a text that [strptime] reads with one of the four date formats is
    rejected, with [ValueError], by each of the other three: no text has
    two readings, so the order in which [calculate_days_remaining] tries
    the formats never decides the date. *)
Theorem date_formats_exclusive (text f1 f2 : string) (dt : datetime) :
  f1 ∈ date_formats → f2 ∈ date_formats → f1 ≠ f2 →
  strptime text f1 = Ok dt →
  strptime text f2 = Raise ValueError.
Proof.
  intros Hf1 Hf2 Hne Hok.
  destruct (strptime_cases text f2) as [H | (y & m & d & H)]; [done|exfalso].
  eapply (format_shapes_differ f1 f2 text); try done; by eapply strptime_shape.
Qed.

Lemma strptime_Ok (text format : string) (dt : datetime) :
  strptime text format = Ok dt →
  date_fields_ok (year dt) (month dt) (day dt) = true
  ∧ dt = mk_datetime (year dt) (month dt) (day dt) 0 0 0 0.
Proof.
  unfold strptime. destruct (pattern format); [|done].
  destruct (re_match _ _ _) as [[found rest]|]; [|done].
  destruct (negb _); [done|].
  destruct (date_fields_ok _ _ _) eqn:Hok; [|done]. by intros [= <-].
Qed.

Lemma strptime_not_Ok (text format : string) :
  (∀ dt, strptime text format ≠ Ok dt) → strptime text format = Raise ValueError.
Proof.
  intros H. destruct (strptime_cases text format) as [? | (y & m & d & Hok)]; [done|].
  by destruct (H _ Hok).
Qed.

(** The date read from a text is that of whichever format parses it. *)
Lemma parse_date_by_format (text format : string) (dt : datetime) :
  format ∈ date_formats → strptime text format = Ok dt → parse_date text = Some dt.
Proof.
  intros Hf Hok.
  assert (Hothers : ∀ f, f ∈ date_formats → f ≠ format → strptime text f = Raise ValueError).
  { intros f Hf' Hne.
    destruct (strptime_cases text f) as [H | (y & m & d & H)]; [done|exfalso].
    eapply (format_shapes_differ format f text); try done; by eapply strptime_shape. }
  unfold parse_date, date_formats in *. rewrite !elem_of_cons, elem_of_nil in Hf.
  destruct Hf as [-> | [-> | [-> | [-> | []]]]]; cbn [first_match];
    repeat first [ rewrite Hok | rewrite Hothers by (first [compute_done | done]) ]; done.
Qed.

Lemma parse_date_None (text : string) :
  parse_date text = None
  ↔ ∀ format, format ∈ date_formats → strptime text format = Raise ValueError.
Proof.
  split.
  - intros Hnone format Hf. apply strptime_not_Ok. intros dt Hok.
    rewrite (parse_date_by_format text format dt Hf Hok) in Hnone. done.
  - intros Hall. unfold parse_date, date_formats in *. cbn [first_match].
    rewrite !Hall by compute_done. done.
Qed.

(** X2: for a text that is not empty, [calculate_days_remaining] gives [None]
    exactly when [strptime] rejects the text under each of the four
    formats.  When a format reads it, the fields are those of a real
    calendar date and the result is the ordinal of that date less the
    ordinal of today, less one more unless now is midnight sharp. *)
Theorem calculate_days_remaining_by_format (now : datetime) (text : string) :
  time_fields_ok now = true →
  (calculate_days_remaining now (ArgStr text) = Ok None
   ↔ ∀ format, format ∈ date_formats → strptime text format = Raise ValueError)
  ∧ (∀ format dt,
       format ∈ date_formats → strptime text format = Ok dt →
       date_fields_ok (year dt) (month dt) (day dt) = true
       ∧ calculate_days_remaining now (ArgStr text)
         = Ok (Some (toordinal dt - toordinal now - (if at_midnight now then 0 else 1)))).
Proof.
  intros Hnow. rewrite calculate_days_remaining_parse. split.
  - rewrite <- parse_date_None. destruct (parse_date text); split; intros; done.
  - intros format dt Hf Hok. destruct (strptime_Ok _ _ _ Hok) as [Hvalid Hdt].
    split; [done|]. rewrite (parse_date_by_format text format dt Hf Hok).
    cbn [fmap option_fmap option_map]. rewrite Hdt at 1.
    rewrite sub_days_from_midnight by done. reflexivity.
Qed.

Lemma written_texts (yt mt dt suffix : string) :
  written yt mt dt "%m/%d/%Y" suffix = mt ++ String "/" (dt ++ String "/" (yt ++ suffix))
  ∧ written yt mt dt "%Y-%m-%d" suffix = yt ++ String "-" (mt ++ String "-" (dt ++ suffix))
  ∧ written yt mt dt "%d.%m.%Y" suffix = dt ++ String "." (mt ++ String "." (yt ++ suffix))
  ∧ written yt mt dt "%m-%d-%Y" suffix = mt ++ String "-" (dt ++ String "-" (yt ++ suffix)).
Proof. repeat split; reflexivity. Qed.

Lemma strftime_written (y m d : Z) (format suffix : string) :
  format ∈ date_formats →
  strftime y m d format ++ suffix = written (pad4 y) (pad2 m) (pad2 d) format suffix.
Proof.
  intros Hf. unfold date_formats in Hf. rewrite !elem_of_cons, elem_of_nil in Hf.
  destruct Hf as [-> | [-> | [-> | [-> | []]]]]; reflexivity.
Qed.

Lemma short_text_shape (c : ascii) (t rest : string) :
  short_text t → separator_shape c (t ++ String c rest).
Proof.
  intros [[x ->] | (x & y & -> & Hy)].
  - exists x, c, rest. split; [reflexivity|by left].
  - exists x, y, (String c rest). split; [reflexivity|]. right. split; [done|by eexists].
Qed.

Lemma pad4_year_shape (y : Z) (rest : string) :
  0 <= y <= 9999 → year_shape (pad4 y ++ rest).
Proof.
  intros Hy. rewrite pad4_app. do 5 eexists. split; [reflexivity|].
  split; apply digit_digit_char; Z.div_mod_to_equations; lia.
Qed.

(** What the groups of a format read from a written date. *)
Lemma re_match_written (y m d : Z) (mt dt format suffix : string) (re : list piece) :
  0 <= y <= 9999 → reads_month mt m → reads_day dt d suffix →
  format ∈ date_formats → pattern format = Some re →
  re_match re (written (pad4 y) mt dt format suffix) (mk_groups None None None)
  = Some (mk_groups (Some dt) (Some mt) (Some (pad4 y)), suffix).
Proof.
  intros Hy (_ & _ & Hm) (_ & _ & Hd & Hdend) Hf Hp.
  destruct (written_texts (pad4 y) mt dt suffix) as (T1 & T2 & T3 & T4).
  unfold date_formats in Hf. rewrite !elem_of_cons, elem_of_nil in Hf.
  destruct Hf as [-> | [-> | [-> | [-> | []]]]]; vm_compute in Hp; injection Hp as <-.
  - rewrite T1, Hm, Hd by auto using sep_slash. by rewrite re_match_year.
  - rewrite T2, re_match_year, re_match_lit, Hm by auto using sep_dash. by rewrite Hdend.
  - rewrite T3, Hd, Hm by auto using sep_dot. by rewrite re_match_year.
  - rewrite T4, Hm, Hd by auto using sep_dash. by rewrite re_match_year.
Qed.

Lemma strptime_written (y m d : Z) (mt dt format suffix : string) :
  0 <= y <= 9999 → reads_month mt m → reads_day dt d suffix →
  format ∈ date_formats →
  strptime (written (pad4 y) mt dt format suffix) format
  = if String.eqb suffix "" && date_fields_ok y m d
    then Ok (mk_datetime y m d 0 0 0 0) else Raise ValueError.
Proof.
  intros Hy Hm Hd Hf. unfold strptime.
  destruct (pattern format) as [re|] eqn:Hp.
  2:{ unfold date_formats in Hf. rewrite !elem_of_cons, elem_of_nil in Hf.
      destruct Hf as [-> | [-> | [-> | [-> | []]]]]; vm_compute in Hp; done. }
  rewrite (re_match_written y m d mt dt format suffix re) by done.
  destruct Hm as (_ & Hmi & _), Hd as (_ & Hdi & _).
  cbn [from_option group_Y group_m group_d]. rewrite int_pad4, Hmi, Hdi by done.
  destruct (String.eqb suffix ""); [|done]. cbn [negb andb].
  by destruct (date_fields_ok y m d).
Qed.

Lemma written_shape (y : Z) (mt dt format suffix : string) :
  0 <= y <= 9999 → short_text mt → short_text dt →
  format ∈ date_formats →
  format_shape format (written (pad4 y) mt dt format suffix).
Proof.
  intros Hy Hm Hd Hf.
  destruct (written_texts (pad4 y) mt dt suffix) as (T1 & T2 & T3 & T4).
  unfold date_formats in Hf. rewrite !elem_of_cons, elem_of_nil in Hf.
  destruct Hf as [-> | [-> | [-> | [-> | []]]]];
    cbn [format_shape String.eqb Ascii.eqb Bool.eqb].
  - rewrite T1. by apply short_text_shape.
  - rewrite T2. by apply pad4_year_shape.
  - rewrite T3. by apply short_text_shape.
  - rewrite T4. by apply short_text_shape.
Qed.

(** A text of the shape of one format is rejected by the other three. *)
Lemma other_formats_raise (text format other : string) :
  format ∈ date_formats → other ∈ date_formats → other ≠ format →
  format_shape format text →
  strptime text other = Raise ValueError.
Proof.
  intros Hf Ho Hne Hshape. apply strptime_not_Ok. intros dt Hok.
  eapply (format_shapes_differ other format text); try done.
  by eapply strptime_shape.
Qed.

(** What the dashboard makes of a written date. *)
Lemma parse_date_written (y m d : Z) (mt dt format suffix : string) :
  0 <= y <= 9999 → reads_month mt m → reads_day dt d suffix →
  format ∈ date_formats →
  parse_date (written (pad4 y) mt dt format suffix)
  = if String.eqb suffix "" && date_fields_ok y m d
    then Some (mk_datetime y m d 0 0 0 0) else None.
Proof.
  intros Hy Hm Hd Hf.
  pose proof (strptime_written y m d mt dt format suffix Hy Hm Hd Hf) as Hown.
  destruct (String.eqb suffix "" && date_fields_ok y m d).
  - by eapply parse_date_by_format.
  - apply parse_date_None. intros other Ho.
    destruct (decide (other = format)) as [-> | Hne]; [done|].
    apply (other_formats_raise _ format other Hf Ho Hne).
    apply written_shape; try done; [by destruct Hm|by destruct Hd].
Qed.

Ltac eval_chars :=
  rewrite ?pad2_app; unfold pad2;
  repeat match goal with
         | |- context [digit_char ?k] =>
             let v := eval vm_compute in (digit_char k) in change (digit_char k) with v
         end.

Ltac eval_classes :=
  repeat (cbn;
          match goal with
          | |- context [range ?a ?b ?c] =>
              let v := eval vm_compute in (range a b c) in change (range a b c) with v
          | |- context [digit ?c] =>
              let v := eval vm_compute in (digit c) in change (digit c) with v
          end).

Ltac run_match :=
  eval_chars; eval_classes; cbn;
  repeat match goal with
         | |- context [re_match ?re ?s ?g] => destruct (re_match re s g)
         end;
  reflexivity.

(** A padded day at the end of the format, whatever follows it. *)
Lemma re_match_day_rest (d : Z) (rest : string) (g : groups) :
  1 <= d <= 31 →
  re_match [Dir dir_d] (pad2 d ++ rest) g = Some (set_group dir_d (pad2 d) g, rest).
Proof.
  revert d. apply Z_range_ind. vm_compute seqZ. repeat constructor.
  all: run_match.
Qed.

(** A month or a day of one digit. *)
Lemma re_match_month_digit (m : Z) (c : ascii) (re : list piece) (s : string) (g : groups) :
  1 <= m <= 9 → is_separator c →
  re_match (Dir dir_m :: Lit c :: re) (String (digit_char m) (String c s)) g
  = re_match re s (set_group dir_m (String (digit_char m) "") g).
Proof.
  intros Hm Hc. revert m Hm. apply Z_range_ind.
  destruct Hc as [-> | [-> | ->]]; vm_compute seqZ; repeat constructor.
  all: run_match.
Qed.

Lemma re_match_day_digit (d : Z) (c : ascii) (re : list piece) (s : string) (g : groups) :
  1 <= d <= 9 → is_separator c →
  re_match (Dir dir_d :: Lit c :: re) (String (digit_char d) (String c s)) g
  = re_match re s (set_group dir_d (String (digit_char d) "") g).
Proof.
  intros Hd Hc. revert d Hd. apply Z_range_ind.
  destruct Hc as [-> | [-> | ->]]; vm_compute seqZ; repeat constructor.
  all: run_match.
Qed.

Lemma re_match_day_digit_end (d : Z) (g : groups) :
  1 <= d <= 9 →
  re_match [Dir dir_d] (String (digit_char d) "") g
  = Some (set_group dir_d (String (digit_char d) "") g, "").
Proof.
  revert d. apply Z_range_ind. vm_compute seqZ. repeat constructor.
  all: run_match.
Qed.

Lemma int_digit_char (n : Z) : 0 <= n <= 9 → int (String (digit_char n) "") = n.
Proof. intros Hn. unfold int. rewrite int_digits_digit_char by done. cbn. lia. Qed.

Lemma short_text_pad2 (n : Z) : 0 <= n <= 99 → short_text (pad2 n).
Proof.
  intros Hn. right. do 2 eexists. split; [reflexivity|].
  apply digit_digit_char. Z.div_mod_to_equations; lia.
Qed.

Lemma reads_month_pad2 (m : Z) : 1 <= m <= 12 → reads_month (pad2 m) m.
Proof.
  intros Hm. split; [apply short_text_pad2; lia|]. split; [apply int_pad2; lia|].
  intros c re s g Hc. by apply re_match_month.
Qed.

Lemma reads_day_pad2 (d : Z) (suffix : string) : 1 <= d <= 31 → reads_day (pad2 d) d suffix.
Proof.
  intros Hd. split; [apply short_text_pad2; lia|]. split; [apply int_pad2; lia|].
  split; [|intros g; by apply re_match_day_rest].
  intros c re s g Hc. by apply re_match_day.
Qed.

Lemma reads_month_unpadded (m : Z) : 1 <= m <= 12 → reads_month (unpadded m) m.
Proof.
  intros Hm. unfold unpadded. destruct (Z.ltb_spec m 10); [|by apply reads_month_pad2].
  split; [left; by eexists|]. split; [apply int_digit_char; lia|].
  intros c re s g Hc. apply re_match_month_digit; [lia|done].
Qed.

Lemma reads_day_unpadded (d : Z) : 1 <= d <= 31 → reads_day (unpadded d) d "".
Proof.
  intros Hd. unfold unpadded. destruct (Z.ltb_spec d 10); [|by apply reads_day_pad2].
  split; [left; by eexists|]. split; [apply int_digit_char; lia|].
  split; [|intros g; apply re_match_day_digit_end; lia].
  intros c re s g Hc. apply re_match_day_digit; [lia|done].
Qed.

Lemma strftime_is_written (y m d : Z) (format : string) :
  format ∈ date_formats →
  strftime y m d format = written (pad4 y) (pad2 m) (pad2 d) format "".
Proof.
  intros Hf. unfold date_formats in Hf. rewrite !elem_of_cons, elem_of_nil in Hf.
  destruct Hf as [-> | [-> | [-> | [-> | []]]]]; reflexivity.
Qed.

Lemma calculate_days_remaining_unparsed (now : datetime) (text : string) :
  parse_date text = None → calculate_days_remaining now (ArgStr text) = Ok None.
Proof. intros H. by rewrite calculate_days_remaining_parse, H. Qed.

(** X3: a date that is followed by anything else, a time of day or a single
    blank, is not read: the result is [None], so the alert is No Data. *)
Theorem text_after_date_is_absent (now : datetime) (y m d : Z) (format suffix : string) :
  0 <= y <= 9999 → 1 <= m <= 12 → 1 <= d <= 31 →
  format ∈ date_formats →
  suffix ≠ "" →
  calculate_days_remaining now (ArgStr (strftime y m d format ++ suffix)) = Ok None.
Proof.
  intros Hy Hm Hd Hf Hs. apply calculate_days_remaining_unparsed.
  rewrite strftime_written by done.
  rewrite (parse_date_written y m d) by auto using reads_month_pad2, reads_day_pad2.
  by destruct (String.eqb_spec suffix "").
Qed.

(** X5: a text in the layout of one of the formats whose day does not exist
    in its month, 30 February for one, gives [None]: the [ValueError] of
    the [datetime] constructor is caught like that of a text that does
    not match. *)
Theorem impossible_date_is_absent (now : datetime) (y m d : Z) (format : string) :
  0 <= y <= 9999 → 1 <= m <= 12 → 1 <= d <= 31 →
  format ∈ date_formats →
  date_fields_ok y m d = false →
  calculate_days_remaining now (ArgStr (strftime y m d format)) = Ok None.
Proof.
  intros Hy Hm Hd Hf Hbad. apply calculate_days_remaining_unparsed.
  rewrite strftime_is_written by done.
  rewrite (parse_date_written y m d) by auto using reads_month_pad2, reads_day_pad2.
  by rewrite Hbad.
Qed.

(** X6: the month and the day may each be written with or without the
    leading zero: every such spelling is read as the same date and gives
    the same number of days as the padded one. *)
Theorem zero_padding_is_optional (now : datetime) (y m d : Z) (mt dt format : string) :
  date_fields_ok y m d = true →
  format ∈ date_formats →
  mt ∈ [pad2 m; unpadded m] → dt ∈ [pad2 d; unpadded d] →
  calculate_days_remaining now (ArgStr (written (pad4 y) mt dt format ""))
  = calculate_days_remaining now (ArgStr (strftime y m d format))
  ∧ parse_date (written (pad4 y) mt dt format "") = Some (mk_datetime y m d 0 0 0 0).
Proof.
  intros Hok Hf Hmt Hdt.
  destruct (date_fields_ok_ranges _ _ _ Hok) as (Hy & Hm & Hd).
  assert (Hrm : reads_month mt m).
  { rewrite !elem_of_cons, elem_of_nil in Hmt.
    destruct Hmt as [-> | [-> | []]]; auto using reads_month_pad2, reads_month_unpadded. }
  assert (Hrd : reads_day dt d "").
  { rewrite !elem_of_cons, elem_of_nil in Hdt.
    destruct Hdt as [-> | [-> | []]]; auto using reads_day_pad2, reads_day_unpadded. }
  assert (Hparse : parse_date (written (pad4 y) mt dt format "")
                   = Some (mk_datetime y m d 0 0 0 0)).
  { rewrite (parse_date_written y m d) by (done || lia). by rewrite Hok. }
  split; [|done].
  rewrite !calculate_days_remaining_parse, Hparse, parse_date_strftime by done. done.
Qed.

(** Any two digits before a separator: the month group reads 01 to 12 and
    nothing else, the day group 01 to 31. *)
Lemma re_match_month_two_digits (a : Z) (c : ascii) (re : list piece) (s : string) (g : groups) :
  0 <= a <= 99 → is_separator c →
  re_match (Dir dir_m :: Lit c :: re) (pad2 a ++ String c s) g
  = if (1 <=? a) && (a <=? 12) then re_match re s (set_group dir_m (pad2 a) g) else None.
Proof.
  intros Ha Hc. revert a Ha. apply Z_range_ind.
  destruct Hc as [-> | [-> | ->]]; vm_compute seqZ; repeat constructor.
  all: run_match.
Qed.

Lemma re_match_day_two_digits (a : Z) (c : ascii) (re : list piece) (s : string) (g : groups) :
  0 <= a <= 99 → is_separator c →
  re_match (Dir dir_d :: Lit c :: re) (pad2 a ++ String c s) g
  = if (1 <=? a) && (a <=? 31) then re_match re s (set_group dir_d (pad2 a) g) else None.
Proof.
  intros Ha Hc. revert a Ha. apply Z_range_ind.
  destruct Hc as [-> | [-> | ->]]; vm_compute seqZ; repeat constructor.
  all: run_match.
Qed.

(** Two characters are too few for the year group. *)
Lemma re_match_year_two_digits (n : Z) (re : list piece) (g : groups) :
  re_match (Dir dir_Y :: re) (pad2 n ++ "") g = None.
Proof.
  rewrite pad2_app. cbn -[digit].
  by destruct (digit (digit_char (n / 10))), (digit (digit_char (n mod 10))).
Qed.

Lemma re_match_short_year (dir1 dir2 : directive) (c : ascii) (a b n : Z) (g : groups) :
  dir1 ≠ dir_Y → dir2 ≠ dir_Y →
  0 <= a <= 99 → 0 <= b <= 99 → is_separator c →
  re_match [Dir dir1; Lit c; Dir dir2; Lit c; Dir dir_Y]
           (pad2 a ++ String c (pad2 b ++ String c (pad2 n ++ ""))) g = None.
Proof.
  intros H1 H2 Ha Hb Hc.
  assert (Hstep : ∀ dir x re s g',
    dir ≠ dir_Y → 0 <= x <= 99 →
    re_match (Dir dir :: Lit c :: re) (pad2 x ++ String c s) g' = None
    ∨ ∃ g'', re_match (Dir dir :: Lit c :: re) (pad2 x ++ String c s) g' = re_match re s g'').
  { intros dir x re s g' Hdir Hx. destruct dir; [| |done].
    - rewrite re_match_day_two_digits by done. destruct (_ && _); [right; by eexists|by left].
    - rewrite re_match_month_two_digits by done. destruct (_ && _); [right; by eexists|by left]. }
  destruct (Hstep dir1 a [Dir dir2; Lit c; Dir dir_Y]
              (pad2 b ++ String c (pad2 n ++ "")) g H1 Ha) as [-> | [g1 ->]]; [done|].
  destruct (Hstep dir2 b [Dir dir_Y] (pad2 n ++ "") g1 H2 Hb) as [-> | [g2 ->]]; [done|].
  apply re_match_year_two_digits.
Qed.

(** X4: a date written with a two-digit year is read under none of the four
    formats: the result is [None]. *)
Theorem two_digit_year_is_absent (now : datetime) (yy m d : Z) (format : string) :
  0 <= yy <= 99 → 0 <= m <= 99 → 0 <= d <= 99 →
  format ∈ date_formats →
  calculate_days_remaining now (ArgStr (written (pad2 yy) (pad2 m) (pad2 d) format "")) = Ok None.
Proof.
  intros Hy Hm Hd Hf. apply calculate_days_remaining_unparsed, parse_date_None.
  destruct (written_texts (pad2 yy) (pad2 m) (pad2 d) "") as (T1 & T2 & T3 & T4).
  assert (Hshape : ∀ c a rest, 0 <= a <= 99 → separator_shape c (pad2 a ++ String c rest)).
  { intros c a rest Ha. by apply short_text_shape, short_text_pad2. }
  assert (Hall : ∀ (own text : string) re,
    own ∈ date_formats → pattern own = Some re →
    format_shape own text →
    re_match re text (mk_groups None None None) = None →
    ∀ other, other ∈ date_formats → strptime text other = Raise ValueError).
  { intros own text re Hown Hp Hsh Hno other Ho.
    destruct (decide (other = own)) as [-> | Hne].
    - by eapply strptime_no_match.
    - by apply (other_formats_raise text own other). }
  unfold date_formats in Hf. rewrite !elem_of_cons, elem_of_nil in Hf.
  destruct Hf as [-> | [-> | [-> | [-> | []]]]].
  - rewrite T1. eapply (Hall "%m/%d/%Y"); [compute_done|reflexivity| |].
    + by apply Hshape.
    + apply re_match_short_year; auto using sep_slash.
  - rewrite T2. eapply (Hall "%m-%d-%Y"); [compute_done|reflexivity| |].
    + by apply Hshape.
    + apply re_match_short_year; auto using sep_dash.
  - rewrite T3. eapply (Hall "%d.%m.%Y"); [compute_done|reflexivity| |].
    + by apply Hshape.
    + apply re_match_short_year; auto using sep_dot.
  - rewrite T4. eapply (Hall "%m-%d-%Y"); [compute_done|reflexivity| |].
    + by apply Hshape.
    + apply re_match_short_year; auto using sep_dash.
Qed.

End Formats.

(** ** More on get_alert_status *)

(** X7: the alert never gets milder as the days run out.  With OVERDUE the
    most and OK the least severe, a smaller number of days remaining
    gives an alert that is at least as severe. *)
Theorem get_alert_status_monotone (d1 d2 : Z) :
  d1 <= d2 →
  severity (get_alert_status (Some d2)) <= severity (get_alert_status (Some d1)).
Proof.
  intros Hle. unfold get_alert_status.
  destruct (Z.ltb_spec d1 0), (Z.ltb_spec d2 0); try lia; cbn; try lia;
    destruct (Z.leb_spec d1 30), (Z.leb_spec d2 30); try lia; cbn; try lia;
    destruct (Z.leb_spec d1 60), (Z.leb_spec d2 60); try lia; cbn; lia.
Qed.

(** X8: the alert by calendar days, at any time of day but midnight sharp.
    A date [N] calendar days after today is OVERDUE for [N <= 0],
    CRITICAL for 1 to 31, WARNING for 32 to 61 and OK from 62 on: the
    thresholds 30 and 60 of [get_alert_status] are reached one calendar
    day later, because the days are counted from now and rounded down. *)
Theorem alert_by_calendar_days (now : datetime) (y m d N : Z) (format : string) :
  time_fields_ok now = true →
  at_midnight now = false →
  date_fields_ok y m d = true →
  ymd2ord y m d = toordinal now + N →
  format ∈ date_formats →
  ∃ days,
    calculate_days_remaining now (ArgStr (strftime y m d format)) = Ok (Some days)
    ∧ (N <= 0 ↔ get_alert_status (Some days) = "OVERDUE")
    ∧ (1 <= N <= 31 ↔ get_alert_status (Some days) = "CRITICAL")
    ∧ (32 <= N <= 61 ↔ get_alert_status (Some days) = "WARNING")
    ∧ (62 <= N ↔ get_alert_status (Some days) = "OK").
Proof.
  intros Hnow Hlate Hok HN Hf. exists (N - 1). split.
  - rewrite calculate_days_remaining_parse, parse_date_strftime by done.
    cbn [fmap option_fmap option_map]. rewrite sub_days_from_midnight by done.
    rewrite Hlate. do 2 f_equal. lia.
  - unfold get_alert_status.
    destruct (Z.ltb_spec (N - 1) 0);
      [|destruct (Z.leb_spec (N - 1) 30); [|destruct (Z.leb_spec (N - 1) 60)]];
      repeat split; intros; first [lia | discriminate | reflexivity].
Qed.

(** ** More on the pipeline *)

(** X9: [clean_excel_data] raises exactly when the frame has rows and a
    single column whose label starts with Unnamed: once that column is
    dropped there is none left, and [df.columns[0]] raises [IndexError].
    It raises no other exception. *)
Theorem clean_excel_data_raises (df : DataFrame) :
  (clean_excel_data df = Raise IndexError
   ↔ rows df ≠ [] ∧ ∃ c, columns df = [c] ∧ startswith c "Unnamed" = true)
  ∧ (∀ e, clean_excel_data df = Raise e → e = IndexError).
Proof.
  destruct (Frame.empty df) eqn:Hempty.
  - rewrite clean_empty by done. split; [|done]. split; [done|].
    intros (Hrows & c & Hc & _). unfold Frame.empty in Hempty. rewrite Hc in Hempty.
    by destruct (rows df).
  - rewrite clean_nonempty by done. unfold shifted, Frame.empty in *.
    destruct (columns df) as [|c0 cs] eqn:Hc; [done|].
    assert (Hrows : rows df ≠ []) by (by destruct (rows df)).
    destruct (startswith c0 "Unnamed") eqn:Hun.
    + cbn [Frame.iloc_cols_from columns]. rewrite Hc. cbn [drop].
      destruct cs as [|c1 cs].
      * split; [|by intros e [= <-]]. split; [|done]. intros _. split; [done|]. by exists c0.
      * split; [|done]. split; [done|]. by intros (_ & c & [= _ ?] & _).
    + rewrite Hc. split; [|done]. split; [done|].
      intros (_ & c & [= <- _] & Hc'). congruence.
Qed.

(** X10: in a cleaned frame that is not empty a column whose label contains
    VIN is the last column, and no column before it contains VIN: what
    stood to the right of the first VIN column is cut. *)
Theorem cleaned_frame_has_vin_last (df df' : DataFrame) (pre post : list string) (c : string) :
  clean_excel_data df = Ok df' →
  Frame.empty df' = false →
  columns df' = (pre ++ c :: post)%list →
  is_vin_column (upper c) = true →
  post = [] ∧ Forall (λ x, is_vin_column (upper x) = false) pre.
Proof.
  intros Hclean Hne Hcols Hvin. split; [by eapply cleaned_vin_last|].
  apply Forall_forall. intros x Hx.
  destruct (is_vin_column (upper x)) eqn:Hxv; [exfalso|done].
  apply list_elem_of_split in Hx as (p1 & p2 & ->).
  rewrite <- app_assoc in Hcols. cbn in Hcols.
  pose proof (cleaned_vin_last df df' p1 (p2 ++ c :: post) x Hclean Hne Hcols Hxv) as H.
  by destruct p2.
Qed.

Lemma matches_nonempty (df : DataFrame) (c key : string) :
  column_holds df c key ↔ matches df c key ≠ [].
Proof.
  unfold column_holds, matches. split.
  - intros (r & Hr & Hk) Hnil.
    assert (Hin : In r (List.filter (λ r, String.eqb (Frame.astype_str (Frame.at_col df c r)) key)
                          (rows df))).
    { apply filter_In. split; [by apply list_elem_of_In|]. by apply String.eqb_eq. }
    rewrite Hnil in Hin. done.
  - intros Hne. destruct (List.filter _ _) as [|r rs] eqn:Hf; [done|].
    assert (Hin : In r (r :: rs)) by (by left). rewrite <- Hf in Hin.
    apply filter_In in Hin as [Hin Hk]. exists r. split; [by apply list_elem_of_In|].
    by apply String.eqb_eq.
Qed.

Lemma search_columns_is_Some (candidate : string → bool) (key : string) (df : DataFrame) :
  is_Some (search_columns candidate key df (columns df))
  ↔ ∃ c, c ∈ columns df ∧ candidate (upper c) = true ∧ column_holds df c key.
Proof.
  split.
  - intros [l Hl]. apply search_columns_Some in Hl.
    destruct Hl as (pre & c & post & r & rs & Hcols & Hc & Hm & _).
    exists c. split; [rewrite Hcols; apply elem_of_app; right; by left|]. split; [done|].
    apply matches_nonempty. by rewrite Hm.
  - intros (c & Hin & Hc & Hholds).
    destruct (search_columns candidate key df (columns df)) eqn:Hs; [by eexists|].
    exfalso. rewrite search_columns_None, Forall_forall in Hs.
    apply matches_nonempty in Hholds. by apply Hholds, Hs.
Qed.

(** X11: the VIN is only a fallback.  When some TRUCK or ID column holds the
    name of the vehicle, the match does not depend on the VIN; and with
    an empty VIN there is a match exactly when some such column holds the
    name. *)
Theorem vin_is_only_a_fallback (df : DataFrame) (vehicle_name : string) :
  (∀ c, c ∈ columns df → is_id_column (upper c) = true →
        column_holds df c vehicle_name →
        ∀ vin vin', find_excel_match vehicle_name vin df
                    = find_excel_match vehicle_name vin' df)
  ∧ (is_Some (find_excel_match vehicle_name "" df)
     ↔ ∃ c, c ∈ columns df ∧ is_id_column (upper c) = true
            ∧ column_holds df c vehicle_name).
Proof.
  split.
  - intros c Hin Hc Hholds vin vin'.
    assert (Hsome : is_Some (search_columns is_id_column vehicle_name df (columns df))).
    { apply search_columns_is_Some. by exists c. }
    destruct Hsome as [l Hl]. unfold find_excel_match. by rewrite Hl.
  - rewrite <- search_columns_is_Some. unfold find_excel_match.
    by destruct (search_columns is_id_column _ _ _).
Qed.


Lemma extract_excel_data_fields (df : DataFrame) (label : nat) (m : gmap string string) :
  extract_excel_data label df = Ok m →
  ∃ row, rows df !! label = Some row
         ∧ ∀ role, role ∈ roles → m !! role = Some (field_of df row role).
Proof.
  unfold extract_excel_data, Frame.iloc. destruct (rows df !! label) as [row|]; [|done].
  intros [= <-]. exists row. split; [done|]. intros role Hrole.
  rewrite extract_fold_lookup. unfold field_of. destruct (last _); [done|].
  unfold roles, role_tests in Hrole. cbn in Hrole.
  rewrite !elem_of_cons, elem_of_nil in Hrole.
  destruct Hrole as [->|[->|[->|[->|[]]]]]; reflexivity.
Qed.

(** Every record the loop appends was filled from the sheet. *)
Lemma combine_loop_filled (clock : nat → datetime) (df : DataFrame)
    (samsara_data : list Vehicle) (calls : nat) (acc out : list CombinedInfo) :
  combine_loop clock df samsara_data calls acc = Ok out →
  ∃ new, out = (acc ++ new)%list ∧ Forall (filled_from clock df) new.
Proof.
  revert calls acc. induction samsara_data as [|v vs IH]; intros calls acc Hloop.
  - injection Hloop as <-. exists []. by rewrite app_nil_r.
  - cbn [combine_loop] in Hloop.
    apply bind_Ok in Hloop as (obd_miles & Hobd & Hloop).
    apply bind_Ok in Hloop as (gps_miles & Hgps & Hloop).
    destruct (find_excel_match _ _ df) as [label|] eqn:Hfind; [|by eapply IH].
    apply bind_Ok in Hloop as (excel_data & Hex & Hloop).
    apply bind_Ok in Hloop as (annual_days & Ha & Hloop).
    apply bind_Ok in Hloop as (pm_days & Hp & Hloop).
    apply bind_Ok in Hloop as (pm_insp_days & Hi & Hloop).
    apply bind_Ok in Hloop as (obd_int & _ & Hloop).
    apply bind_Ok in Hloop as (gps_int & _ & Hloop).
    apply IH in Hloop as (new & -> & Hnew).
    eexists (_ :: new). split; [by rewrite <- app_assoc|].
    constructor; [|done].
    destruct (extract_excel_data_fields df label excel_data Hex) as (row & Hrow & Hfields).
    rewrite (Hfields "annual_date") in Ha by compute_done.
    rewrite (Hfields "pm_date") in Hp by compute_done.
    rewrite (Hfields "pm_insp_date") in Hi by compute_done.
    exists label, row, calls. cbn.
    rewrite !Hfields by compute_done. cbn. done.
Qed.

Lemma process_combined_data_filled (clock : nat → datetime)
    (samsara_data : list Vehicle) (df : DataFrame) (out : list CombinedInfo) :
  process_combined_data clock samsara_data df = Ok out →
  Forall (filled_from clock df) out.
Proof.
  unfold process_combined_data. destruct samsara_data as [|v vs]; [by intros [= <-]|].
  destruct (Frame.empty df); [by intros [= <-]|].
  intros H. by apply combine_loop_filled in H as (new & -> & Hnew).
Qed.

(** X14: when the sheet has no column for a role (the status, the annual
    date, the PM date, the PM inspection date), every record has the
    empty text for it, no number of days and the alert No Data. *)
Theorem missing_column_gives_no_data (clock : nat → datetime)
    (samsara_data : list Vehicle) (df : DataFrame) (out : list CombinedInfo) :
  process_combined_data clock samsara_data df = Ok out →
  (qualifying "status" (columns df) = [] → Forall (λ info, Status info = "") out)
  ∧ (qualifying "annual_date" (columns df) = [] →
     Forall (λ info, Annual_Date info = "" ∧ Annual_Days_Remaining info = None
                     ∧ Annual_Alert info = "No Data") out)
  ∧ (qualifying "pm_date" (columns df) = [] →
     Forall (λ info, PM_Date info = "" ∧ PM_Days_Remaining info = None
                     ∧ PM_Alert info = "No Data") out)
  ∧ (qualifying "pm_insp_date" (columns df) = [] →
     Forall (λ info, PM_Insp_Date info = "" ∧ PM_Insp_Days_Remaining info = None
                     ∧ PM_Insp_Alert info = "No Data") out).
Proof.
  intros Hout. apply process_combined_data_filled in Hout.
  repeat split; intros Hq; eapply Forall_impl; try exact Hout; cbn beta;
    intros info (label & row & k & _ & _ & Hs & Ha & Hp & Hi & Hda & Hdp & Hdi & Haa & Hap & Hai);
    unfold field_of in *; rewrite Hq in *; cbn [last] in *.
  - done.
  - rewrite Ha in Hda. injection Hda as Hd. by rewrite Haa, <- Hd.
  - rewrite Hp in Hdp. injection Hdp as Hd. by rewrite Hap, <- Hd.
  - rewrite Hi in Hdi. injection Hdi as Hd. by rewrite Hai, <- Hd.
Qed.

(** X15: in every record that [process_combined_data] returns, each alert is
    the one [get_alert_status] gives for the number of days of the
    record, and a number of days is missing exactly when the date text of
    the record cannot be read. *)
Theorem records_are_consistent (clock : nat → datetime)
    (samsara_data : list Vehicle) (df : DataFrame) (out : list CombinedInfo) :
  process_combined_data clock samsara_data df = Ok out →
  Forall (λ info,
    Annual_Alert info = get_alert_status (Annual_Days_Remaining info)
    ∧ PM_Alert info = get_alert_status (PM_Days_Remaining info)
    ∧ PM_Insp_Alert info = get_alert_status (PM_Insp_Days_Remaining info)
    ∧ (Annual_Days_Remaining info = None ↔ parse_date (Annual_Date info) = None)
    ∧ (PM_Days_Remaining info = None ↔ parse_date (PM_Date info) = None)
    ∧ (PM_Insp_Days_Remaining info = None ↔ parse_date (PM_Insp_Date info) = None)) out.
Proof.
  intros Hout. apply process_combined_data_filled in Hout.
  eapply Forall_impl; [exact Hout|]. cbn beta.
  intros info (label & row & k & _ & _ & _ & _ & _ & _ & Hda & Hdp & Hdi & Haa & Hap & Hai).
  rewrite calculate_days_remaining_parse in Hda, Hdp, Hdi.
  injection Hda as Hda. injection Hdp as Hdp. injection Hdi as Hdi.
  split; [done|]. split; [done|]. split; [done|].
  rewrite <- Hda, <- Hdp, <- Hdi.
  by rewrite !fmap_None.
Qed.

(** X13: on a frame whose index labels are the positions 0, 1, 2, ..., the
    label that [find_excel_match] returns is a position [iloc] accepts,
    and the row there is the row that matched: it holds the name in a
    TRUCK or ID column, or the VIN, which is not empty, in a VIN column.
    [extract_excel_data] returns for that label, with the fields of that
    row. *)
Theorem extract_reads_the_matched_row (df : DataFrame)
    (vehicle_name samsara_vin : string) (label : nat) :
  Frame.index df = seq 0 (length (rows df)) →
  find_excel_match vehicle_name samsara_vin df = Some label →
  ∃ row c,
    Frame.iloc df label = Ok row
    ∧ row_label row = label
    ∧ c ∈ columns df
    ∧ ((is_id_column (upper c) = true
        ∧ Frame.astype_str (Frame.at_col df c row) = vehicle_name)
       ∨ (is_vin_column (upper c) = true ∧ samsara_vin ≠ ""
          ∧ Frame.astype_str (Frame.at_col df c row) = samsara_vin))
    ∧ ∃ excel_data,
        extract_excel_data label df = Ok excel_data
        ∧ ∀ role, role ∈ roles → excel_data !! role = Some (field_of df row role).
Proof.
  intros Hindex Hfind.
  assert (Hhit : ∃ candidate key,
    first_hit candidate key df (columns df) label
    ∧ ((candidate = is_id_column ∧ key = vehicle_name)
       ∨ (candidate = is_vin_column ∧ key = samsara_vin ∧ samsara_vin ≠ ""))).
  { unfold find_excel_match in Hfind.
    destruct (search_columns is_id_column _ _ _) as [l|] eqn:H1.
    - injection Hfind as ->. apply search_columns_Some in H1.
      exists is_id_column, vehicle_name. split; [done|by left].
    - destruct (String.eqb_spec samsara_vin "") as [-> | Hne]; [done|].
      cbn [negb] in Hfind. apply search_columns_Some in Hfind.
      exists is_vin_column, samsara_vin. split; [done|by right]. }
  destruct Hhit as (candidate & key & (pre & c & post & r & rs & Hcols & Hc & Hm & -> & _) & Hwhich).
  assert (Hr : In r (matches df c key)) by (rewrite Hm; by left).
  unfold matches in Hr. apply filter_In in Hr as [Hr Hkey].
  apply String.eqb_eq in Hkey.
  apply list_elem_of_In, list_elem_of_lookup in Hr as [i Hi].
  assert (Hlabel : row_label r = i).
  { assert (Hidx : Frame.index df !! i = Some (row_label r)).
    { unfold Frame.index. by rewrite list_lookup_fmap, Hi. }
    rewrite Hindex in Hidx. apply lookup_seq in Hidx as [? _]. lia. }
  exists r, c. rewrite Hlabel. unfold Frame.iloc. rewrite Hi.
  split; [done|]. split; [done|]. split; [rewrite Hcols; apply elem_of_app; right; by left|].
  split.
  - destruct Hwhich as [[-> ->] | (-> & -> & Hne)]; [by left|by right].
  - unfold extract_excel_data, Frame.iloc. rewrite Hi. eexists. split; [reflexivity|].
    intros role Hrole.
    destruct (extract_excel_data_fields df i _ ltac:(unfold extract_excel_data, Frame.iloc; rewrite Hi; reflexivity))
      as (row' & Hrow' & Hf).
    rewrite Hi in Hrow'. injection Hrow' as <-. by apply Hf.
Qed.

(** X16: on a frame whose index labels are the positions, and for mileages
    in the range of floats, [process_combined_data] returns: one record
    for each vehicle that finds a row, in the order of the feed, each
    filled from the row that was found for it. *)
Theorem process_combined_data_on_fresh_index (clock : nat → datetime)
    (samsara_data : list Vehicle) (df : DataFrame) :
  Frame.index df = seq 0 (length (rows df)) →
  Forall (λ v,
    (∃ n, spec_miles (reading_value (default no_reading (obdOdometerMeters v))) = Ok n)
    ∧ (∃ n, spec_miles (reading_value (default no_reading (gpsDistanceMeters v))) = Ok n))
    samsara_data →
  ∃ out,
    process_combined_data clock samsara_data df = Ok out
    ∧ Forall2 record_of (List.filter (matched df) samsara_data) out
    ∧ Forall (filled_from clock df) out.
Proof.
  intros Hindex Hmiles.
  assert (Hret : ∃ out, process_combined_data clock samsara_data df = Ok out).
  { unfold process_combined_data. destruct samsara_data as [|v vs]; [by eexists|].
    destruct (Frame.empty df); [by eexists|]. by apply combine_loop_returns. }
  destruct Hret as [out Hout]. exists out. split; [done|].
  split; [by eapply process_combined_data_records|by eapply process_combined_data_filled].
Qed.

(** * The dashboards *)

Lemma value_counts_lookup (l : list string) (x : string) :
  value_counts l !! x
  = let n := length (List.filter (String.eqb x) l) in
    if (0 <? n)%nat then Some n else None.
Proof.
  induction l as [|y l IH]; [done|].
  cbn [value_counts foldr]. fold (value_counts l).
  cbn [List.filter]. destruct (String.eqb_spec x y) as [->|Hne].
  - rewrite lookup_insert_eq. rewrite IH. cbn.
    by destruct (length (List.filter (String.eqb y) l)).
  - by rewrite lookup_insert_ne.
Qed.

Lemma length_filter_fmap {A B} (f : A → B) (p : B → bool) (l : list A) :
  length (List.filter p (f <$> l)) = length (List.filter (λ a, p (f a)) l).
Proof.
  induction l as [|a l IH]; [done|]. cbn. destruct (p (f a)); cbn; by rewrite IH.
Qed.

Lemma length_filter_ext {A} (p q : A → bool) (l : list A) :
  (∀ a, p a = q a) → length (List.filter p l) = length (List.filter q l).
Proof.
  intros H. induction l as [|a l IH]; [done|]. cbn. rewrite H.
  destruct (q a); cbn; by rewrite IH.
Qed.

Lemma length_filter_le {A} (p : A → bool) (l : list A) :
  (length (List.filter p l) <= length l)%nat.
Proof.
  induction l as [|a l IH]; [done|]. cbn. destruct (p a); cbn; lia.
Qed.

(** The three labels exclude each other. *)
Lemma compliance_label_cases (row : CombinedInfo) :
  let ok := String.eqb (Annual_Alert row) "OK" && String.eqb (PM_Alert row) "OK" in
  let attention := isin (Annual_Alert row) ["OVERDUE"; "CRITICAL"]
                   || isin (PM_Alert row) ["OVERDUE"; "CRITICAL"] in
  (ok = true → attention = false)
  ∧ String.eqb "Fully Compliant" (compliance_label row) = ok
  ∧ String.eqb "Needs Attention" (compliance_label row) = attention
  ∧ String.eqb "Warning Status" (compliance_label row) = negb ok && negb attention.
Proof.
  cbn zeta. unfold compliance_label, isin. cbn [existsb].
  destruct (String.eqb_spec (Annual_Alert row) "OK") as [->|];
    destruct (String.eqb_spec (PM_Alert row) "OK") as [->|]; cbn.
  all: try done.
  all: destruct (_ || _); done.
Qed.

Lemma count_three (p q : CombinedInfo → bool) (l : list CombinedInfo) :
  (∀ a, p a = true → q a = false) →
  (length (List.filter p l) + length (List.filter q l)
   + length (List.filter (λ a, negb (p a) && negb (q a)) l) = length l)%nat.
Proof.
  intros H. induction l as [|a l IH]; [done|]. cbn.
  specialize (H a). destruct (p a), (q a); cbn; try lia.
Qed.

(** X17: the slices of the compliance pie.  Fully Compliant counts what
    [create_metrics_summary] takes as fully compliant, Needs Attention
    counts the rows of [critical_vehicles] of the alerts tab, the three
    slices add up to the number of vehicles, and a category without a
    vehicle has no slice. *)
Theorem compliance_series_counts (df : list CombinedInfo) (mean : list Z → float) :
  let slice label := default 0%nat (compliance_series df !! label) in
  slice "Fully Compliant" = fully_compliant df
  ∧ slice "Needs Attention" = length (Auto.critical_vehicles df)
  ∧ (slice "Fully Compliant" + slice "Needs Attention" + slice "Warning Status"
     = total_vehicles (create_metrics_summary mean df))%nat
  ∧ (∀ label n, compliance_series df !! label = Some n →
       (0 < n)%nat
       ∧ label ∈ ["Fully Compliant"; "Needs Attention"; "Warning Status"]).
Proof.
  cbn zeta. unfold compliance_series, compliance_counts.
  assert (Hslice : ∀ label,
    default 0%nat (value_counts (compliance_label <$> df) !! label)
    = length (List.filter (λ r, String.eqb label (compliance_label r)) df)).
  { intros label. rewrite value_counts_lookup. cbn zeta. rewrite length_filter_fmap.
    by destruct (length _). }
  assert (Hfull : ∀ r, String.eqb "Fully Compliant" (compliance_label r)
      = String.eqb (Annual_Alert r) "OK" && String.eqb (PM_Alert r) "OK")
    by (intros r; apply (compliance_label_cases r)).
  assert (Hatt : ∀ r, String.eqb "Needs Attention" (compliance_label r)
      = isin (Annual_Alert r) ["OVERDUE"; "CRITICAL"]
        || isin (PM_Alert r) ["OVERDUE"; "CRITICAL"])
    by (intros r; apply (compliance_label_cases r)).
  rewrite !Hslice. split; [|split; [|split]].
  - unfold fully_compliant. by apply length_filter_ext.
  - unfold Auto.critical_vehicles. by apply length_filter_ext.
  - cbn [total_vehicles create_metrics_summary].
    rewrite (length_filter_ext _ _ df Hfull), (length_filter_ext _ _ df Hatt).
    rewrite (length_filter_ext (λ r, String.eqb "Warning Status" (compliance_label r))
      (λ r, negb (String.eqb (Annual_Alert r) "OK" && String.eqb (PM_Alert r) "OK")
            && negb (isin (Annual_Alert r) ["OVERDUE"; "CRITICAL"]
                     || isin (PM_Alert r) ["OVERDUE"; "CRITICAL"])) df)
      by (intros r; apply (compliance_label_cases r)).
    apply count_three. intros r. apply (compliance_label_cases r).
  - intros label n. rewrite value_counts_lookup. cbn zeta. rewrite length_filter_fmap.
    destruct (0 <? _)%nat eqn:Hpos; [|done]. intros [= <-].
    apply Nat.ltb_lt in Hpos. split; [done|].
    destruct (List.filter _ df) as [|r rest] eqn:Hf; [cbn in Hpos; lia|].
    assert (Hin : r ∈ List.filter (λ a, String.eqb label (compliance_label a)) df)
      by (rewrite Hf; left).
    apply list_elem_of_In, filter_In in Hin as [_ Hr]. apply String.eqb_eq in Hr.
    subst label. unfold compliance_label.
    repeat case_match; set_solver.
Qed.

Lemma isin_spec (value : string) (values : list string) :
  isin value values = true ↔ value ∈ values.
Proof.
  unfold isin. rewrite existsb_exists. split.
  - intros (x & Hin & Heq). apply String.eqb_eq in Heq as ->. by apply list_elem_of_In.
  - intros Hin. exists value. split; [by apply list_elem_of_In|apply String.eqb_refl].
Qed.

Lemma elem_of_filter_list {A} (p : A → bool) (l : list A) (a : A) :
  a ∈ List.filter p l ↔ a ∈ l ∧ p a = true.
Proof. by rewrite !list_elem_of_In, filter_In. Qed.

(** The label of a record whose alerts classify the numbers of days [a] and
    [p]. *)
Lemma compliance_label_of_days (info : CombinedInfo) (a p : option Z) :
  Annual_Alert info = get_alert_status a →
  PM_Alert info = get_alert_status p →
  compliance_label info
  = match a, p with
    | Some x, Some y =>
        if (x <=? 30) || (y <=? 30) then "Needs Attention"
        else if (60 <? x) && (60 <? y) then "Fully Compliant"
        else "Warning Status"
    | Some x, None | None, Some x =>
        if x <=? 30 then "Needs Attention" else "Warning Status"
    | None, None => "Warning Status"
    end.
Proof.
  intros Ha Hp. unfold compliance_label. rewrite Ha, Hp. unfold get_alert_status.
  destruct a as [x|], p as [y|].
  all: repeat match goal with
       | |- context [?u <? ?v] => destruct (Z.ltb_spec u v)
       | |- context [?u <=? ?v] => destruct (Z.leb_spec u v)
       end; try reflexivity; lia.
Qed.

(** X18: the compliance category of a record by its numbers of days.  It is
    Fully Compliant exactly when the annual and the PM date are both more
    than 60 days away, Needs Attention exactly when one of them is at
    most 30 days away or past, and Warning Status otherwise: that is when
    neither is that close and one of them is missing, unreadable or at
    most 60 days away. *)
Theorem compliance_by_days_remaining (clock : nat → datetime)
    (samsara_data : list Vehicle) (df : DataFrame) (out : list CombinedInfo)
    (info : CombinedInfo) :
  process_combined_data clock samsara_data df = Ok out →
  info ∈ out →
  let annual := Annual_Days_Remaining info in
  let pm := PM_Days_Remaining info in
  (compliance_label info = "Fully Compliant"
   ↔ due_in annual (λ d, 60 < d) ∧ due_in pm (λ d, 60 < d))
  ∧ (compliance_label info = "Needs Attention"
     ↔ due_in annual (λ d, d <= 30) ∨ due_in pm (λ d, d <= 30))
  ∧ (compliance_label info = "Warning Status"
     ↔ ¬ (due_in annual (λ d, d <= 30) ∨ due_in pm (λ d, d <= 30))
       ∧ (annual = None ∨ pm = None
          ∨ due_in annual (λ d, d <= 60) ∨ due_in pm (λ d, d <= 60))).
Proof.
  intros Hout Hin. cbn zeta.
  apply process_combined_data_filled in Hout.
  rewrite Forall_forall in Hout. specialize (Hout info Hin).
  destruct Hout as (label & row & k & _ & _ & _ & _ & _ & _ & _ & _ & _ & Ha & Hp & _).
  rewrite (compliance_label_of_days info _ _ Ha Hp). unfold due_in.
  destruct (Annual_Days_Remaining info) as [x|], (PM_Days_Remaining info) as [y|].
  all: repeat match goal with
       | |- context [?u <? ?v] => destruct (Z.ltb_spec u v)
       | |- context [?u <=? ?v] => destruct (Z.leb_spec u v)
       end; cbn [orb andb].
  all: split_and!; (split; intros Hlabel); try discriminate Hlabel; try reflexivity.
  all: intuition (try discriminate; lia).
Qed.

Lemma isin_two (a x y : string) :
  isin a [x; y] = String.eqb a x || String.eqb a y.
Proof. unfold isin. cbn. by rewrite orb_false_r. Qed.

Lemma length_filter_or {A} (p q : A → bool) (l : list A) :
  (length (List.filter (λ a, p a || q a) l)
   <= length (List.filter p l) + length (List.filter q l))%nat.
Proof.
  induction l as [|a l IH]; [done|]. cbn. destruct (p a), (q a); cbn; lia.
Qed.

(** X19: in the alerts tab every row of [critical_vehicles] is in the table
    of the overdue or in the table of the critical vehicles.  A row is in
    both exactly when one of its two alerts is OVERDUE and the other
    CRITICAL, so the two tables together may list more rows than the
    banner counts. *)
Theorem attention_tables_cover (combined_df : list CombinedInfo) :
  let critical_vehicles := Auto.critical_vehicles combined_df in
  (∀ r, r ∈ critical_vehicles
        ↔ r ∈ Auto.overdue critical_vehicles ∨ r ∈ Auto.critical critical_vehicles)
  ∧ (∀ r, r ∈ Auto.overdue critical_vehicles ∧ r ∈ Auto.critical critical_vehicles
          ↔ r ∈ combined_df
            ∧ ((Annual_Alert r = "OVERDUE" ∧ PM_Alert r = "CRITICAL")
               ∨ (Annual_Alert r = "CRITICAL" ∧ PM_Alert r = "OVERDUE")))
  ∧ (length critical_vehicles
     <= length (Auto.overdue critical_vehicles)
        + length (Auto.critical critical_vehicles))%nat.
Proof.
  cbn zeta. unfold Auto.overdue, Auto.critical, Auto.critical_vehicles.
  split; [|split].
  - intros r. rewrite !elem_of_filter_list, !isin_two.
    destruct (String.eqb (Annual_Alert r) "OVERDUE"),
      (String.eqb (Annual_Alert r) "CRITICAL"),
      (String.eqb (PM_Alert r) "OVERDUE"),
      (String.eqb (PM_Alert r) "CRITICAL"); cbn; intuition discriminate.
  - intros r. rewrite !elem_of_filter_list, !isin_two.
    destruct (String.eqb_spec (Annual_Alert r) "OVERDUE") as [->|],
      (String.eqb_spec (PM_Alert r) "OVERDUE") as [->|]; cbn.
    all: destruct (String.eqb_spec (Annual_Alert r) "CRITICAL") as [Ha|],
      (String.eqb_spec (PM_Alert r) "CRITICAL") as [Hp|]; cbn.
    all: try rewrite Ha; try rewrite Hp.
    all: intuition (try discriminate; try congruence).
  - set (cv := List.filter _ combined_df).
    etrans; [|apply length_filter_or].
    apply Nat.eq_le_incl. symmetry.
    rewrite <- (filter_all_true (λ r, (String.eqb (Annual_Alert r) "OVERDUE"
        || String.eqb (PM_Alert r) "OVERDUE")
        || (String.eqb (Annual_Alert r) "CRITICAL"
            || String.eqb (PM_Alert r) "CRITICAL")) cv) at 2; [done|].
    intros r Hr. subst cv. apply elem_of_filter_list in Hr as [_ Hr].
    rewrite !isin_two in Hr.
    destruct (String.eqb (Annual_Alert r) "OVERDUE"),
      (String.eqb (Annual_Alert r) "CRITICAL"),
      (String.eqb (PM_Alert r) "OVERDUE"),
      (String.eqb (PM_Alert r) "CRITICAL"); done.
Qed.

(** X20: the two dashboards flag the same vehicles.  A record is in one of
    the four alert tables of [fleet_dashboard.main] exactly when it is in
    [critical_vehicles] of [fleet_dashboard_auto.main], whose OVERDUE and
    CRITICAL tables are the unions of the two corresponding tables. *)
Theorem basic_tables_show_critical_vehicles (combined_df : list CombinedInfo)
    (r : CombinedInfo) :
  let critical_vehicles := Auto.critical_vehicles combined_df in
  (r ∈ Auto.overdue critical_vehicles
   ↔ r ∈ Basic.overdue_annual combined_df ∨ r ∈ Basic.overdue_pm combined_df)
  ∧ (r ∈ Auto.critical critical_vehicles
     ↔ r ∈ Basic.critical_annual combined_df ∨ r ∈ Basic.critical_pm combined_df)
  ∧ (r ∈ critical_vehicles
     ↔ r ∈ Basic.overdue_annual combined_df ∨ r ∈ Basic.overdue_pm combined_df
       ∨ r ∈ Basic.critical_annual combined_df ∨ r ∈ Basic.critical_pm combined_df).
Proof.
  cbn zeta. unfold Auto.overdue, Auto.critical, Auto.critical_vehicles,
    Basic.overdue_annual, Basic.overdue_pm, Basic.critical_annual, Basic.critical_pm.
  rewrite !elem_of_filter_list, !isin_two.
  destruct (String.eqb (Annual_Alert r) "OVERDUE"),
    (String.eqb (Annual_Alert r) "CRITICAL"),
    (String.eqb (PM_Alert r) "OVERDUE"),
    (String.eqb (PM_Alert r) "CRITICAL"); cbn; intuition discriminate.
Qed.

Lemma count_eq_disjoint (col : CombinedInfo → string) (a b c : string)
    (df : list CombinedInfo) :
  a ≠ b → a ≠ c → b ≠ c →
  (count_eq col a df + count_eq col b df + count_eq col c df <= length df)%nat.
Proof.
  intros Hab Hac Hbc. unfold count_eq. induction df as [|r df IH]; [done|]. cbn.
  destruct (String.eqb_spec (col r) a), (String.eqb_spec (col r) b),
    (String.eqb_spec (col r) c); cbn; try lia; congruence.
Qed.

Lemma foldl_max_spec (x : Z) (l : list Z) :
  let m := foldl Z.max x l in
  (x <= m ∧ ∀ y, y ∈ l → y <= m) ∧ (m = x ∨ m ∈ l).
Proof.
  cbn zeta. revert x. induction l as [|z l IH]; intros x; cbn.
  - split; [split; [lia|]|by left]. intros y Hy. by apply elem_of_nil in Hy.
  - destruct (IH (Z.max x z)) as [[Hx Hl] Hm]. split; [split|].
    + lia.
    + intros y Hy. apply elem_of_cons in Hy as [->|Hy]; [lia|by apply Hl].
    + destruct Hm as [Hm|Hm]; [|right; by right]. rewrite Hm.
      destruct (Z.max_spec x z) as [[_ Hz]|[_ Hz]]; rewrite Hz.
      * right. by left.
      * by left.
Qed.

Lemma series_max_spec (l : list Z) :
  match series_max l with
  | Some m => m ∈ l ∧ ∀ y, y ∈ l → y <= m
  | None => l = []
  end.
Proof.
  destruct l as [|x l]; [done|]. cbn.
  destruct (foldl_max_spec x l) as [[Hx Hl] Hm]. split.
  - destruct Hm as [->|Hm]; [by left|by right].
  - intros y Hy. apply elem_of_cons in Hy as [->|Hy]; [done|by apply Hl].
Qed.

Lemma filter_nil_iff {A} (p : A → bool) (l : list A) :
  List.filter p l = [] ↔ ∀ a, a ∈ l → p a = false.
Proof.
  induction l as [|a l IH]; cbn.
  - split; [|done]. intros _ a Ha. by apply elem_of_nil in Ha.
  - destruct (p a) eqn:Hp.
    + split; [done|]. intros H. specialize (H a (list_elem_of_here _ _)). congruence.
    + rewrite IH. split.
      * intros H b Hb. apply elem_of_cons in Hb as [->|Hb]; [done|by apply H].
      * intros H b Hb. apply H. by right.
Qed.

(** X21: the numbers of [create_metrics_summary].  The OK, OVERDUE and
    CRITICAL counts of a column add up to at most the number of
    vehicles; the fully compliant count is at most either OK count;
    [max_mileage] is missing exactly for a frame without rows, and
    otherwise is the mileage of a vehicle that no vehicle exceeds; and
    the high mileage count is 0 exactly when [max_mileage] is at most
    400000. *)
Theorem metrics_counts_are_consistent (mean : list Z → float) (df : list CombinedInfo) :
  let m := create_metrics_summary mean df in
  (annual_ok m + annual_overdue m + annual_critical m <= total_vehicles m)%nat
  ∧ (pm_ok m + pm_overdue m + pm_critical m <= total_vehicles m)%nat
  ∧ (fully_compliant df <= annual_ok m)%nat
  ∧ (fully_compliant df <= pm_ok m)%nat
  ∧ (high_mileage_count m <= total_vehicles m)%nat
  ∧ (max_mileage m = None ↔ total_vehicles m = 0%nat)
  ∧ (∀ x, max_mileage m = Some x →
       (∃ r, r ∈ df ∧ OBD_Odometer_Miles r = x)
       ∧ (∀ r, r ∈ df → OBD_Odometer_Miles r <= x)
       ∧ (high_mileage_count m = 0%nat ↔ x <= 400000)).
Proof.
  cbn zeta. cbn [create_metrics_summary total_vehicles annual_ok annual_overdue
    annual_critical pm_ok pm_overdue pm_critical max_mileage high_mileage_count].
  split_and!.
  - by apply count_eq_disjoint.
  - by apply count_eq_disjoint.
  - unfold fully_compliant, count_eq. induction df as [|r df IH]; [done|]. cbn.
    destruct (String.eqb (Annual_Alert r) "OK"), (String.eqb (PM_Alert r) "OK"); cbn; lia.
  - unfold fully_compliant, count_eq. induction df as [|r df IH]; [done|]. cbn.
    destruct (String.eqb (Annual_Alert r) "OK"), (String.eqb (PM_Alert r) "OK"); cbn; lia.
  - apply length_filter_le.
  - destruct df; cbn; split; done.
  - intros x Hx. pose proof (series_max_spec (OBD_Odometer_Miles <$> df)) as Hmax.
    rewrite Hx in Hmax. destruct Hmax as [Hin Hle]. split_and!.
    + apply list_elem_of_fmap in Hin as (r & -> & Hr). by exists r.
    + intros r Hr. apply Hle. apply list_elem_of_fmap. by exists r.
    + rewrite length_zero_iff_nil, filter_nil_iff. split.
      * intros Hall. apply list_elem_of_fmap in Hin as (r & -> & Hr).
        specialize (Hall r Hr). cbn in Hall. lia.
      * intros Hx4 r Hr. assert (OBD_Odometer_Miles r <= x).
        { apply Hle. apply list_elem_of_fmap. by exists r. }
        cbn. lia.
Qed.

Lemma Forall2_filter_same {A} (R : A → A → Prop) (p : A → bool) (l l' : list A) :
  (∀ a b, R a b → p a = p b) →
  Forall2 R l l' → Forall2 R (List.filter p l) (List.filter p l').
Proof.
  intros Hp H. induction H as [|a b l l' Hab H IH]; [constructor|]. cbn.
  rewrite (Hp a b Hab). destruct (p b); [by constructor|done].
Qed.

Lemma Forall2_fmap_same {A B} (R : A → A → Prop) (f : A → B) (l l' : list A) :
  (∀ a b, R a b → f a = f b) →
  Forall2 R l l' → f <$> l = f <$> l'.
Proof.
  intros Hf H. induction H as [|a b l l' Hab H IH]; [done|]. cbn.
  by rewrite (Hf a b Hab), IH.
Qed.

(** X22: the metrics, the data of the chart and the tables of the critical
    and of the high mileage vehicles depend on three columns only, the
    annual alert, the PM alert and the odometer mileage: two frames that
    agree on these give the same metrics and chart and select the rows at
    the same positions.  The PM inspection date and its alert never
    count. *)
Theorem summaries_read_two_alerts_and_mileage (mean : list Z → float)
    (df df' : list CombinedInfo) :
  Forall2 same_summary_fields df df' →
  create_metrics_summary mean df = create_metrics_summary mean df'
  ∧ create_simple_overview_chart mean df = create_simple_overview_chart mean df'
  ∧ Forall2 same_summary_fields (Auto.critical_vehicles df) (Auto.critical_vehicles df')
  ∧ Forall2 same_summary_fields (Auto.high_mileage df) (Auto.high_mileage df').
Proof.
  intros H.
  assert (Hfilter : ∀ p : CombinedInfo → bool,
    (∀ a b, same_summary_fields a b → p a = p b) →
    Forall2 same_summary_fields (List.filter p df) (List.filter p df'))
    by (intros p Hp; by apply Forall2_filter_same).
  assert (Hlen : ∀ p : CombinedInfo → bool,
    (∀ a b, same_summary_fields a b → p a = p b) →
    length (List.filter p df) = length (List.filter p df'))
    by (intros p Hp; eapply Forall2_length, Hfilter, Hp).
  assert (Hmiles : ∀ l l', Forall2 same_summary_fields l l' →
    OBD_Odometer_Miles <$> l = OBD_Odometer_Miles <$> l').
  { intros l l'. apply Forall2_fmap_same. by intros a b (_ & _ & ->). }
  split_and!.
  - unfold create_metrics_summary, fully_compliant, count_eq.
    rewrite (Forall2_length _ _ _ H), (Hmiles _ _ H).
    f_equal; try (apply Hlen; intros a b (Ha & Hp & Hm); by rewrite ?Ha, ?Hp, ?Hm).
    rewrite (Hlen (λ r, String.eqb (Annual_Alert r) "OK" && String.eqb (PM_Alert r) "OK"));
      [done|]. intros a b (Ha & Hp & Hm). by rewrite Ha, Hp.
  - unfold create_simple_overview_chart, compliance_series, compliance_counts,
      mileage_by_alert. f_equal.
    + f_equal. apply (Forall2_fmap_same same_summary_fields); [|done].
      intros a b (Ha & Hp & _). unfold compliance_label. by rewrite Ha, Hp.
    + apply list_fmap_ext. intros _ alert _.
      assert (Hf := Hfilter (λ r, String.eqb (Annual_Alert r) alert)
        ltac:(intros a b (Ha & _); by rewrite Ha)).
      rewrite (Hmiles _ _ Hf). by destruct Hf.
  - apply Hfilter. intros a b (Ha & Hp & _). by rewrite Ha, Hp.
  - apply Hfilter. intros a b (_ & _ & Hm). by rewrite Hm.
Qed.

Lemma unique_from_spec (seen l : list string) (x : string) :
  x ∈ unique_from seen l ↔ x ∈ l ∧ x ∉ seen.
Proof.
  revert seen. induction l as [|y l IH]; intros seen; cbn.
  - split; [intros H|intros [H _]]; by apply elem_of_nil in H.
  - destruct (isin y seen) eqn:Hy.
    + apply isin_spec in Hy. rewrite IH, elem_of_cons. split; [tauto|].
      intros [[->|Hx] Hn]; [done|by split].
    + assert (Hn : y ∉ seen) by (rewrite <- isin_spec; congruence).
      rewrite elem_of_cons, IH, not_elem_of_cons, elem_of_cons.
      destruct (decide (x = y)) as [->|Hne]; tauto.
Qed.

Lemma unique_from_NoDup (seen l : list string) : NoDup (unique_from seen l).
Proof.
  revert seen. induction l as [|y l IH]; intros seen; cbn; [constructor|].
  destruct (isin y seen); [apply IH|]. constructor; [|apply IH].
  rewrite unique_from_spec, elem_of_cons. tauto.
Qed.

(** X23: the Annual Status select box offers All and each alert that
    occurs, once.  With the PM filter at All and no search text, every
    choice it offers shows at least one vehicle of a frame that has rows;
    and the rows shown are those that pass both filters. *)
Theorem offered_choices_show_vehicles (combined_df : list CombinedInfo) :
  NoDup (unique (Annual_Alert <$> combined_df))
  ∧ (∀ choice, choice ∈ Auto.filter_options Annual_Alert combined_df
       ↔ choice = "All" ∨ ∃ r, r ∈ combined_df ∧ Annual_Alert r = choice)
  ∧ (∀ choice, combined_df ≠ [] →
       choice ∈ Auto.filter_options Annual_Alert combined_df →
       Auto.filtered_df choice "All" combined_df ≠ [])
  ∧ (∀ annual_filter pm_filter r,
       r ∈ Auto.filtered_df annual_filter pm_filter combined_df
       ↔ r ∈ combined_df
         ∧ (annual_filter = "All" ∨ Annual_Alert r = annual_filter)
         ∧ (pm_filter = "All" ∨ PM_Alert r = pm_filter)).
Proof.
  assert (Hopt : ∀ choice, choice ∈ Auto.filter_options Annual_Alert combined_df
       ↔ choice = "All" ∨ ∃ r, r ∈ combined_df ∧ Annual_Alert r = choice).
  { intros choice. unfold Auto.filter_options, unique.
    rewrite elem_of_cons, unique_from_spec, list_elem_of_fmap. split.
    - intros [->|[(r & -> & Hr) _]]; [by left|right; by exists r].
    - intros [->|(r & Hr & <-)]; [by left|right]. split; [by exists r|].
      apply not_elem_of_nil. }
  split_and!; [apply unique_from_NoDup|done| |].
  - intros choice Hne Hin. unfold Auto.filtered_df. cbn [String.eqb negb].
    destruct (String.eqb_spec choice "All") as [->|Hall]; cbn; [done|].
    apply Hopt in Hin as [->|(r & Hr & <-)]; [done|].
    intros Hnil. rewrite filter_nil_iff in Hnil. specialize (Hnil r Hr).
    cbn in Hnil. by rewrite String.eqb_refl in Hnil.
  - intros annual_filter pm_filter r. unfold Auto.filtered_df.
    destruct (String.eqb_spec annual_filter "All") as [->|Ha],
      (String.eqb_spec pm_filter "All") as [->|Hp]; cbn.
    all: rewrite ?elem_of_filter_list, ?String.eqb_eq; tauto.
Qed.

(** * Fetching, the two pages and the launcher *)

Section Scripts.

Import Script.

Ltac run_script :=
  unfold mbind, script_bind, mret, script_ret, Script.bind, Script.after,
    Script.preceded_by,
    Script.try_except, Script.except_Exception, Script.st_error, Script.st_warning,
    Script.st_info, Script.st_success, Script.emit, Script.call, Script.ret,
    Script.raise, Script.lift;
  cbn.

(** Two outcomes of the same call are the same. *)
Ltac same_calls :=
  repeat match goal with
  | H1 : ?x = _, H2 : ?x = _ |- _ => rewrite H1 in H2; simplify_eq
  end.

(** X24: [get_excel_data] lets no exception that derives from [Exception]
    out and leaves the session state as it is.  It returns a frame that
    is not empty only when the download answered 200, [read_csv] read the
    text and [clean_excel_data] returned that frame, and then it shows
    nothing.  When [clean_excel_data] raises, or the status is not 200,
    it shows one error and returns the empty frame. *)
Theorem get_excel_data_absorbs_exceptions (w : World) (st : option Session) :
  let r := get_excel_data w st in
  session_of r = st
  ∧ (∀ e, outcome_of r ≠ Threw (Exception e))
  ∧ (∀ df, outcome_of r = Returned df → Frame.empty df = false →
       events_of r = [requests_get Sheet None]
       ∧ ∃ response raw,
           sheet_get w = Returned response
           ∧ status_code response = 200
           ∧ read_csv w (body response) = Returned raw
           ∧ clean_excel_data raw = Ok df)
  ∧ (∀ response raw e,
       sheet_get w = Returned response →
       status_code response = 200 →
       read_csv w (body response) = Returned raw →
       clean_excel_data raw = Raise e →
       r = mk_run (Returned (mkDF [] [])) st
             [requests_get Sheet None;
              st_message Body Error (Excel_error (Builtin e))])
  ∧ (∀ response,
       sheet_get w = Returned response →
       status_code response ≠ 200 →
       r = mk_run (Returned (mkDF [] [])) st
             [requests_get Sheet None;
              st_message Body Error (Excel_loading_error (status_code response))]).
Proof.
  cbn zeta. unfold get_excel_data. run_script.
  destruct (sheet_get w) as [response|[e| |c]] eqn:Hget; cbn.
  2-4: split_and!; intros; simplify_eq; cbn in *; done.
  destruct (Z.eqb_spec (status_code response) 200) as [H200|H200]; cbn.
  2: { split_and!; intros; simplify_eq; cbn in *; done. }
  destruct (read_csv w (body response)) as [raw|[e| |c]] eqn:Hread; cbn.
  2-4: split_and!; intros; simplify_eq; same_calls; cbn in *; done.
  destruct (clean_excel_data raw) as [df|e] eqn:Hclean; cbn.
  - split_and!; intros; simplify_eq; same_calls; cbn in *; try done.
    split; [done|]. by exists response, raw.
  - split_and!; intros; simplify_eq; same_calls; cbn in *; done.
Qed.

(** X25: [get_samsara_stats] lets no exception that derives from
    [Exception] out and leaves the session state as it is.  It returns
    vehicles only when the API answered 200 with a body that has them
    under ['data'], and then it shows nothing.  An answer 200 without
    that entry gives the empty list and no message; another status, or
    an exception of the request, gives the empty list and one error. *)
Theorem get_samsara_stats_absorbs_exceptions (w : World) (token : string)
    (st : option Session) :
  let r := get_samsara_stats w token st in
  session_of r = st
  ∧ (∀ e, outcome_of r ≠ Threw (Exception e))
  ∧ (∀ data, outcome_of r = Returned data → data ≠ [] →
       events_of r = [requests_get Samsara (Some token)]
       ∧ ∃ response,
           samsara_get w token = Returned response
           ∧ status_code response = 200
           ∧ body response = Returned (Some data))
  ∧ (∀ response,
       samsara_get w token = Returned response →
       status_code response = 200 →
       body response = Returned None →
       r = mk_run (Returned []) st [requests_get Samsara (Some token)])
  ∧ (∀ response,
       samsara_get w token = Returned response →
       status_code response ≠ 200 →
       r = mk_run (Returned []) st
             [requests_get Samsara (Some token);
              st_message Body Error (Samsara_API_error (status_code response))])
  ∧ (∀ e,
       samsara_get w token = Threw (Exception e) →
       r = mk_run (Returned []) st
             [requests_get Samsara (Some token);
              st_message Body Error (Error_fetching_Samsara_data e)]).
Proof.
  cbn zeta. unfold get_samsara_stats. run_script.
  destruct (samsara_get w token) as [response|[e| |c]] eqn:Hget; cbn.
  2-4: split_and!; intros; simplify_eq; cbn in *; done.
  destruct (Z.eqb_spec (status_code response) 200) as [H200|H200]; cbn.
  2: { split_and!; intros; simplify_eq; cbn in *; done. }
  destruct (body response) as [[data|]|[e| |c]] eqn:Hbody; cbn.
  all: split_and!; intros; simplify_eq; same_calls; cbn in *; try done.
  split; [done|]. by exists response.
Qed.

(** What the pages rely on. *)
Lemma get_samsara_stats_run (w : World) (token : string) (st : option Session) :
  ∃ o evs,
    get_samsara_stats w token st = mk_run o st evs
    ∧ (∀ e, o ≠ Threw (Exception e))
    ∧ Forall fetch_event evs.
Proof.
  unfold get_samsara_stats. run_script.
  destruct (samsara_get w token) as [response|[e| |c]]; cbn.
  2-4: eexists _, _; split_and!; [done|done|by repeat constructor].
  destruct (status_code response =? 200); cbn.
  2: eexists _, _; split_and!; [done|done|by repeat constructor].
  destruct (body response) as [data|[e| |c]]; cbn.
  all: eexists _, _; split_and!; [done|done|by repeat constructor].
Qed.

Lemma get_excel_data_run (w : World) (st : option Session) :
  ∃ o evs,
    get_excel_data w st = mk_run o st evs
    ∧ (∀ e, o ≠ Threw (Exception e))
    ∧ Forall fetch_event evs.
Proof.
  unfold get_excel_data. run_script.
  destruct (sheet_get w) as [response|[e| |c]]; cbn.
  2-4: eexists _, _; split_and!; [done|done|by repeat constructor].
  destruct (status_code response =? 200); cbn.
  2: eexists _, _; split_and!; [done|done|by repeat constructor].
  destruct (read_csv w (body response)) as [raw|[e| |c]]; cbn.
  2-4: eexists _, _; split_and!; [done|done|by repeat constructor].
  destruct (clean_excel_data raw); cbn.
  all: eexists _, _; split_and!; [done|done|by repeat constructor].
Qed.

(** X26: the launcher runs Streamlit, on [fleet_dashboard_auto.py] at
    localhost:8501, exactly when that file exists; the warning about
    [.env] is printed exactly when the file exists and [.env] does not;
    an interrupt from the keyboard and every exception of the run that
    derives from [Exception] are reported in one line and not passed
    on. *)
Theorem launcher_starts_dashboard_when_it_exists (sys_executable : string)
    (exists_ : string → bool) (run : list string → outcome unit)
    (st : option Session) :
  let r := Launcher.main sys_executable exists_ run st in
  let args := [sys_executable; "-m"; "streamlit"; "run"; "fleet_dashboard_auto.py";
               "--server.port"; "8501"; "--server.address"; "localhost";
               "--browser.gatherUsageStats"; "false"] in
  (∀ a, subprocess_run a ∈ events_of r
        ↔ a = args ∧ exists_ "fleet_dashboard_auto.py" = true)
  ∧ (print Env_file_not_found ∈ events_of r
     ↔ exists_ "fleet_dashboard_auto.py" = true ∧ exists_ ".env" = false)
  ∧ (∀ s, outcome_of r = Threw s ↔
       exists_ "fleet_dashboard_auto.py" = true
       ∧ run args = Threw s ∧ ∃ class, s = BaseException class)
  ∧ (print Stopped_by_user ∈ events_of r
     ↔ exists_ "fleet_dashboard_auto.py" = true ∧ run args = Threw KeyboardInterrupt)
  ∧ (∀ e, print (Launch_error e) ∈ events_of r
     ↔ exists_ "fleet_dashboard_auto.py" = true ∧ run args = Threw (Exception e)).
Proof.
  cbn zeta. unfold Launcher.main. run_script.
  destruct (exists_ "fleet_dashboard_auto.py"); cbn.
  2: { split_and!; intros; rewrite ?list_elem_of_In; cbn [In];
       intuition (simplify_eq; try done). }
  destruct (exists_ ".env"); cbn.
  all: destruct (run _) as [[]|[e| |c]] eqn:Hrun; cbn.
  all: split_and!; intros; rewrite ?list_elem_of_In; cbn [In].
  all: try (intuition (simplify_eq; try done); fail).
  all: split; [intros ?; simplify_eq; by eauto|intros (_ & ? & ? & ->); by simplify_eq].
Qed.

Ltac run_page :=
  unfold mbind, script_bind, mret, script_ret, Script.bind, Script.after,
    Script.preceded_by,
    Script.st_error, Script.st_warning, Script.st_info, Script.st_success,
    Script.emit, Script.call, Script.ret, Script.raise, Script.lift,
    Script.set_session, Script.init_session, Script.session;
  cbn -[get_samsara_stats get_excel_data process_combined_data create_metrics_summary].


Lemma fetch_event_not (evs : list event) (e : event) :
  Forall fetch_event evs → e ∈ evs → fetch_event e.
Proof. rewrite Forall_forall. auto. Qed.

Lemma truthy_length {A} (l : list A) : truthy l = true → l ≠ [].
Proof. by destruct l. Qed.

Lemma alert_table_run (l : level) (m : nat → message) (columns : list string)
    (table : list CombinedInfo) (st : option Session) :
  ∃ evs,
    Basic.alert_table l m columns table st = mk_run (Returned tt) st evs
    ∧ Forall (λ e, match e with
                   | st_message _ _ _ => True
                   | st_dataframe (Some _) rows => rows ≠ []
                   | _ => False
                   end) evs.
Proof.
  unfold Basic.alert_table. destruct (truthy table) eqn:Htable; run_page.
  - eexists. split; [done|]. apply truthy_length in Htable. by repeat constructor.
  - by eexists.
Qed.

(** Every event of a list satisfies [P]. *)
Ltac all_events :=
  repeat first
    [ apply Forall_nil_2
    | apply Forall_cons; split
    | apply Forall_app; split ].

(** X27: [fleet_dashboard.main] leaves the session state as it is.  Without
    a token it shows one error and requests nothing, and without a click
    it does nothing.  The frame it shows in the main table or saves as
    CSV has rows and is what [process_combined_data] returned for the two
    fetched sources; and an alert table is never shown empty. *)
Theorem basic_main_shows_matched_data_only (mean : list Z → float) (token : string)
    (w : World) (button : bool) (st : option Session) :
  let r := Basic.main mean token w button st in
  session_of r = st
  ∧ (token = "" → events_of r = [st_message Body Error Token_not_configured])
  ∧ (button = false → token ≠ "" → events_of r = [])
  ∧ (∀ url bearer, requests_get url bearer ∈ events_of r →
       token ≠ "" ∧ button = true)
  ∧ (∀ rows, to_csv rows ∈ events_of r ∨ st_dataframe None rows ∈ events_of r →
       rows ≠ []
       ∧ ∃ samsara_data excel_df,
           outcome_of (get_samsara_stats w token st) = Returned samsara_data
           ∧ outcome_of (get_excel_data w st) = Returned excel_df
           ∧ process_combined_data (clock w) samsara_data excel_df = Ok rows)
  ∧ (∀ columns rows, st_dataframe (Some columns) rows ∈ events_of r → rows ≠ []).
Proof.
  cbn zeta.
  set (shown rows := rows ≠ []
    ∧ ∃ samsara_data excel_df,
        outcome_of (get_samsara_stats w token st) = Returned samsara_data
        ∧ outcome_of (get_excel_data w st) = Returned excel_df
        ∧ process_combined_data (clock w) samsara_data excel_df = Ok rows).
  set (ok e := match e with
               | requests_get _ _ => token ≠ "" ∧ button = true
               | to_csv rows | st_dataframe None rows => shown rows
               | st_dataframe (Some _) rows => rows ≠ []
               | _ => True
               end).
  enough (Hall : session_of (Basic.main mean token w button st) = st
    ∧ (token = "" → events_of (Basic.main mean token w button st)
                    = [st_message Body Error Token_not_configured])
    ∧ (button = false → token ≠ "" → events_of (Basic.main mean token w button st) = [])
    ∧ Forall ok (events_of (Basic.main mean token w button st))).
  { destruct Hall as (Hst & Htok & Hbut & Hall). rewrite Forall_forall in Hall.
    split_and!; try done.
    - intros url bearer Hin. apply (Hall _ Hin).
    - intros rows [Hin|Hin]; apply (Hall _ Hin).
    - intros columns rows Hin. apply (Hall _ Hin). }
  unfold Basic.main.
  destruct (String.eqb_spec token "") as [->|Htoken].
  { run_page. split_and!; try done. by all_events. }
  destruct button.
  2: { run_page. split_and!; try done. }
  destruct (get_samsara_stats_run w token st) as (o1 & evs1 & Hrun1 & Ho1 & Hevs1).
  destruct (get_excel_data_run w st) as (o2 & evs2 & Hrun2 & Ho2 & Hevs2).
  assert (Hfetch : ∀ evs, Forall fetch_event evs → Forall ok evs).
  { intros evs Hevs. eapply Forall_impl; [exact Hevs|].
    by intros [[] ?|[] [] ?|[]| | | | |]. }
  apply Hfetch in Hevs1, Hevs2.
  run_page. rewrite Hrun1. cbn.
  destruct o1 as [samsara_data|s1]; cbn; [|by split_and!].
  rewrite Hrun2. cbn.
  destruct o2 as [excel_df|s2]; cbn; [|split_and!; try done; all_events; assumption].
  destruct (truthy samsara_data && negb (Frame.empty excel_df)) eqn:Hgo; cbn;
    [|split_and!; try done; all_events; (assumption || done)].
  destruct (process_combined_data (clock w) samsara_data excel_df)
    as [combined_df|e] eqn:Hprocess; cbn; [|split_and!; try done; all_events; (assumption || done)].
  destruct (truthy combined_df) eqn:Hrows; cbn; [|split_and!; try done; all_events; (assumption || done)].
  apply truthy_length in Hrows.
  assert (Hshown : shown combined_df).
  { split; [done|]. exists samsara_data, excel_df. by rewrite Hrun1, Hrun2. }
  assert (Htable : ∀ evs,
    Forall (λ e, match e with
                 | st_message _ _ _ => True
                 | st_dataframe (Some _) rows => rows ≠ []
                 | _ => False
                 end) evs → Forall ok evs).
  { intros evs Hevs. eapply Forall_impl; [exact Hevs|].
    by intros [| |[]| | | | |]. }
  unfold Basic.show_fleet.
  cbn -[get_samsara_stats get_excel_data process_combined_data Basic.alert_table].
  run_page.
  repeat match goal with
  | |- context [Basic.alert_table ?l ?m ?c ?t ?s] =>
      let evs := fresh "evs" in
      let H := fresh "Hevs" in
      destruct (alert_table_run l m c t s) as (evs & -> & H%Htable);
      cbn -[get_samsara_stats get_excel_data process_combined_data Basic.alert_table]
  end.
  destruct (write_csv w combined_df) as [[]|s]; cbn.
  all: split_and!; try done; all_events; (assumption || done).
Qed.
















End Scripts.

(** ** Instances of the further properties *)

Lemma date_formats_exclusive_witness :
  Strptime.strptime "01/02/2025" "%m/%d/%Y" = Ok (mk_datetime 2025 1 2 0 0 0 0)
  ∧ Strptime.strptime "01/02/2025" "%Y-%m-%d" = Raise ValueError.
Proof.
  assert (H : Strptime.strptime "01/02/2025" "%m/%d/%Y" = Ok (mk_datetime 2025 1 2 0 0 0 0))
    by (vm_compute; reflexivity).
  split; [exact H|].
  exact (date_formats_exclusive "01/02/2025" "%m/%d/%Y" "%Y-%m-%d" _
           ltac:(compute_done) ltac:(compute_done) ltac:(discriminate) H).
Defined.

Lemma calculate_days_remaining_by_format_witness :
  time_fields_ok noon = true
  ∧ calculate_days_remaining noon (ArgStr "2025-02-14") = Ok (Some 29).
Proof.
  split; [reflexivity|].
  destruct (calculate_days_remaining_by_format noon "2025-02-14" eq_refl) as [_ H].
  destruct (H "%Y-%m-%d" (mk_datetime 2025 2 14 0 0 0 0)
              ltac:(compute_done) ltac:(vm_compute; reflexivity)) as [_ Hdays].
  exact Hdays.
Defined.

Lemma text_after_date_is_absent_witness :
  calculate_days_remaining noon (ArgStr "02/14/2025 10:30") = Ok None.
Proof.
  apply (text_after_date_is_absent noon 2025 2 14 "%m/%d/%Y" " 10:30");
    [lia|lia|lia|compute_done|discriminate].
Defined.

Lemma two_digit_year_is_absent_witness :
  calculate_days_remaining noon (ArgStr "02/14/25") = Ok None.
Proof.
  apply (two_digit_year_is_absent noon 25 2 14 "%m/%d/%Y"); [lia|lia|lia|compute_done].
Defined.

Lemma impossible_date_is_absent_witness :
  date_fields_ok 2025 2 30 = false
  ∧ calculate_days_remaining noon (ArgStr "2025-02-30") = Ok None.
Proof.
  split; [reflexivity|].
  apply (impossible_date_is_absent noon 2025 2 30 "%Y-%m-%d");
    [lia|lia|lia|compute_done|reflexivity].
Defined.

Lemma zero_padding_is_optional_witness :
  calculate_days_remaining noon (ArgStr "2/5/2025")
  = calculate_days_remaining noon (ArgStr "02/05/2025")
  ∧ parse_date "2/5/2025" = Some (mk_datetime 2025 2 5 0 0 0 0).
Proof.
  apply (zero_padding_is_optional noon 2025 2 5 "2" "5" "%m/%d/%Y");
    [reflexivity|compute_done|compute_done|compute_done].
Defined.

Lemma get_alert_status_monotone_witness :
  severity (get_alert_status (Some 45)) <= severity (get_alert_status (Some 10)).
Proof. apply (get_alert_status_monotone 10 45). lia. Defined.

Lemma alert_by_calendar_days_witness :
  ymd2ord 2025 2 15 = toordinal noon + 31
  ∧ ∃ days,
      calculate_days_remaining noon (ArgStr "02/15/2025") = Ok (Some days)
      ∧ get_alert_status (Some days) = "CRITICAL".
Proof.
  split; [reflexivity|].
  destruct (alert_by_calendar_days noon 2025 2 15 31 "%m/%d/%Y")
    as (days & Hdays & _ & Hcritical & _);
    [reflexivity|reflexivity|reflexivity|reflexivity|compute_done|].
  exists days. split; [exact Hdays|]. apply Hcritical. lia.
Defined.

Lemma cleaned_frame_has_vin_last_witness :
  clean_excel_data sheet_two_unnamed = Ok sheet_one_unnamed
  ∧ columns sheet_one_unnamed = ["Unnamed: 1"; "TRUCK_ID"; "VIN"]
  ∧ Forall (λ x, is_vin_column (upper x) = false) ["Unnamed: 1"; "TRUCK_ID"].
Proof.
  assert (H : clean_excel_data sheet_two_unnamed = Ok sheet_one_unnamed)
    by (vm_compute; reflexivity).
  split; [exact H|]. split; [reflexivity|].
  destruct (cleaned_frame_has_vin_last sheet_two_unnamed sheet_one_unnamed
              ["Unnamed: 1"; "TRUCK_ID"] [] "VIN" H eq_refl eq_refl eq_refl)
    as [_ Hpre].
  exact Hpre.
Defined.


Lemma extract_reads_the_matched_row_witness :
  find_excel_match "T-1" "" sheet_T1 = Some 0%nat
  ∧ ∃ row excel_data,
      Frame.iloc sheet_T1 0 = Ok row
      ∧ row_label row = 0%nat
      ∧ extract_excel_data 0 sheet_T1 = Ok excel_data
      ∧ excel_data !! "status" = Some (field_of sheet_T1 row "status").
Proof.
  split; [reflexivity|].
  destruct (extract_reads_the_matched_row sheet_T1 "T-1" "" 0 eq_refl eq_refl)
    as (row & c & Hrow & Hlabel & _ & _ & excel_data & Hdata & Hroles).
  exists row, excel_data. split; [exact Hrow|]. split; [exact Hlabel|].
  split; [exact Hdata|]. apply Hroles. compute_done.
Defined.

Lemma missing_column_gives_no_data_witness :
  qualifying "pm_date" (columns sheet_T1) = []
  ∧ ∃ info,
      process_combined_data clock_at_noon [vehicle_T1] sheet_T1 = Ok [info]
      ∧ PM_Date info = ""
      ∧ PM_Days_Remaining info = None
      ∧ PM_Alert info = "No Data".
Proof.
  split; [reflexivity|].
  destruct (process_combined_data clock_at_noon [vehicle_T1] sheet_T1) as [out|e] eqn:Hout;
    [|vm_compute in Hout; discriminate].
  pose proof (missing_column_gives_no_data _ _ _ _ Hout) as (_ & _ & Hpm & _).
  specialize (Hpm eq_refl).
  vm_compute in Hout. injection Hout as <-.
  eexists. split; [reflexivity|]. exact (Forall_inv Hpm).
Defined.

Lemma records_are_consistent_witness :
  ∃ info,
    process_combined_data clock_at_noon [vehicle_T1] sheet_T1 = Ok [info]
    ∧ Annual_Alert info = get_alert_status (Annual_Days_Remaining info)
    ∧ (PM_Days_Remaining info = None ↔ parse_date (PM_Date info) = None).
Proof.
  destruct (process_combined_data clock_at_noon [vehicle_T1] sheet_T1) as [out|e] eqn:Hout;
    [|vm_compute in Hout; discriminate].
  pose proof (records_are_consistent _ _ _ _ Hout) as Hall.
  vm_compute in Hout. injection Hout as <-.
  eexists. split; [reflexivity|].
  destruct (Forall_inv Hall) as (Ha & _ & _ & _ & Hpm & _).
  split; [exact Ha|exact Hpm].
Defined.

Lemma process_combined_data_on_fresh_index_witness :
  Frame.index sheet_T1 = seq 0 (length (rows sheet_T1))
  ∧ ∃ out,
      process_combined_data clock_at_noon [vehicle_T1] sheet_T1 = Ok out
      ∧ Forall2 record_of (List.filter (matched sheet_T1) [vehicle_T1]) out
      ∧ Forall (filled_from clock_at_noon sheet_T1) out.
Proof.
  split; [reflexivity|].
  apply (process_combined_data_on_fresh_index clock_at_noon [vehicle_T1] sheet_T1);
    [reflexivity|].
  repeat constructor; eexists; vm_compute; reflexivity.
Defined.

Lemma compliance_by_days_remaining_witness :
  ∃ info,
    process_combined_data clock_at_noon [vehicle_T1] sheet_T1 = Ok [info]
    ∧ due_in (Annual_Days_Remaining info) (λ d, d <= 30)
    ∧ PM_Days_Remaining info = None
    ∧ compliance_label info = "Needs Attention".
Proof.
  destruct (process_combined_data clock_at_noon [vehicle_T1] sheet_T1) as [out|e] eqn:Hout;
    [|vm_compute in Hout; discriminate].
  assert (Hby := λ info, compliance_by_days_remaining _ _ _ _ info Hout).
  vm_compute in Hout. injection Hout as <-.
  eexists. split; [reflexivity|].
  match goal with
  | |- due_in (Annual_Days_Remaining ?i) _ ∧ _ =>
      destruct (Hby i (list_elem_of_here _ _)) as (_ & Hattention & _)
  end.
  assert (Hdue : due_in (Some (-1842)) (λ d, d <= 30)) by (cbn; lia).
  split; [exact Hdue|]. split; [reflexivity|].
  apply Hattention. left. exact Hdue.
Defined.

Lemma summaries_read_two_alerts_and_mileage_witness :
  PM_Insp_Alert record_inspected ≠ PM_Insp_Alert record_not_inspected
  ∧ create_metrics_summary mean_of_sum [record_inspected]
    = create_metrics_summary mean_of_sum [record_not_inspected]
  ∧ create_simple_overview_chart mean_of_sum [record_inspected]
    = create_simple_overview_chart mean_of_sum [record_not_inspected].
Proof.
  split; [discriminate|].
  destruct (summaries_read_two_alerts_and_mileage mean_of_sum
              [record_inspected] [record_not_inspected]) as (Hm & Hc & _).
  - repeat constructor.
  - split; [exact Hm|exact Hc].
Defined.




(** ** get_alert_status *)

(** C3: [get_alert_status] is defined on every day offset and on the absent
    offset, and its tiers have exactly these boundaries: absent is No Data,
    a negative offset is OVERDUE, 0..30 is CRITICAL, 31..60 is WARNING and
    anything above 60 is OK; so -1, 0, 30, 31, 60, 61 fall as the spec
    lists them. *)
Theorem get_alert_status_boundaries :
  get_alert_status None = "No Data"
  ∧ (∀ d : Z,
       (d < 0 ↔ get_alert_status (Some d) = "OVERDUE")
       ∧ (0 <= d <= 30 ↔ get_alert_status (Some d) = "CRITICAL")
       ∧ (31 <= d <= 60 ↔ get_alert_status (Some d) = "WARNING")
       ∧ (60 < d ↔ get_alert_status (Some d) = "OK"))
  ∧ get_alert_status (Some (-1)) = "OVERDUE"
  ∧ get_alert_status (Some 0) = "CRITICAL"
  ∧ get_alert_status (Some 30) = "CRITICAL"
  ∧ get_alert_status (Some 31) = "WARNING"
  ∧ get_alert_status (Some 60) = "WARNING"
  ∧ get_alert_status (Some 61) = "OK".
Proof.
  split; [reflexivity|]. split; [|repeat split; reflexivity].
  intros d. unfold get_alert_status.
  destruct (Z.ltb_spec d 0); [|destruct (Z.leb_spec d 30); [|destruct (Z.leb_spec d 60)]];
    repeat split; intros; first [lia | discriminate | reflexivity].
Qed.
